(** * community-group-google-scripts: the reminder script, embedded and verified

    A shallow embedding of [script.js] (Google Apps Script): the base-date
    parser [parseBaseDate_], the window scan [getNextUpcomingRow_], the row
    classifier [isNoGroupRow_], the three message builders, the recipient
    validation of [sendEmailToRecipients_] and the orchestration in
    [performReminderSend_].

    Conventions of the embedding.
    - A JavaScript string is a [string]; its characters are code units in
      the Latin-1 range.
    - A [Date] is its time value: [Some t] with [t] milliseconds since the
      epoch, or [None] for an Invalid Date (time value NaN).
    - The parts of the platform that the language standard leaves to the
      host (the local time zone adjustment, [Date.parse] on free text,
      number and date stringification) and the Apps Script services
      [Utilities.formatDate] and [Session.getScriptTimeZone] are the
      fields of a [Host].
    - Reading the clock ([new Date()]) takes the current instant from the
      [World] the script runs in.
    - Code that can throw returns [Exc]. *)

From Stdlib Require Import ZArith Lia Bool Ascii String List QArith.Qround QArith.QArith_base.
From stdpp Require Import base option list strings gmap.

Local Open Scope Z_scope.

(** ** Characters and strings *)

Module Chars.

Definition code (c : ascii) : nat := nat_of_ascii c.

(** [\d] of a JavaScript regular expression: the ten ASCII digits. *)
Definition isDigit (c : ascii) : bool :=
  (48 <=? code c)%nat && (code c <=? 57)%nat.

(** [\s], and the characters that [String.prototype.trim] strips: tab, line
    feed, vertical tab, form feed, carriage return, space and no-break
    space (the white space and line terminators below U+0100). *)
Definition isWhiteSpace (c : ascii) : bool :=
  ((9 <=? code c)%nat && (code c <=? 13)%nat)
  || (code c =? 32)%nat || (code c =? 160)%nat.

(** [[^\s@]]. *)
Definition notSpaceNorAt (c : ascii) : bool :=
  negb (isWhiteSpace c) && negb (code c =? 64)%nat.

(** [[\/\-]]. *)
Definition isSlashOrDash (c : ascii) : bool :=
  (code c =? 47)%nat || (code c =? 45)%nat.

Definition isChar (x : ascii) (c : ascii) : bool := (code c =? code x)%nat.

(** One code unit of [String.prototype.toLowerCase]. *)
Definition toLower (c : ascii) : ascii :=
  let n := code c in
  if ((65 <=? n)%nat && (n <=? 90)%nat)
     || ((192 <=? n)%nat && (n <=? 222)%nat && negb (n =? 215)%nat)
  then ascii_of_nat (n + 32) else c.

Definition digitValue (c : ascii) : Z := Z.of_nat (code c) - 48.

End Chars.

Module Str.

Definition isEmpty (s : string) : bool :=
  match s with EmptyString => true | String _ _ => false end.

Fixpoint trimStart (s : string) : string :=
  match s with
  | EmptyString => EmptyString
  | String c r => if Chars.isWhiteSpace c then trimStart r else s
  end.

Fixpoint trimEnd (s : string) : string :=
  match s with
  | EmptyString => EmptyString
  | String c r =>
      let r' := trimEnd r in
      if Chars.isWhiteSpace c && isEmpty r' then EmptyString else String c r'
  end.

(** [String.prototype.trim]. *)
Definition trim (s : string) : string := trimEnd (trimStart s).

(** [String.prototype.toLowerCase]. *)
Fixpoint toLowerCase (s : string) : string :=
  match s with
  | EmptyString => EmptyString
  | String c r => String (Chars.toLower c) (toLowerCase r)
  end.

Definition chars (s : string) : list ascii := list_ascii_of_string s.
Definition ofChars (l : list ascii) : string := string_of_list_ascii l.

(** [Array.prototype.join] on strings. *)
Fixpoint join (sep : string) (l : list string) : string :=
  match l with
  | [] => EmptyString
  | [x] => x
  | x :: r => x +:+ sep +:+ join sep r
  end.

(** [String.prototype.split] on a one-character separator. *)
Fixpoint split (sep : ascii) (s : string) : list string :=
  match s with
  | EmptyString => [EmptyString]
  | String c r =>
      if Chars.isChar sep c then EmptyString :: split sep r
      else match split sep r with
           | [] => [String c EmptyString]
           | x :: xs => String c x :: xs
           end
  end.

End Str.

(** ** Regular expressions

    The three patterns of the script are sequences of character classes
    with a bounded or unbounded repetition, some of them captured, between
    [^] and [$].  [exec] is the backtracking matcher: each item is greedy,
    it first takes the longest run and gives characters back one at a
    time. *)

Module Regex.

Record item := Item {
  cls : ascii -> bool;
  lo : nat;
  hi : option nat;
  captured : bool
}.

Definition pattern := list item.

(** Length of the longest prefix of [s] inside the class, at most [limit]. *)
Fixpoint span (p : ascii -> bool) (limit : option nat) (s : list ascii) : nat :=
  match s with
  | [] => 0%nat
  | c :: r =>
      match limit with
      | Some O => 0%nat
      | Some (S n) => if p c then S (span p (Some n) r) else 0%nat
      | None => if p c then S (span p None r) else 0%nat
      end
  end.

(** Try the counts [n], [n-1], ..., [lo]; the first success wins. *)
Fixpoint backtrack {A} (f : nat -> option A) (lo n : nat) : option A :=
  if (n <? lo)%nat then None
  else match f n with
       | Some r => Some r
       | None => match n with
                 | O => None
                 | S n' => backtrack f lo n'
                 end
       end.

Fixpoint exec (p : pattern) (s : list ascii) : option (list string) :=
  match p with
  | [] => match s with [] => Some [] | _ :: _ => None end
  | it :: rest =>
      backtrack
        (fun k =>
           match exec rest (drop k s) with
           | Some groups =>
               Some (if captured it then Str.ofChars (take k s) :: groups
                     else groups)
           | None => None
           end)
        (lo it) (span (cls it) (hi it) s)
  end.

(** [s.match(re)]: the captured groups, or [None] for [null]. *)
Definition matchGroups (p : pattern) (s : string) : option (list string) :=
  exec p (Str.chars s).

(** [re.test(s)]. *)
Definition test (p : pattern) (s : string) : bool :=
  match matchGroups p s with Some _ => true | None => false end.

Definition one (c : ascii -> bool) : item := Item c 1 (Some 1%nat) false.
Definition plus (c : ascii -> bool) : item := Item c 1 None false.
Definition group (c : ascii -> bool) (a b : nat) : item := Item c a (Some b) true.

(** [/^(\d{1,2})[\/\-](\d{1,2})[\/\-](\d{2,4})$/] *)
Definition slashDate : pattern :=
  [ group Chars.isDigit 1 2; one Chars.isSlashOrDash;
    group Chars.isDigit 1 2; one Chars.isSlashOrDash;
    group Chars.isDigit 2 4 ].

(** [/^(\d{4})-(\d{2})-(\d{2})$/] *)
Definition isoDate : pattern :=
  [ group Chars.isDigit 4 4; one (Chars.isChar "-");
    group Chars.isDigit 2 2; one (Chars.isChar "-");
    group Chars.isDigit 2 2 ].

(** [/^[^\s@]+@[^\s@]+\.[^\s@]+$/] *)
Definition email : pattern :=
  [ plus Chars.notSpaceNorAt; one (Chars.isChar "@");
    plus Chars.notSpaceNorAt; one (Chars.isChar ".");
    plus Chars.notSpaceNorAt ].

End Regex.

(** ** Time values and the calendar (ECMA-262, Date objects)

    Day numbers and time values are integers; every division is the floor
    division of the standard. *)

Module Time.

Definition msPerSecond : Z := 1000.
Definition msPerMinute : Z := 60000.
Definition msPerHour : Z := 3600000.
Definition msPerDay : Z := 86400000.
Definition maxTime : Z := 8640000000000000.

Definition Day (t : Z) : Z := t / msPerDay.
Definition TimeWithinDay (t : Z) : Z := t mod msPerDay.

Definition isLeap (y : Z) : bool :=
  (y mod 4 =? 0) && (negb (y mod 100 =? 0) || (y mod 400 =? 0)).

Definition DaysInYear (y : Z) : Z := if isLeap y then 366 else 365.

Definition DayFromYear (y : Z) : Z :=
  365 * (y - 1970) + (y - 1969) / 4 - (y - 1901) / 100 + (y - 1601) / 400.

(** The largest year whose first day is not after day [d]: an estimate
    from the mean year length, corrected by at most one. *)
Definition YearFromDay (d : Z) : Z :=
  let y := 1970 + (400 * d) / 146097 in
  if d <? DayFromYear y then y - 1
  else if DayFromYear (y + 1) <=? d then y + 1
  else y.

Definition YearFromTime (t : Z) : Z := YearFromDay (Day t).
Definition InLeapYear (t : Z) : bool := isLeap (YearFromTime t).
Definition DayWithinYear (t : Z) : Z := Day t - DayFromYear (YearFromTime t).

(** Day within the year on which month [m] (0 = January) starts. *)
Definition monthStart (m : Z) (leap : bool) : Z :=
  let l := if leap then 1 else 0 in
  if m <=? 0 then 0
  else if m =? 1 then 31
  else if m =? 2 then 59 + l
  else if m =? 3 then 90 + l
  else if m =? 4 then 120 + l
  else if m =? 5 then 151 + l
  else if m =? 6 then 181 + l
  else if m =? 7 then 212 + l
  else if m =? 8 then 243 + l
  else if m =? 9 then 273 + l
  else if m =? 10 then 304 + l
  else 334 + l.

Definition DaysInMonth (y m : Z) : Z :=
  if m =? 1 then (if isLeap y then 29 else 28)
  else if (m =? 3) || (m =? 5) || (m =? 8) || (m =? 10) then 30
  else 31.

Definition monthOfYearDay (d : Z) (leap : bool) : Z :=
  let l := if leap then 1 else 0 in
  if d <? 31 then 0
  else if d <? 59 + l then 1
  else if d <? 90 + l then 2
  else if d <? 120 + l then 3
  else if d <? 151 + l then 4
  else if d <? 181 + l then 5
  else if d <? 212 + l then 6
  else if d <? 243 + l then 7
  else if d <? 273 + l then 8
  else if d <? 304 + l then 9
  else if d <? 334 + l then 10
  else 11.

Definition MonthFromTime (t : Z) : Z :=
  monthOfYearDay (DayWithinYear t) (InLeapYear t).

Definition DateFromTime (t : Z) : Z :=
  DayWithinYear t - monthStart (MonthFromTime t) (InLeapYear t) + 1.

Definition WeekDay (t : Z) : Z := (Day t + 4) mod 7.

Definition HourFromTime (t : Z) : Z := (t / msPerHour) mod 24.

Definition MakeTime (h m s ms : Z) : Z :=
  h * msPerHour + m * msPerMinute + s * msPerSecond + ms.

Definition MakeDay (year month date : Z) : Z :=
  let ym := year + month / 12 in
  let mn := month mod 12 in
  DayFromYear ym + monthStart mn (isLeap ym) + date - 1.

Definition MakeDate (day time : Z) : Z := day * msPerDay + time.

(** [None] is NaN. *)
Definition TimeClip (t : Z) : option Z :=
  if Z.abs t <=? maxTime then Some t else None.

End Time.

(** ** JavaScript values, exceptions and effects *)

(** A number: NaN, an infinity, or a finite value (a rational stands for
    the double). *)
Inductive JsNumber :=
| NaN
| Infinity (negative : bool)
| Finite (q : Q).

(** The values a sheet cell, a script property or a caller can hand to the
    script.  [VDate None] is an Invalid Date. *)
Inductive JsVal :=
| VUndefined
| VNull
| VBool (b : bool)
| VNum (n : JsNumber)
| VStr (s : string)
| VDate (tv : option Z).

Definition JsDate := option Z.
Definition Row := list JsVal.
Definition Table := list Row.

Inductive JsError :=
| TypeError (what : string)
| MissingProperty (key : string).

Inductive Exc (A : Type) :=
| Ok (a : A)
| Throw (e : JsError).

Arguments Ok {A} a.
Arguments Throw {A} e.

Definition Exc_bind {A B} (m : Exc A) (f : A -> Exc B) : Exc B :=
  match m with
  | Ok a => f a
  | Throw e => Throw e
  end.

Notation "'let!' x ':=' m 'in' k" := (Exc_bind m (fun x => k))
  (at level 10, x name, m at level 200, k at level 200,
   format "'[v' 'let!'  x  :=  m  'in' '/' k ']'").

(** What the script does to the outside world. *)
Inductive Effect :=
| Logger_log (message : string)
| MailApp_sendEmail (to subject htmlBody : string)
| UrlFetchApp_fetch (url bot_id text : string).

(** A run: the effects performed so far, and how the run ended. *)
Definition Run (A : Type) : Type := list Effect * Exc A.

Definition Run_bind {A B} (m : Run A) (f : A -> Run B) : Run B :=
  match m with
  | (l1, Ok a) => let (l2, r) := f a in (l1 ++ l2, r)
  | (l1, Throw e) => (l1, Throw e)
  end.

Definition Run_lift {A} (m : Exc A) : Run A := ([], m).
Definition Run_emit (l : list Effect) : Run unit := (l, Ok tt).

Notation "'run!' x ':=' m 'in' k" := (Run_bind m (fun x => k))
  (at level 10, x name, m at level 200, k at level 200,
   format "'[v' 'run!'  x  :=  m  'in' '/' k ']'").

(** The world a run reads: the clock, the script properties and the
    sheets of the spreadsheet. *)
Record World := {
  now : Z;
  properties : gmap string string;
  sheets : gmap string (list (list JsVal))
}.

(** The parts of the platform that the language standard leaves to the
    host, and the two Apps Script services the messages are formatted
    with.  The formatter is a service call: it may throw. *)
Record Host := {
  LocalTZA : Z -> bool -> Z;
  Date_parse : string -> option Z;
  Number_toString : JsNumber -> string;
  Date_toString : option Z -> string;
  Utilities_formatDate : option Z -> string -> string -> Exc string;
  Session_getScriptTimeZone : string
}.

Module Js.

(** ToBoolean. *)
Definition truthy (v : JsVal) : bool :=
  match v with
  | VUndefined | VNull => false
  | VBool b => b
  | VNum NaN => false
  | VNum (Infinity _) => true
  | VNum (Finite q) => negb (Qnum q =? 0)
  | VStr s => negb (Str.isEmpty s)
  | VDate _ => true
  end.

(** [a || b]. *)
Definition or_else (a b : JsVal) : JsVal := if truthy a then a else b.

(** [k[i]] on an array. *)
Definition index (k : list JsVal) (i : nat) : JsVal := default VUndefined (k !! i).

Fixpoint digitsValue (acc : Z) (s : string) : Z * nat :=
  match s with
  | EmptyString => (acc, 0%nat)
  | String c r =>
      if Chars.isDigit c then
        let (v, n) := digitsValue (acc * 10 + Chars.digitValue c) r in (v, S n)
      else (acc, 0%nat)
  end.

(** [parseInt(s, 10)]; [None] is NaN. *)
Definition parseInt10 (s : string) : option Z :=
  let s1 := Str.trimStart s in
  let '(sign, s2) :=
    match s1 with
    | String c r =>
        if Chars.isChar "-" c then (-1, r)
        else if Chars.isChar "+" c then (1, r)
        else (1, s1)
    | EmptyString => (1, s1)
    end in
  let (v, n) := digitsValue 0 s2 in
  match n with
  | O => None
  | S _ => Some (sign * v)
  end.

(** ToIntegerOrInfinity on a finite number: rounding toward zero. *)
Definition truncate (q : Q) : Z := Z.quot (Qnum q) (Zpos (Qden q)).

Definition TimeClipNumber (n : JsNumber) : JsDate :=
  match n with
  | NaN | Infinity _ => None
  | Finite q =>
      if Z.abs (Qnum q) <=? Time.maxTime * Zpos (Qden q)
      then Some (truncate q) else None
  end.

(** Relational comparison of two dates: false when either is invalid. *)
Definition Date_ge (a b : JsDate) : bool :=
  match a, b with
  | Some x, Some y => y <=? x
  | _, _ => false
  end.

Definition Date_le (a b : JsDate) : bool :=
  match a, b with
  | Some x, Some y => x <=? y
  | _, _ => false
  end.

(** A [Date] never holds a time value out of range. *)
Definition timeValue (tv : option Z) : JsDate := tv ≫= Time.TimeClip.

End Js.

(** ** The script *)

Section Script.

Variable host : Host.

(** *** Date objects in the local time zone of the host *)

Definition LocalTime (t : Z) : Z := t + LocalTZA host t true.
Definition UTC (t : Z) : Z := t - LocalTZA host t false.

(** [new Date()]. *)
Definition Date_now (w : World) : JsDate := Time.TimeClip (now w).

(** [new Date(value)]. *)
Definition Date_fromValue (v : JsVal) : JsDate :=
  match v with
  | VDate tv => Js.timeValue tv
  | VStr s => Date_parse host s ≫= Time.TimeClip
  | VUndefined => None
  | VNull => Time.TimeClip 0
  | VBool b => Time.TimeClip (if b then 1 else 0)
  | VNum n => Js.TimeClipNumber n
  end.

(** [new Date(year, month, day)]; a NaN component gives an Invalid Date. *)
Definition Date_ymd (year month day : option Z) : JsDate :=
  match year, month, day with
  | Some y, Some m, Some dt =>
      let yr := if (0 <=? y) && (y <=? 99) then 1900 + y else y in
      Time.TimeClip
        (UTC (Time.MakeDate (Time.MakeDay yr m dt) (Time.MakeTime 0 0 0 0)))
  | _, _, _ => None
  end.

(** [d.setHours(h, m, s, ms)], as the new value of [d]. *)
Definition setHours (d : JsDate) (h m s ms : Z) : JsDate :=
  t ← d;
  Time.TimeClip
    (UTC (Time.MakeDate (Time.Day (LocalTime t)) (Time.MakeTime h m s ms))).

(** [d.getDate()]; [None] is NaN. *)
Definition getDate (d : JsDate) : option Z :=
  t ← d; Some (Time.DateFromTime (LocalTime t)).

Definition getMonth (d : JsDate) : option Z :=
  t ← d; Some (Time.MonthFromTime (LocalTime t)).

Definition getFullYear (d : JsDate) : option Z :=
  t ← d; Some (Time.YearFromTime (LocalTime t)).

Definition getHours (d : JsDate) : option Z :=
  t ← d; Some (Time.HourFromTime (LocalTime t)).

(** [d.setDate(dt)], as the new value of [d]. *)
Definition setDate (d : JsDate) (dt : option Z) : JsDate :=
  t ← d; n ← dt;
  let t' := LocalTime t in
  Time.TimeClip
    (UTC (Time.MakeDate
            (Time.MakeDay (Time.YearFromTime t') (Time.MonthFromTime t') n)
            (Time.TimeWithinDay t'))).

(** *** Strings of values *)

(** ToString, as in a template literal. *)
Definition ToString (v : JsVal) : string :=
  match v with
  | VUndefined => "undefined"
  | VNull => "null"
  | VBool true => "true"
  | VBool false => "false"
  | VNum n => Number_toString host n
  | VStr s => s
  | VDate tv => Date_toString host tv
  end.

(** [v.toString()]: a TypeError on [undefined] and [null]. *)
Definition toStringMethod (v : JsVal) : Exc string :=
  match v with
  | VUndefined | VNull => Throw (TypeError "toString")
  | _ => Ok (ToString v)
  end.

(** *** Schedule lookup *)

Definition parseBaseDate_ (w : World) (optDate : JsVal) : Exc JsDate :=
  if negb (Js.truthy optDate) then
    Ok (setHours (Date_now w) 12 0 0 0)
  else
    match optDate with
    | VDate tv => Ok (setHours (Js.timeValue tv) 12 0 0 0)
    | _ =>
        let! str := toStringMethod (Js.or_else optDate (VStr EmptyString)) in
        let s := Str.trim str in
        if Str.isEmpty s then Ok (setHours (Date_now w) 12 0 0 0)
        else
          match Regex.matchGroups Regex.slashDate s with
          | Some m =>
              let month := (fun x => x - 1) <$> Js.parseInt10 (nth 0 m "undefined") in
              let day := Js.parseInt10 (nth 1 m "undefined") in
              let year := Js.parseInt10 (nth 2 m "undefined") in
              let year := (fun y => if y <? 100 then y + 2000 else y) <$> year in
              Ok (setHours (Date_ymd year month day) 12 0 0 0)
          | None =>
              match Regex.matchGroups Regex.isoDate s with
              | Some iso =>
                  let y := Js.parseInt10 (nth 0 iso "undefined") in
                  let mth := (fun x => x - 1) <$> Js.parseInt10 (nth 1 iso "undefined") in
                  let dy := Js.parseInt10 (nth 2 iso "undefined") in
                  Ok (setHours (Date_ymd y mth dy) 12 0 0 0)
              | None =>
                  let parsedGeneric := Date_fromValue (VStr s) in
                  match parsedGeneric with
                  | Some _ => Ok (setHours parsedGeneric 12 0 0 0)
                  | None => Ok (setHours (Date_now w) 12 0 0 0)
                  end
              end
          end
    end.

(** The loop of [getNextUpcomingRow_], entered at index [i]. *)
Fixpoint scanRows (data : Table) (today maxDate : JsDate) (i fuel : nat)
  : option Row :=
  match fuel with
  | O => None
  | S fuel' =>
      match data !! i with
      | None => None
      | Some k =>
          let rowDate := Date_fromValue (Js.index k 0) in
          if Js.Date_ge rowDate today && Js.Date_le rowDate maxDate
          then Some k
          else scanRows data today maxDate (S i) fuel'
      end
  end.

(** [None] is [null]. *)
Definition getNextUpcomingRow_ (w : World) (data : Table) (optBaseDate : JsVal)
  : Exc (option Row) :=
  let! today := parseBaseDate_ w optBaseDate in
  let maxDate := setDate today ((fun d => d + 7) <$> getDate today) in
  Ok (scanRows data today maxDate 1 (length data)).

Definition isNoGroupRow_ (k : option Row) : Exc bool :=
  match k with
  | None => Ok false
  | Some k =>
      let! str := toStringMethod (Js.or_else (Js.index k 2) (VStr EmptyString)) in
      let location := Str.toLowerCase (Str.trim str) in
      Ok (String.eqb location "no group")
  end.

Definition formatRowDate_ (value : JsVal) (pattern : string) : Exc string :=
  let d := setHours (Date_fromValue value) 12 0 0 0 in
  Utilities_formatDate host d (Session_getScriptTimeZone host) pattern.

Definition getShortDate_ (value : JsVal) : Exc string :=
  formatRowDate_ value "MM-dd".

(** *** Script properties and sheet access *)

Definition getProperty (w : World) (key : string) : option string :=
  properties w !! key.

(** The shape shared by the getters of required properties: a missing or
    empty value throws. *)
Definition requireProperty (w : World) (key : string) : Exc string :=
  match getProperty w key with
  | Some v => if Str.isEmpty v then Throw (MissingProperty key) else Ok v
  | None => Throw (MissingProperty key)
  end.

Definition getSheetId_ (w : World) : Exc string := requireProperty w "SHEET_ID".

Definition getGroupMeBotId_ (w : World) : Exc string :=
  requireProperty w "GROUPME_BOT_ID".

Definition getTestGroupMeBotId_ (w : World) : Exc string :=
  requireProperty w "TEST_GROUPME_BOT_ID".

Definition ScheduleSheetName : string := "Schedule".
Definition EmailSheetName : string := "Emails".

(** A sheet that does not exist is [null], and reading its range throws. *)
Definition getSheetData_ (w : World) (sheetName : string) : Exc Table :=
  let! _ := getSheetId_ w in
  match sheets w !! sheetName with
  | Some data => Ok data
  | None => Throw (TypeError "getDataRange")
  end.

Definition getSignupUrl_ (w : World) : Exc string :=
  let! sheetId := getSheetId_ w in
  Ok ("https://docs.google.com/spreadsheets/d/" +:+ sheetId +:+ "/edit?usp=sharing").

(** *** Message content *)

Definition nl : string := String (ascii_of_nat 10) EmptyString.
Definition dq : string := String (ascii_of_nat 34) EmptyString.

Definition buildEmailBody_ (w : World) (k : option Row) : Exc string :=
  match k with
  | None => Ok "No upcoming events found."
  | Some r =>
      let! noGroup := isNoGroupRow_ k in
      if noGroup then
        let! noGroupFormattedDate := getShortDate_ (Js.index r 0) in
        Ok ("NO GROUP for Mendez/Williams City Group on " +:+ noGroupFormattedDate)
      else
        let! formattedDate := formatRowDate_ (Js.index r 0) "EEEE, MMMM d, yyyy" in
        let! signupUrl := getSignupUrl_ w in
        Ok (nl
            +:+ "  <p><strong>Date:</strong> " +:+ formattedDate +:+ "</p>" +:+ nl
            +:+ "  <p><strong>Description:</strong> " +:+ ToString (Js.index r 1) +:+ "</p>" +:+ nl
            +:+ "  <p><strong>Location:</strong> " +:+ ToString (Js.index r 2) +:+ "</p>" +:+ nl
            +:+ "  <p><strong>Food Theme:</strong> " +:+ ToString (Js.index r 3) +:+ "</p>" +:+ nl
            +:+ "  <p><strong>Childcare Duty:</strong> " +:+ ToString (Js.index r 4) +:+ "</p>" +:+ nl
            +:+ "  <p><a href=" +:+ dq +:+ signupUrl +:+ dq
            +:+ ">Click here to sign up</a></p>" +:+ nl)
  end.

Definition buildEmailSubject_ (k : option Row) : Exc string :=
  match k with
  | None => Ok "Reminder for Mendez/Williams City Group"
  | Some r =>
      let! formattedDate := getShortDate_ (Js.index r 0) in
      let! noGroup := isNoGroupRow_ k in
      if noGroup then
        Ok ("NO GROUP for Mendez/Williams City Group on " +:+ formattedDate)
      else
        Ok ("Reminder for Mendez/Williams City Group on " +:+ formattedDate)
  end.

Definition buildGroupMeMessage_ (w : World) (k : option Row) : Exc string :=
  match k with
  | None => Ok "Reminder for Mendez/Williams City Group"
  | Some r =>
      let! shortDate := getShortDate_ (Js.index r 0) in
      let! noGroup := isNoGroupRow_ k in
      if noGroup then
        Ok ("NO GROUP for Mendez/Williams City Group on " +:+ shortDate)
      else
        let! signupUrl := getSignupUrl_ w in
        let lines :=
          [ "Reminder for Mendez/Williams City Group on " +:+ shortDate;
            "Description: " +:+ ToString (Js.index r 1);
            "Location: " +:+ ToString (Js.index r 2);
            "Food Theme: " +:+ ToString (Js.index r 3);
            "Childcare Duty: " +:+ ToString (Js.index r 4);
            "Sign up: " +:+ signupUrl ] in
        Ok (Str.join nl lines)
  end.

Record Reminder := {
  subject : string;
  emailBody : string;
  message : string;
  row : option Row
}.

Definition composeReminder_ (w : World) (r : option Row) : Exc Reminder :=
  let! s := buildEmailSubject_ r in
  let! b := buildEmailBody_ w r in
  let! m := buildGroupMeMessage_ w r in
  Ok {| subject := s; emailBody := b; message := m; row := r |}.

(** *** Recipients *)

(** The loop of [getEmailRecipients_] over the rows after the header. *)
Fixpoint collectEmails (rows : Table) : list JsVal :=
  match rows with
  | [] => []
  | r :: rest =>
      let email := Js.index r 0 in
      if Js.truthy email then email :: collectEmails rest
      else collectEmails rest
  end.

Definition getEmailRecipients_ (w : World) : Exc (list JsVal) :=
  let! data := getSheetData_ w EmailSheetName in
  Ok (collectEmails (drop 1 data)).

Definition getTestEmailRecipients_ (w : World) : Exc (list JsVal) :=
  let! value := requireProperty w "TEST_EMAIL_RECIPIENTS" in
  Ok (VStr <$> filter (fun e => Str.isEmpty e = false)
                      (Str.trim <$> Str.split "," value)).

Definition isValidEmail_ (email : string) : bool :=
  if Str.isEmpty email then false
  else if (320 <? String.length email)%nat then false
  else Regex.test Regex.email email.

(** [(r || "").toString().trim()] *)
Definition normalizeRecipient (r : JsVal) : Exc string :=
  let! s := toStringMethod (Js.or_else r (VStr EmptyString)) in
  Ok (Str.trim s).

Fixpoint Exc_map {A B} (f : A -> Exc B) (l : list A) : Exc (list B) :=
  match l with
  | [] => Ok []
  | x :: r =>
      let! y := f x in
      let! ys := Exc_map f r in
      Ok (y :: ys)
  end.

(** The validation loop of [sendEmailToRecipients_]: each recipient is
    pushed on one of the two arrays. *)
Fixpoint validateLoop (rs valid invalid : list string)
  : list string * list string :=
  match rs with
  | [] => (valid, invalid)
  | r :: rest =>
      if isValidEmail_ r then validateLoop rest (valid ++ [r]) invalid
      else validateLoop rest valid (invalid ++ [r])
  end.

(** The two arrays of [sendEmailToRecipients_] after its loop. *)
Definition partitionRecipients (recipients : list JsVal)
  : Exc (list string * list string) :=
  let! normalizedRecipients := Exc_map normalizeRecipient recipients in
  Ok (validateLoop normalizedRecipients [] []).

(** *** Sending *)

Definition sendEmailToRecipients_ (subj body : string) (recipients : list JsVal)
  : Run unit :=
  match recipients with
  | [] => Run_emit [Logger_log "No email recipients provided."]
  | _ :: _ =>
      run! parts := Run_lift (partitionRecipients recipients) in
      let '(validRecipients, invalidRecipients) := parts in
      run! _ :=
        (match invalidRecipients with
         | [] => Run_emit []
         | _ :: _ =>
             Run_emit [Logger_log ("Invalid email recipients provided: "
                                   +:+ Str.join "," invalidRecipients)]
         end) in
      match validRecipients with
      | [] => Run_emit [Logger_log "No valid email recipients provided."]
      | _ :: _ =>
          Run_emit [MailApp_sendEmail (Str.join "," validRecipients) subj body]
      end
  end.

Definition postGroupMeMessageWithBotId_ (botId text : string) : Run unit :=
  let msg := Str.trim text in
  if Str.isEmpty msg then Run_emit [Logger_log "No GroupMe message text provided."]
  else
    let normalizedBotId := Str.trim botId in
    if Str.isEmpty normalizedBotId
    then Run_emit [Logger_log "No GroupMe bot id provided."]
    else Run_emit [UrlFetchApp_fetch "https://api.groupme.com/v3/bots/post"
                     normalizedBotId msg].

Definition getRecipientsForMode_ (w : World) (mode : string) : Exc (list JsVal) :=
  if String.eqb mode "prod" then getEmailRecipients_ w
  else getTestEmailRecipients_ w.

Definition getGroupMeBotIdForMode_ (w : World) (mode : string) : Exc string :=
  if String.eqb mode "prod" then getGroupMeBotId_ w
  else getTestGroupMeBotId_ w.

Record Opts := {
  mode : string;
  sendEmail : bool;
  sendGroupMe : bool;
  optBaseDate : JsVal
}.

Definition performReminderSend_ (w : World) (opts : Opts) : Run unit :=
  let mode := if Str.isEmpty (mode opts) then "prod" else mode opts in
  run! scheduleData := Run_lift (getSheetData_ w ScheduleSheetName) in
  run! nextRow := Run_lift (getNextUpcomingRow_ w scheduleData (optBaseDate opts)) in
  run! reminder := Run_lift (composeReminder_ w nextRow) in
  run! _ :=
    (if sendEmail opts then
       run! recipients := Run_lift (getRecipientsForMode_ w mode) in
       sendEmailToRecipients_ (subject reminder) (emailBody reminder) recipients
     else Run_emit []) in
  if sendGroupMe opts then
    run! botId := Run_lift (getGroupMeBotIdForMode_ w mode) in
    postGroupMeMessageWithBotId_ botId (message reminder)
  else Run_emit [].

Definition sendNotif (w : World) : Run unit :=
  performReminderSend_ w
    {| mode := "prod"; sendEmail := true; sendGroupMe := true;
       optBaseDate := VUndefined |}.

Definition testSendNotif (w : World) : Run unit :=
  let baseProp := getProperty w "TEST_BASE_DATE" in
  run! base :=
    Run_lift
      (match baseProp with
       | Some p =>
           if Str.isEmpty p then Ok VUndefined
           else let! d := parseBaseDate_ w (VStr p) in Ok (VDate d)
       | None => Ok VUndefined
       end) in
  performReminderSend_ w
    {| mode := "test"; sendEmail := true; sendGroupMe := true;
       optBaseDate := base |}.

(** *** Notions the statements below are phrased with *)

(** The test of the loop body on a row. *)
Definition inWindow (today maxDate : JsDate) (k : Row) : bool :=
  let rowDate := Date_fromValue (Js.index k 0) in
  Js.Date_ge rowDate today && Js.Date_le rowDate maxDate.

(** [maxDate] as the script computes it from [today]. *)
Definition windowEnd (today : JsDate) : JsDate :=
  setDate today ((fun d => d + 7) <$> getDate today).

(** The selection and the three builders in one step, as the
    specification names it: [composeReminder (table, baseDate)]. *)
Definition composeReminder (w : World) (table : Table) (baseDate : JsVal)
  : Exc Reminder :=
  let! selected := getNextUpcomingRow_ w table baseDate in
  composeReminder_ w selected.

(** A zone in which the offset from UTC stays within a day, local
    midnight falls on its own day and local noon is never skipped or
    repeated.  Every zone with a fixed offset is one. *)
Record ZoneRegular : Prop := {
  offset_bounded : forall t b, Z.abs (LocalTZA host t b) <= Time.msPerDay;
  midnight_same_day :
    forall day, Time.Day (LocalTime (UTC (Time.MakeDate day 0))) = day;
  noon_round_trip :
    forall day,
      LocalTime (UTC (Time.MakeDate day (Time.MakeTime 12 0 0 0)))
      = Time.MakeDate day (Time.MakeTime 12 0 0 0)
}.

(** The inputs from which [parseBaseDate_] takes the day: a [Date], or a
    value whose trimmed text is not empty and matches one of the two
    patterns or is accepted by the generic parse. *)
Definition resolvesFromInput (v : JsVal) : Prop :=
  match v with
  | VDate _ => True
  | _ =>
      Js.truthy v = true
      /\ let s := Str.trim (ToString v) in
         Str.isEmpty s = false
         /\ (Regex.matchGroups Regex.slashDate s <> None
             \/ Regex.matchGroups Regex.isoDate s <> None
             \/ Date_fromValue (VStr s) <> None)
  end.

End Script.

(** ** The earlier revision of the script

    The revision of the script that first took a base date pins it to
    local midnight, where [script.js] pins it to local noon; the window
    scan is the same text in both. *)

Module Variant003.

Section Variant.

Variable host : Host.

Definition parseBaseDate_ (w : World) (optDate : JsVal) : Exc JsDate :=
  if negb (Js.truthy optDate) then
    Ok (setHours host (Date_now w) 0 0 0 0)
  else
    match optDate with
    | VDate tv => Ok (setHours host (Js.timeValue tv) 0 0 0 0)
    | _ =>
        let! str := toStringMethod host (Js.or_else optDate (VStr EmptyString)) in
        let s := Str.trim str in
        if Str.isEmpty s then Ok (setHours host (Date_now w) 0 0 0 0)
        else
          match Regex.matchGroups Regex.slashDate s with
          | Some m =>
              let month := (fun x => x - 1) <$> Js.parseInt10 (nth 0 m "undefined") in
              let day := Js.parseInt10 (nth 1 m "undefined") in
              let year := Js.parseInt10 (nth 2 m "undefined") in
              let year := (fun y => if y <? 100 then y + 2000 else y) <$> year in
              Ok (setHours host (Date_ymd host year month day) 0 0 0 0)
          | None =>
              match Regex.matchGroups Regex.isoDate s with
              | Some iso =>
                  let y := Js.parseInt10 (nth 0 iso "undefined") in
                  let mth := (fun x => x - 1) <$> Js.parseInt10 (nth 1 iso "undefined") in
                  let dy := Js.parseInt10 (nth 2 iso "undefined") in
                  Ok (setHours host (Date_ymd host y mth dy) 0 0 0 0)
              | None =>
                  let parsedGeneric := Date_fromValue host (VStr s) in
                  match parsedGeneric with
                  | Some _ => Ok (setHours host parsedGeneric 0 0 0 0)
                  | None => Ok (setHours host (Date_now w) 0 0 0 0)
                  end
              end
          end
    end.

Definition getNextUpcomingRow_ (w : World) (data : Table) (optBaseDate : JsVal)
  : Exc (option Row) :=
  let! today := parseBaseDate_ w optBaseDate in
  let maxDate := setDate host today ((fun d => d + 7) <$> getDate host today) in
  Ok (scanRows host data today maxDate 1 (length data)).

(** The entry points of the revision.  Its builders are those of
    [script.js], but for the sign-up URL, which they build in place from
    [getSheetId_] with the same text. *)

Definition sendScheduledEmailFromSheet (w : World) : Run unit :=
  run! scheduleData := Run_lift (getSheetData_ w ScheduleSheetName) in
  run! nextRow := Run_lift (getNextUpcomingRow_ w scheduleData VUndefined) in
  run! emailBody := Run_lift (buildEmailBody_ host w nextRow) in
  run! subject := Run_lift (buildEmailSubject_ host nextRow) in
  run! recipients := Run_lift (getEmailRecipients_ w) in
  sendEmailToRecipients_ host subject emailBody recipients.

Definition testSendScheduledEmailFromSheet (w : World) : Run unit :=
  run! scheduleData := Run_lift (getSheetData_ w ScheduleSheetName) in
  run! nextRow := Run_lift (getNextUpcomingRow_ w scheduleData VUndefined) in
  run! emailBody := Run_lift (buildEmailBody_ host w nextRow) in
  run! subject := Run_lift (buildEmailSubject_ host nextRow) in
  run! recipients := Run_lift (getTestEmailRecipients_ w) in
  sendEmailToRecipients_ host subject emailBody recipients.

Definition postGroupMeReminderFromSheet (w : World) : Run unit :=
  run! scheduleData := Run_lift (getSheetData_ w ScheduleSheetName) in
  run! nextRow := Run_lift (getNextUpcomingRow_ w scheduleData VUndefined) in
  run! message := Run_lift (buildGroupMeMessage_ host w nextRow) in
  run! botId := Run_lift (getGroupMeBotId_ w) in
  postGroupMeMessageWithBotId_ botId message.

Definition testPostGroupMeReminderFromSheet (w : World) : Run unit :=
  run! scheduleData := Run_lift (getSheetData_ w ScheduleSheetName) in
  run! nextRow := Run_lift (getNextUpcomingRow_ w scheduleData VUndefined) in
  run! message := Run_lift (buildGroupMeMessage_ host w nextRow) in
  run! botId := Run_lift (getTestGroupMeBotId_ w) in
  postGroupMeMessageWithBotId_ botId message.

Definition sendScheduledEmailAndGroupMeFromSheet (w : World) : Run unit :=
  run! scheduleData := Run_lift (getSheetData_ w ScheduleSheetName) in
  run! nextRow := Run_lift (getNextUpcomingRow_ w scheduleData VUndefined) in
  run! emailBody := Run_lift (buildEmailBody_ host w nextRow) in
  run! subject := Run_lift (buildEmailSubject_ host nextRow) in
  run! recipients := Run_lift (getEmailRecipients_ w) in
  run! _ := sendEmailToRecipients_ host subject emailBody recipients in
  run! message := Run_lift (buildGroupMeMessage_ host w nextRow) in
  run! botId := Run_lift (getGroupMeBotId_ w) in
  postGroupMeMessageWithBotId_ botId message.

Definition testSendScheduledEmailAndGroupMeFromSheet (w : World) (optBaseDate : JsVal)
  : Run unit :=
  run! scheduleData := Run_lift (getSheetData_ w ScheduleSheetName) in
  run! nextRow := Run_lift (getNextUpcomingRow_ w scheduleData optBaseDate) in
  run! emailBody := Run_lift (buildEmailBody_ host w nextRow) in
  run! subject := Run_lift (buildEmailSubject_ host nextRow) in
  run! recipients := Run_lift (getTestEmailRecipients_ w) in
  run! _ := sendEmailToRecipients_ host subject emailBody recipients in
  run! message := Run_lift (buildGroupMeMessage_ host w nextRow) in
  run! botId := Run_lift (getTestGroupMeBotId_ w) in
  postGroupMeMessageWithBotId_ botId message.

End Variant.

End Variant003.

(** ** Declarative readings

    What the specification says in words, as propositions: how a string
    splits along a pattern, the shape of an address, the number a run of
    digits denotes. *)

Module Shapes.
Import Regex.

(** [decomp p s gs]: [s] splits into consecutive runs, one per item of [p],
    each inside its class and its bounds; [gs] are the captured runs. *)
Inductive decomp : pattern -> list ascii -> list string -> Prop :=
| decomp_nil : decomp [] [] []
| decomp_cons it rest a b gs :
    Forall (fun c => cls it c = true) a ->
    (lo it <= length a)%nat ->
    (forall m, hi it = Some m -> (length a <= m)%nat) ->
    decomp rest b gs ->
    decomp (it :: rest) (a ++ b)
           (if captured it then Str.ofChars a :: gs else gs).

(** The shape of the specification: a non-empty run without white space
    or [@], an [@], a second such run, a dot, a third such run. *)
Definition emailShape (e : string) : Prop :=
  exists l d t : list ascii,
    Str.chars e = l ++ "@"%char :: d ++ "."%char :: t
    /\ l <> [] /\ d <> [] /\ t <> []
    /\ Forall (fun c => Chars.notSpaceNorAt c = true) l
    /\ Forall (fun c => Chars.notSpaceNorAt c = true) d
    /\ Forall (fun c => Chars.notSpaceNorAt c = true) t.

(** The number a run of decimal digits denotes. *)
Definition decimal (l : list ascii) : Z :=
  fold_left (fun acc c => acc * 10 + Chars.digitValue c) l 0.

End Shapes.

(** ** Shapes of text *)

Module Text.

(** White space only. *)
Definition blank (s : string) : Prop :=
  Forall (fun c => Chars.isWhiteSpace c = true) (Str.chars s).

(** No occurrence of the character. *)
Definition lacks (sep : ascii) (s : string) : Prop :=
  Forall (fun c => Chars.isChar sep c = false) (Str.chars s).

End Text.

(** ** A reference host

    A host with a fixed offset from UTC, used to run the script on
    concrete inputs.  Its formatter follows the pattern letters the script
    uses ([M], [d], [y], [E]), copies every other character and throws on
    an Invalid Date.  Its [Date.parse] recognises no free text, and its
    number printer prints the integral part. *)

Module RefHost.

Definition fixedZone (offset : Z) : Z -> bool -> Z := fun _ _ => offset.

Fixpoint showDigits (fuel : nat) (n : Z) (acc : string) : string :=
  match fuel with
  | O => acc
  | S fuel' =>
      let acc' := String (ascii_of_nat (48 + Z.to_nat (n mod 10))) acc in
      if n / 10 =? 0 then acc' else showDigits fuel' (n / 10) acc'
  end.

Definition showNat (n : Z) : string :=
  showDigits (S (Z.to_nat (Z.log2 n))) n EmptyString.

Fixpoint zeros (n : nat) : string :=
  match n with
  | O => EmptyString
  | S n' => String "0" (zeros n')
  end.

Definition pad (width : nat) (n : Z) : string :=
  let s := showNat n in
  zeros (width - String.length s) +:+ s.

Definition monthName (m : Z) : string :=
  nth (Z.to_nat m)
    [ "January"; "February"; "March"; "April"; "May"; "June"; "July";
      "August"; "September"; "October"; "November"; "December" ] "Undecimber".

Definition dayName (d : Z) : string :=
  nth (Z.to_nat d)
    [ "Sunday"; "Monday"; "Tuesday"; "Wednesday"; "Thursday"; "Friday";
      "Saturday" ] "Sunday".

Fixpoint repeatChar (c : ascii) (n : nat) : string :=
  match n with
  | O => EmptyString
  | S n' => String c (repeatChar c n')
  end.

(** The text of a run of [n] equal pattern characters [c] at local time [lt]. *)
Definition field (lt : Z) (c : ascii) (n : nat) : string :=
  if Chars.isChar "M" c then
    if (4 <=? n)%nat then monthName (Time.MonthFromTime lt)
    else if (n =? 3)%nat then String.substring 0 3 (monthName (Time.MonthFromTime lt))
    else pad n (Time.MonthFromTime lt + 1)
  else if Chars.isChar "d" c then pad n (Time.DateFromTime lt)
  else if Chars.isChar "y" c then
    if (n =? 2)%nat then pad 2 (Time.YearFromTime lt mod 100)
    else pad n (Time.YearFromTime lt)
  else if Chars.isChar "E" c then
    if (4 <=? n)%nat then dayName (Time.WeekDay lt)
    else String.substring 0 3 (dayName (Time.WeekDay lt))
  else repeatChar c n.

Definition flush (lt : Z) (cur : option (ascii * nat)) : string :=
  match cur with
  | Some (c, n) => field lt c n
  | None => EmptyString
  end.

Fixpoint formatRuns (lt : Z) (cur : option (ascii * nat)) (p : string) : string :=
  match p with
  | EmptyString => flush lt cur
  | String c r =>
      match cur with
      | Some (c0, n) =>
          if Chars.isChar c0 c then formatRuns lt (Some (c0, S n)) r
          else flush lt cur +:+ formatRuns lt (Some (c, 1%nat)) r
      | None => formatRuns lt (Some (c, 1%nat)) r
      end
  end.

Definition formatDate (offset : Z) (d : option Z) (timeZone pattern : string)
  : Exc string :=
  match d with
  | Some t => Ok (formatRuns (t + offset) None pattern)
  | None => Throw (TypeError "formatDate")
  end.

(** [Date.prototype.toString]. *)
Definition printDate (offset : Z) (d : option Z) : string :=
  match d with
  | Some t => formatRuns (t + offset) None "EEE MMM dd yyyy"
  | None => "Invalid Date"
  end.

Definition printNumber (n : JsNumber) : string :=
  match n with
  | NaN => "NaN"
  | Infinity false => "Infinity"
  | Infinity true => "-Infinity"
  | Finite q =>
      let z := Js.truncate q in
      if z <? 0 then "-" +:+ showNat (- z) else showNat z
  end.

(** The host at [offset] milliseconds east of UTC. *)
Definition at_offset (offset : Z) (zoneName : string) : Host :=
  {| LocalTZA := fixedZone offset;
     Date_parse := fun _ => None;
     Number_toString := printNumber;
     Date_toString := printDate offset;
     Utilities_formatDate := formatDate offset;
     Session_getScriptTimeZone := zoneName |}.

Definition utc : Host := at_offset 0 "UTC".

(** Mountain Standard Time, seven hours west of UTC. *)
Definition denver : Host := at_offset (-7 * Time.msPerHour) "America/Denver".

(** Local noon of a calendar day, as a time value of the host. *)
Definition noon (h : Host) (y m d : Z) : Z :=
  let lt := Time.MakeDate (Time.MakeDay y m d) (Time.MakeTime 12 0 0 0) in
  lt - LocalTZA h lt false.

Definition midnight (h : Host) (y m d : Z) : Z :=
  let lt := Time.MakeDate (Time.MakeDay y m d) 0 in
  lt - LocalTZA h lt false.

(** A world with the given clock, no property and no sheet. *)
Definition emptyWorld (clock : Z) : World :=
  {| now := clock; properties := ∅; sheets := ∅ |}.

End RefHost.

(** ** A concrete deployment

    The sheets and properties of the examples: the clock reads 09:00 UTC
    on 15 December 2025. *)

Module Scenario.

Definition clock : Z :=
  RefHost.midnight RefHost.utc 2025 11 15 + 9 * Time.msPerHour.

(** Midnight UTC, [n] days after the day of the clock. *)
Definition daysFromNow (n : Z) : JsVal :=
  VDate (Some (RefHost.midnight RefHost.utc 2025 11 (15 + n))).

Definition header : Row :=
  [VStr "Date"; VStr "Description"; VStr "Location"; VStr "Food"; VStr "Childcare"].

Definition tooFar : Row :=
  [daysFromNow 10; VStr "too far"; VStr "loc"; VStr "food"; VStr "cc"].

Definition soon : Row :=
  [daysFromNow 2; VStr "soon"; VStr "loc"; VStr "food"; VStr "cc"].

Definition sooner : Row :=
  [daysFromNow 1; VStr "even sooner but later in sheet"; VStr "loc";
   VStr "food"; VStr "cc"].

Definition schedule : Table := [header; tooFar; soon; sooner].

Definition noGroup : Row :=
  [VDate (Some (RefHost.midnight RefHost.utc 2025 11 17)); VStr "Desc";
   VStr "No Group"; VStr "Food"; VStr "Duty"].

(** A row whose date cell holds text that is no date. *)
Definition malformed : Row :=
  [VStr "TBD"; VStr "to be announced"; VStr "loc"; VStr "food"; VStr "cc"].

Definition emails : Table :=
  [[VStr "Email"]; [VStr "a@example.com"]; [VStr "not-an-email"];
   [VStr "b@test.org"]].

Definition world : World :=
  {| now := clock;
     properties :=
       <["SHEET_ID" := "SHEET123"]>
         (<["GROUPME_BOT_ID" := "BOT123"]> ∅);
     sheets :=
       <["Schedule" := schedule]> (<["Emails" := emails]> ∅) |}.

End Scenario.

(** ** A deployment with test settings *)

Module TestScenario.

Definition recipients : string := "a@example.com,b@test.org".

(** The test settings alone: no production bot id, no sheet [Emails]. *)
Definition testOnly : World :=
  {| now := Scenario.clock;
     properties :=
       <["SHEET_ID" := "SHEET123"]>
         (<["TEST_EMAIL_RECIPIENTS" := recipients]>
            (<["TEST_GROUPME_BOT_ID" := "TESTBOT"]>
               (<["TEST_BASE_DATE" := "12/14/2025"]> ∅)));
     sheets := <["Schedule" := Scenario.schedule]> ∅ |}.

(** Production and test settings together. *)
Definition full : World :=
  {| now := Scenario.clock;
     properties :=
       <["GROUPME_BOT_ID" := "BOT123"]> (properties testOnly);
     sheets := <["Emails" := Scenario.emails]> (sheets testOnly) |}.

(** Test recipients written with blanks and an empty entry. *)
Definition padded : World :=
  {| now := Scenario.clock;
     properties :=
       <["TEST_EMAIL_RECIPIENTS" := " a@example.com, ,b@test.org"]> ∅;
     sheets := ∅ |}.

(** No test bot id; the schedule holds a no-group row two days ahead. *)
Definition botless : World :=
  {| now := Scenario.clock;
     properties :=
       <["SHEET_ID" := "SHEET123"]>
         (<["TEST_EMAIL_RECIPIENTS" := recipients]> ∅);
     sheets := <["Schedule" := [Scenario.header; Scenario.noGroup]]> ∅ |}.

Definition noGroupText : string :=
  "NO GROUP for Mendez/Williams City Group on 12-17".

End TestScenario.

(** * Facts *)

(** ** Worked examples of the matcher *)

Example slashDate_ex1 :
  Regex.matchGroups Regex.slashDate "12/15/25" = Some ["12"; "15"; "25"].
Proof. reflexivity. Qed.

Example slashDate_ex2 :
  Regex.matchGroups Regex.slashDate "1-30-2026" = Some ["1"; "30"; "2026"].
Proof. reflexivity. Qed.

Example slashDate_ex3 : Regex.matchGroups Regex.slashDate "2025-12-17" = None.
Proof. reflexivity. Qed.

Example isoDate_ex1 :
  Regex.matchGroups Regex.isoDate "2025-12-17" = Some ["2025"; "12"; "17"].
Proof. reflexivity. Qed.

Example email_ex1 : Regex.test Regex.email "a@example.com" = true.
Proof. reflexivity. Qed.

Example email_ex2 : Regex.test Regex.email "not-an-email" = false.
Proof. reflexivity. Qed.

Example email_ex3 : Regex.test Regex.email "a@b.c.d" = true.
Proof. reflexivity. Qed.

Example trim_ex : Str.trim "  no group  " = "no group".
Proof. reflexivity. Qed.

(** ** The calendar *)

Example makeDay_ex1 : Time.MakeDay 2025 11 17 = 20439.
Proof. reflexivity. Qed.

Example yearFromTime_ex1 :
  let t := Time.MakeDate (Time.MakeDay 2025 11 17) (Time.MakeTime 12 0 0 0) in
  (Time.YearFromTime t, Time.MonthFromTime t, Time.DateFromTime t, Time.WeekDay t)
  = (2025, 11, 17, 3).
Proof. reflexivity. Qed.

Example yearFromTime_ex2 :
  let t := Time.MakeDate (Time.MakeDay 1969 11 31) 0 in
  (Time.YearFromTime t, Time.MonthFromTime t, Time.DateFromTime t) = (1969, 11, 31).
Proof. reflexivity. Qed.

Example makeDay_overflow :
  Time.MakeDay 2025 12 1 = Time.MakeDay 2026 0 1
  /\ Time.MakeDay 2025 1 30 = Time.MakeDay 2025 2 2.
Proof. split; reflexivity. Qed.

Module TimeFacts.
Import Time.

Lemma DayFromYear_succ y : DayFromYear (y + 1) = DayFromYear y + DaysInYear y.
Proof.
  unfold DayFromYear, DaysInYear, isLeap.
  destruct (y mod 4 =? 0) eqn:E4; destruct (y mod 100 =? 0) eqn:E100;
    destruct (y mod 400 =? 0) eqn:E400; cbn [andb orb negb];
    rewrite ?Z.eqb_eq, ?Z.eqb_neq in *;
    Z.to_euclidean_division_equations; lia.
Qed.

Lemma DayFromYear_mono y1 y2 : y1 <= y2 -> DayFromYear y1 <= DayFromYear y2.
Proof.
  unfold DayFromYear. intros. Z.to_euclidean_division_equations. lia.
Qed.

Lemma YearFromDay_spec d :
  DayFromYear (YearFromDay d) <= d < DayFromYear (YearFromDay d + 1).
Proof.
  unfold YearFromDay.
  set (y := 1970 + 400 * d / 146097).
  destruct (d <? DayFromYear y) eqn:E1; [|destruct (DayFromYear (y + 1) <=? d) eqn:E2].
  - apply Z.ltb_lt in E1. replace (y - 1 + 1) with y by lia. split; [|lia].
    revert E1. unfold DayFromYear, y. intros. Z.to_euclidean_division_equations. lia.
  - apply Z.ltb_ge in E1. apply Z.leb_le in E2. split; [lia|].
    revert E2. unfold DayFromYear, y. intros. Z.to_euclidean_division_equations. lia.
  - apply Z.ltb_ge in E1. apply Z.leb_gt in E2. lia.
Qed.

Lemma YearFromDay_unique y d :
  DayFromYear y <= d < DayFromYear (y + 1) -> YearFromDay d = y.
Proof.
  intros Hy. pose proof (YearFromDay_spec d) as Hs.
  destruct (Z.lt_trichotomy (YearFromDay d) y) as [Hlt | [Heq | Hgt]]; [|exact Heq|].
  - pose proof (DayFromYear_mono (YearFromDay d + 1) y ltac:(lia)). lia.
  - pose proof (DayFromYear_mono (y + 1) (YearFromDay d) ltac:(lia)). lia.
Qed.

Lemma Day_MakeDate day tod :
  0 <= tod < msPerDay -> Day (MakeDate day tod) = day.
Proof.
  intros H. unfold Day, MakeDate, msPerDay in *.
  Z.to_euclidean_division_equations. lia.
Qed.

Lemma TimeWithinDay_MakeDate day tod :
  0 <= tod < msPerDay -> TimeWithinDay (MakeDate day tod) = tod.
Proof.
  intros H. unfold TimeWithinDay, MakeDate, msPerDay in *.
  Z.to_euclidean_division_equations. lia.
Qed.

Lemma MakeDate_Day_TimeWithinDay t : MakeDate (Day t) (TimeWithinDay t) = t.
Proof.
  unfold MakeDate, Day, TimeWithinDay, msPerDay.
  Z.to_euclidean_division_equations. lia.
Qed.

Lemma TimeWithinDay_range t : 0 <= TimeWithinDay t < msPerDay.
Proof. unfold TimeWithinDay, msPerDay. apply Z.mod_pos_bound. lia. Qed.

Lemma monthOfYearDay_range d l : 0 <= monthOfYearDay d l <= 11.
Proof.
  unfold monthOfYearDay.
  repeat match goal with |- context [if ?c then _ else _] => destruct c end; lia.
Qed.

Lemma MonthFromTime_range t : 0 <= MonthFromTime t <= 11.
Proof. apply monthOfYearDay_range. Qed.

(** [MakeDay] on a month index in range does not touch the year. *)
Lemma MakeDay_in_range y m dt :
  0 <= m <= 11 ->
  MakeDay y m dt = DayFromYear y + monthStart m (isLeap y) + dt - 1.
Proof.
  intros Hm. unfold MakeDay.
  replace (m / 12) with 0 by (Z.to_euclidean_division_equations; lia).
  replace (m mod 12) with m by (Z.to_euclidean_division_equations; lia).
  now rewrite Z.add_0_r.
Qed.

(** Adding [n] to the day of the month moves the day number by [n],
    whatever month or year the result falls in. *)
Lemma MakeDay_shift t n :
  MakeDay (YearFromTime t) (MonthFromTime t) (DateFromTime t + n) = Day t + n.
Proof.
  rewrite MakeDay_in_range by apply MonthFromTime_range.
  unfold DateFromTime, DayWithinYear, InLeapYear. lia.
Qed.

Lemma monthOfYearDay_monthStart m dt y :
  0 <= m <= 11 -> 1 <= dt <= DaysInMonth y m ->
  monthOfYearDay (monthStart m (isLeap y) + dt - 1) (isLeap y) = m
  /\ 0 <= monthStart m (isLeap y) + dt - 1 < DaysInYear y.
Proof.
  intros Hm Hd.
  assert (Hcases : m = 0 \/ m = 1 \/ m = 2 \/ m = 3 \/ m = 4 \/ m = 5 \/ m = 6
                   \/ m = 7 \/ m = 8 \/ m = 9 \/ m = 10 \/ m = 11) by lia.
  unfold DaysInYear. unfold DaysInMonth in Hd.
  destruct (isLeap y);
    repeat (destruct Hcases as [-> | Hcases] || subst m);
    cbn in Hd; unfold monthOfYearDay, monthStart; cbn [Z.eqb Z.leb Z.compare Pos.compare Pos.compare_cont Pos.eqb];
    repeat match goal with
           | |- context [?a <? ?b] =>
               destruct (Z.ltb_spec a b); try lia
           end; lia.
Qed.

(** Reading back the fields of a day built from an in-range month and day. *)
Lemma civil_roundtrip y m dt tod :
  0 <= m <= 11 -> 1 <= dt <= DaysInMonth y m -> 0 <= tod < msPerDay ->
  let t := MakeDate (MakeDay y m dt) tod in
  YearFromTime t = y /\ MonthFromTime t = m /\ DateFromTime t = dt.
Proof.
  intros Hm Hd Ht t.
  destruct (monthOfYearDay_monthStart m dt y Hm Hd) as [Hmo Hr].
  assert (HD : Day t = DayFromYear y + monthStart m (isLeap y) + dt - 1).
  { unfold t. rewrite Day_MakeDate by assumption. now apply MakeDay_in_range. }
  assert (HY : YearFromTime t = y).
  { unfold YearFromTime. apply YearFromDay_unique.
    rewrite DayFromYear_succ, HD. lia. }
  assert (HW : DayWithinYear t = monthStart m (isLeap y) + dt - 1).
  { unfold DayWithinYear. rewrite HY, HD. lia. }
  assert (HM : MonthFromTime t = m).
  { unfold MonthFromTime, InLeapYear. rewrite HW, HY. exact Hmo. }
  repeat split; try assumption.
  unfold DateFromTime, InLeapYear. rewrite HM, HW, HY. lia.
Qed.

Lemma monthStart_range m l : 0 <= monthStart m l <= 335.
Proof.
  unfold monthStart. destruct l;
    repeat match goal with |- context [if ?c then _ else _] => destruct c end; lia.
Qed.

(** Day numbers of the years the patterns can name are far inside the
    range of time values. *)
Lemma MakeDay_bound year month date :
  0 <= year <= 9999 -> -1 <= month <= 98 -> 0 <= date <= 99 ->
  -1000000 <= MakeDay year month date <= 4000000.
Proof.
  intros Hy Hm Hd. unfold MakeDay.
  pose proof (monthStart_range (month mod 12) (isLeap (year + month / 12))).
  unfold DayFromYear. Z.to_euclidean_division_equations. lia.
Qed.

Lemma HourFromTime_noon day : HourFromTime (MakeDate day (MakeTime 12 0 0 0)) = 12.
Proof.
  unfold HourFromTime, MakeDate, MakeTime, msPerDay, msPerHour, msPerMinute,
    msPerSecond.
  Z.to_euclidean_division_equations. lia.
Qed.

End TimeFacts.

(** ** Worked examples of the script on the reference host *)

Example formatDate_ex1 :
  RefHost.formatDate 0 (Some (RefHost.noon RefHost.utc 2025 11 17)) "UTC" "MM-dd"
  = Ok "12-17".
Proof. reflexivity. Qed.

Example formatDate_ex2 :
  RefHost.formatDate 0 (Some (RefHost.noon RefHost.utc 2025 11 17)) "UTC"
    "EEEE, MMMM d, yyyy"
  = Ok "Wednesday, December 17, 2025".
Proof. reflexivity. Qed.

Example parseBaseDate_ex1 :
  parseBaseDate_ RefHost.utc (RefHost.emptyWorld 0) (VStr "12/15/25")
  = Ok (Some (RefHost.noon RefHost.utc 2025 11 15)).
Proof. reflexivity. Qed.

Example parseBaseDate_ex2 :
  parseBaseDate_ RefHost.denver (RefHost.emptyWorld 0) (VStr " 2025-12-17 ")
  = Ok (Some (RefHost.noon RefHost.denver 2025 11 17)).
Proof. reflexivity. Qed.

Example parseBaseDate_ex3 :
  parseBaseDate_ RefHost.utc (RefHost.emptyWorld 0) (VStr "02/30/2025")
  = Ok (Some (RefHost.noon RefHost.utc 2025 2 2)).
Proof. reflexivity. Qed.

(** ** The matcher against a declarative reading of the patterns *)

Module RegexFacts.
Import Regex Shapes.

Lemma backtrack_eq {A} (f : nat -> option A) lo n :
  backtrack f lo n =
  if (n <? lo)%nat then None
  else match f n with
       | Some r => Some r
       | None => match n with
                 | O => None
                 | S n' => backtrack f lo n'
                 end
       end.
Proof. destruct n; reflexivity. Qed.

Lemma backtrack_Some {A} (f : nat -> option A) lo n r :
  backtrack f lo n = Some r -> exists k, (lo <= k <= n)%nat /\ f k = Some r.
Proof.
  induction n as [|n IH]; rewrite backtrack_eq; intros H.
  - destruct (Nat.ltb_spec 0 lo) as [Hlt|Hge]; [discriminate|].
    destruct (f 0%nat) eqn:F; [|discriminate].
    exists 0%nat. split; [lia|congruence].
  - destruct (Nat.ltb_spec (S n) lo) as [Hlt|Hge]; [discriminate|].
    destruct (f (S n)) eqn:F.
    + exists (S n). split; [lia|congruence].
    + destruct (IH H) as (k & Hk & Hf). exists k. split; [lia|exact Hf].
Qed.

Lemma backtrack_None {A} (f : nat -> option A) lo n :
  backtrack f lo n = None -> forall k, (lo <= k <= n)%nat -> f k = None.
Proof.
  induction n as [|n IH]; rewrite backtrack_eq; intros H k Hk.
  - destruct (Nat.ltb_spec 0 lo) as [Hlt|Hge]; [lia|].
    destruct (f 0%nat) eqn:F; [discriminate|].
    replace k with 0%nat by lia. exact F.
  - destruct (Nat.ltb_spec (S n) lo) as [Hlt|Hge]; [lia|].
    destruct (f (S n)) eqn:F; [discriminate|].
    destruct (Nat.eq_dec k (S n)) as [->|Hne]; [exact F|].
    apply IH; [exact H|lia].
Qed.

Lemma span_le_length p lim s : (span p lim s <= length s)%nat.
Proof.
  revert lim. induction s as [|c r IH]; intros lim; cbn; [lia|].
  destruct lim as [[|n]|]; [lia| |]; destruct (p c); cbn; try lia.
  - specialize (IH (Some n)). lia.
  - specialize (IH None). lia.
Qed.

Lemma span_limit p m s : (span p (Some m) s <= m)%nat.
Proof.
  revert m. induction s as [|c r IH]; intros m; cbn; [lia|].
  destruct m as [|n]; [lia|]. destruct (p c); [|lia].
  specialize (IH n). lia.
Qed.

Lemma span_take p lim s k :
  (k <= span p lim s)%nat -> Forall (fun c => p c = true) (take k s).
Proof.
  revert lim k. induction s as [|c r IH]; intros lim k Hk.
  - rewrite take_nil. constructor.
  - destruct k as [|k]; [constructor|]. cbn in Hk |- *.
    destruct lim as [[|n]|]; [lia| |]; destruct (p c) eqn:Hp; try lia;
      (constructor; [exact Hp|]); eapply IH; apply Nat.succ_le_mono; exact Hk.
Qed.

Lemma span_prefix p lim a b :
  Forall (fun c => p c = true) a ->
  (forall m, lim = Some m -> (length a <= m)%nat) ->
  (length a <= span p lim (a ++ b))%nat.
Proof.
  revert lim. induction a as [|c a IH]; intros lim Hall Hlim; cbn; [lia|].
  inversion Hall as [|? ? Hc Ha]; subst.
  destruct lim as [[|n]|].
  - specialize (Hlim 0%nat eq_refl). cbn in Hlim. lia.
  - rewrite Hc. apply le_n_S, IH; [exact Ha|].
    intros m [= <-]. specialize (Hlim (S n) eq_refl). cbn in Hlim. lia.
  - rewrite Hc. apply le_n_S, IH; [exact Ha|]. intros m [=].
Qed.

(** Soundness: a result of the matcher is a decomposition. *)
Lemma exec_decomp p s gs : exec p s = Some gs -> decomp p s gs.
Proof.
  revert s gs. induction p as [|it rest IH]; intros s gs H; cbn in H.
  - destruct s; [|discriminate]. injection H as <-. constructor.
  - apply backtrack_Some in H as (k & [Hlo Hhi] & Hk).
    destruct (exec rest (drop k s)) as [gs'|] eqn:E; [|discriminate].
    injection Hk as <-.
    rewrite <- (take_drop k s) at 1.
    assert (Hlen : length (take k s) = k).
    { rewrite length_take. pose proof (span_le_length (cls it) (hi it) s). lia. }
    constructor.
    + eapply span_take; exact Hhi.
    + lia.
    + intros m Hm. rewrite Hlen. rewrite Hm in Hhi.
      pose proof (span_limit (cls it) m s). lia.
    + apply IH. exact E.
Qed.

(** Completeness: a string that decomposes is matched. *)
Lemma decomp_exec p s gs : decomp p s gs -> exists gs', exec p s = Some gs'.
Proof.
  induction 1 as [|it rest a b gs Hall Hlo Hhi Hrest [gs' IH]]; cbn.
  - eauto.
  - destruct (backtrack _ _ _) as [r|] eqn:E; [eauto|].
    exfalso.
    pose proof (backtrack_None _ _ _ E (length a)) as HN.
    cbv beta in HN. rewrite drop_app_length, IH in HN.
    assert (Hin : (lo it <= length a <= span (cls it) (hi it) (a ++ b))%nat).
    { split; [exact Hlo|]. apply span_prefix; assumption. }
    specialize (HN Hin). destruct (captured it); discriminate.
Qed.

Lemma test_iff p s :
  test p s = true <-> exists gs, decomp p (Str.chars s) gs.
Proof.
  unfold test, matchGroups. split.
  - destruct (exec p (Str.chars s)) as [gs|] eqn:E; [|discriminate].
    intros _. exists gs. now apply exec_decomp.
  - intros [gs H]. apply decomp_exec in H as [gs' ->]. reflexivity.
Qed.

End RegexFacts.

(** ** Digits, trimming and the groups of the date patterns *)

Module ParseFacts.
Import Regex Shapes RegexFacts.

Lemma isDigit_code c :
  Chars.isDigit c = true <-> (48 <= Chars.code c <= 57)%nat.
Proof.
  unfold Chars.isDigit. rewrite andb_true_iff, !Nat.leb_le. reflexivity.
Qed.

Lemma digit_not_space c : Chars.isDigit c = true -> Chars.isWhiteSpace c = false.
Proof.
  rewrite isDigit_code. unfold Chars.isWhiteSpace. intros H.
  repeat match goal with
         | |- context [(?a <=? ?b)%nat] => destruct (Nat.leb_spec a b)
         | |- context [(?a =? ?b)%nat] => destruct (Nat.eqb_spec a b)
         end; cbn; try reflexivity; lia.
Qed.

Lemma digit_not_sign c :
  Chars.isDigit c = true ->
  Chars.isChar "-" c = false /\ Chars.isChar "+" c = false.
Proof.
  rewrite isDigit_code. unfold Chars.isChar. intros H.
  change (Chars.code "-") with 45%nat. change (Chars.code "+") with 43%nat.
  split; apply Nat.eqb_neq; lia.
Qed.

Lemma digitValue_range c :
  Chars.isDigit c = true -> 0 <= Chars.digitValue c <= 9.
Proof. rewrite isDigit_code. unfold Chars.digitValue. lia. Qed.

Lemma fold_decimal_range l acc :
  Forall (fun c => Chars.isDigit c = true) l -> 0 <= acc ->
  acc * 10 ^ Z.of_nat (length l)
  <= fold_left (fun acc c => acc * 10 + Chars.digitValue c) l acc
  < (acc + 1) * 10 ^ Z.of_nat (length l).
Proof.
  intros Hall. revert acc. induction Hall as [|c l Hc Hl IH]; intros acc Hacc.
  - cbn. lia.
  - cbn [fold_left length]. rewrite Nat2Z.inj_succ, Z.pow_succ_r by lia.
    pose proof (digitValue_range c Hc) as Hd.
    specialize (IH (acc * 10 + Chars.digitValue c) ltac:(lia)).
    assert (0 < 10 ^ Z.of_nat (length l)) by (apply Z.pow_pos_nonneg; lia).
    nia.
Qed.

Lemma decimal_range l :
  Forall (fun c => Chars.isDigit c = true) l ->
  0 <= decimal l < 10 ^ Z.of_nat (length l).
Proof.
  intros H. pose proof (fold_decimal_range l 0 H ltac:(lia)) as B.
  unfold decimal. lia.
Qed.

Lemma digitsValue_digits l acc :
  Forall (fun c => Chars.isDigit c = true) l ->
  Js.digitsValue acc (Str.ofChars l)
  = (fold_left (fun acc c => acc * 10 + Chars.digitValue c) l acc, length l).
Proof.
  intros Hall. revert acc. induction Hall as [|c l Hc Hl IH]; intros acc.
  - reflexivity.
  - cbn [Str.ofChars string_of_list_ascii Js.digitsValue fold_left length].
    rewrite Hc. fold (Str.ofChars l). now rewrite IH.
Qed.

Lemma parseInt10_digits l :
  Forall (fun c => Chars.isDigit c = true) l -> l <> [] ->
  Js.parseInt10 (Str.ofChars l) = Some (decimal l).
Proof.
  intros Hall Hne. destruct l as [|c l]; [congruence|].
  inversion Hall as [|? ? Hc Hl]; subst.
  unfold Js.parseInt10.
  cbn [Str.ofChars string_of_list_ascii Str.trimStart].
  rewrite (digit_not_space c Hc).
  destruct (digit_not_sign c Hc) as [-> ->].
  change (String c (string_of_list_ascii l)) with (Str.ofChars (c :: l)).
  rewrite (digitsValue_digits (c :: l) 0 Hall). cbn [length].
  unfold decimal. f_equal. lia.
Qed.

Lemma ofChars_chars s : Str.ofChars (Str.chars s) = s.
Proof. apply string_of_list_ascii_of_string. Qed.

Lemma trimStart_id c l :
  Chars.isWhiteSpace c = false ->
  Str.trimStart (Str.ofChars (c :: l)) = Str.ofChars (c :: l).
Proof. intros H. cbn. now rewrite H. Qed.

Lemma trimEnd_id l c :
  Chars.isWhiteSpace c = false ->
  Str.trimEnd (Str.ofChars (l ++ [c])) = Str.ofChars (l ++ [c]).
Proof.
  intros H. induction l as [|x l IH]; cbn.
  - now rewrite H.
  - fold (Str.ofChars (l ++ [c])). rewrite IH.
    destruct l; cbn; now rewrite andb_false_r.
Qed.

(** A string that starts and ends with a character that is no white space
    is its own trim. *)
Lemma trim_id s c l c' :
  Str.chars s = c :: l ++ [c'] ->
  Chars.isWhiteSpace c = false -> Chars.isWhiteSpace c' = false ->
  Str.trim s = s.
Proof.
  intros Hs Hc Hc'. rewrite <- (ofChars_chars s), Hs. unfold Str.trim.
  rewrite trimStart_id by exact Hc.
  change (c :: l ++ [c']) with ((c :: l) ++ [c']).
  now apply trimEnd_id.
Qed.

Lemma last_split {A} (l : list A) : l <> [] -> exists l' x, l = l' ++ [x].
Proof.
  intros H. destruct (exists_last H) as (l' & x & ->). eauto.
Qed.

(** What [slashDate] captures: three runs of digits around two separators. *)
Lemma slashDate_groups s m :
  matchGroups slashDate s = Some m ->
  exists a b c : list ascii,
    m = [Str.ofChars a; Str.ofChars b; Str.ofChars c]
    /\ Forall (fun x => Chars.isDigit x = true) a
    /\ Forall (fun x => Chars.isDigit x = true) b
    /\ Forall (fun x => Chars.isDigit x = true) c
    /\ (1 <= length a <= 2)%nat /\ (1 <= length b <= 2)%nat
    /\ (2 <= length c <= 4)%nat
    /\ exists x y, Chars.isSlashOrDash x = true /\ Chars.isSlashOrDash y = true
                   /\ Str.chars s = a ++ x :: b ++ y :: c.
Proof.
  unfold matchGroups. intros H. apply exec_decomp in H. unfold slashDate in H.
  inversion H as [|i1 r1 a b1 g1 Ha Ha1 Ha2 D1]; subst; clear H.
  inversion D1 as [|i2 r2 x b2 g2 Hx Hx1 Hx2 D2]; subst; clear D1.
  inversion D2 as [|i3 r3 b b3 g3 Hb Hb1 Hb2 D3]; subst; clear D2.
  inversion D3 as [|i4 r4 y b4 g4 Hy Hy1 Hy2 D4]; subst; clear D3.
  inversion D4 as [|i5 r5 c b5 g5 Hc Hc1 Hc2 D5]; subst; clear D4.
  inversion D5; subst; clear D5.
  cbn in *.
  specialize (Ha2 _ eq_refl). specialize (Hb2 _ eq_refl).
  specialize (Hc2 _ eq_refl). specialize (Hx2 _ eq_refl).
  specialize (Hy2 _ eq_refl).
  destruct x as [|x0 [|? ?]]; cbn in Hx1, Hx2; try lia.
  destruct y as [|y0 [|? ?]]; cbn in Hy1, Hy2; try lia.
  inversion Hx; subst. inversion Hy; subst.
  exists a, b, c. rewrite app_nil_r in *.
  repeat split; try assumption; try lia.
  exists x0, y0. repeat split; try assumption.
Qed.

(** What [isoDate] captures: four, two and two digits around two dashes. *)
Lemma isoDate_groups s m :
  matchGroups isoDate s = Some m ->
  exists a b c : list ascii,
    m = [Str.ofChars a; Str.ofChars b; Str.ofChars c]
    /\ Forall (fun x => Chars.isDigit x = true) a
    /\ Forall (fun x => Chars.isDigit x = true) b
    /\ Forall (fun x => Chars.isDigit x = true) c
    /\ length a = 4%nat /\ length b = 2%nat /\ length c = 2%nat
    /\ Str.chars s = a ++ "-"%char :: b ++ "-"%char :: c.
Proof.
  unfold matchGroups. intros H. apply exec_decomp in H. unfold isoDate in H.
  inversion H as [|i1 r1 a b1 g1 Ha Ha1 Ha2 D1]; subst; clear H.
  inversion D1 as [|i2 r2 x b2 g2 Hx Hx1 Hx2 D2]; subst; clear D1.
  inversion D2 as [|i3 r3 b b3 g3 Hb Hb1 Hb2 D3]; subst; clear D2.
  inversion D3 as [|i4 r4 y b4 g4 Hy Hy1 Hy2 D4]; subst; clear D3.
  inversion D4 as [|i5 r5 c b5 g5 Hc Hc1 Hc2 D5]; subst; clear D4.
  inversion D5; subst; clear D5.
  cbn in *.
  specialize (Ha2 _ eq_refl). specialize (Hb2 _ eq_refl).
  specialize (Hc2 _ eq_refl). specialize (Hx2 _ eq_refl).
  specialize (Hy2 _ eq_refl).
  destruct x as [|x0 [|? ?]]; cbn in Hx1, Hx2; try lia.
  destruct y as [|y0 [|? ?]]; cbn in Hy1, Hy2; try lia.
  inversion Hx as [|? ? Hx0 _]; subst. inversion Hy as [|? ? Hy0 _]; subst.
  assert (x0 = "-"%char) as ->.
  { rewrite <- (ascii_nat_embedding x0). unfold Chars.isChar, Chars.code in Hx0.
    apply Nat.eqb_eq in Hx0. rewrite Hx0. reflexivity. }
  assert (y0 = "-"%char) as ->.
  { rewrite <- (ascii_nat_embedding y0). unfold Chars.isChar, Chars.code in Hy0.
    apply Nat.eqb_eq in Hy0. rewrite Hy0. reflexivity. }
  exists a, b, c. rewrite app_nil_r in *.
  repeat split; try assumption; try lia.
Qed.

End ParseFacts.

(** ** Recipient validation *)

Module EmailFacts.
Import Regex Shapes RegexFacts.

Lemma isChar_eq x c : Chars.isChar x c = true -> c = x.
Proof.
  unfold Chars.isChar, Chars.code. intros H. apply Nat.eqb_eq in H.
  rewrite <- (ascii_nat_embedding c), <- (ascii_nat_embedding x). now f_equal.
Qed.

(** A run matched by a single-character item is that character. *)
Lemma one_run x (a : list ascii) :
  Forall (fun c => Chars.isChar x c = true) a ->
  (1 <= length a)%nat -> (length a <= 1)%nat -> a = [x].
Proof.
  intros Hall H1 H2. destruct a as [|c [|c' a]]; cbn in *; try lia.
  inversion Hall as [|? ? Hc _]; subst. now rewrite (isChar_eq _ _ Hc).
Qed.

Lemma nonempty_length {A} (l : list A) : l <> [] <-> (1 <= length l)%nat.
Proof. destruct l; cbn; split; intros; try congruence; lia. Qed.

Lemma email_test_iff e : test email e = true <-> emailShape e.
Proof.
  rewrite test_iff. unfold email, emailShape. split.
  - intros [gs H].
    inversion H as [|i1 r1 l b1 g1 Hl Hl1 _ D1]; subst; clear H.
    inversion D1 as [|i2 r2 at_ b2 g2 Ha Ha1 Ha2 D2]; subst; clear D1.
    inversion D2 as [|i3 r3 d b3 g3 Hd Hd1 _ D3]; subst; clear D2.
    inversion D3 as [|i4 r4 dot b4 g4 Ho Ho1 Ho2 D4]; subst; clear D3.
    inversion D4 as [|i5 r5 t b5 g5 Ht Ht1 _ D5]; subst; clear D4.
    inversion D5; subst; clear D5.
    cbn in *.
    rewrite (one_run _ _ Ha Ha1 (Ha2 _ eq_refl)).
    rewrite (one_run _ _ Ho Ho1 (Ho2 _ eq_refl)).
    exists l, d, t. rewrite app_nil_r.
    repeat split; try assumption; now apply nonempty_length.
  - intros (l & d & t & -> & Hl & Hd & Ht & Fl & Fd & Ft).
    exists [].
    change (l ++ "@"%char :: d ++ "."%char :: t)
      with (l ++ ["@"%char] ++ d ++ ["."%char] ++ t).
    rewrite <- (app_nil_r t).
    apply (decomp_cons (plus Chars.notSpaceNorAt) _ l _ []);
      [exact Fl | now apply nonempty_length | intros m [=] |].
    apply (decomp_cons (one (Chars.isChar "@")) _ ["@"%char] _ []);
      [repeat constructor | cbn; lia | intros m [= <-]; cbn; lia |].
    apply (decomp_cons (plus Chars.notSpaceNorAt) _ d _ []);
      [exact Fd | now apply nonempty_length | intros m [=] |].
    apply (decomp_cons (one (Chars.isChar ".")) _ ["."%char] _ []);
      [repeat constructor | cbn; lia | intros m [= <-]; cbn; lia |].
    apply (decomp_cons (plus Chars.notSpaceNorAt) _ t _ []);
      [exact Ft | now apply nonempty_length | intros m [=] |].
    constructor.
Qed.

Lemma isValidEmail_iff e :
  isValidEmail_ e = true <-> (String.length e <= 320)%nat /\ emailShape e.
Proof.
  unfold isValidEmail_. rewrite <- email_test_iff.
  destruct e as [|c e]; cbn [Str.isEmpty].
  - split; [discriminate|]. intros [_ H]. exact H.
  - destruct (Nat.ltb_spec 320 (String.length (String c e))) as [Hlt|Hle].
    + split; [discriminate|]. intros [H _]. lia.
    + split; [intros H; split; [exact Hle|exact H] | intros [_ H]; exact H].
Qed.

(** The loop appends to its two arrays in input order. *)
Lemma validateLoop_filter rs valid invalid :
  validateLoop rs valid invalid =
  (valid ++ List.filter isValidEmail_ rs,
   invalid ++ List.filter (fun e => negb (isValidEmail_ e)) rs).
Proof.
  revert valid invalid. induction rs as [|r rs IH]; intros valid invalid; cbn.
  - now rewrite !app_nil_r.
  - destruct (isValidEmail_ r); cbn; rewrite IH, <- app_assoc; reflexivity.
Qed.

End EmailFacts.

(** ** Facts about the script *)

Section ScriptFacts.

Variable host : Host.

(** The receiver guarded by [|| ""] is never [undefined] or [null]. *)
Lemma toStringMethod_guarded v :
  toStringMethod host (Js.or_else v (VStr EmptyString))
  = Ok (ToString host (Js.or_else v (VStr EmptyString))).
Proof.
  unfold Js.or_else. destruct (Js.truthy v) eqn:E; [|reflexivity].
  destruct v; try discriminate; reflexivity.
Qed.

Lemma normalizeRecipient_total r :
  normalizeRecipient host r
  = Ok (Str.trim (ToString host (Js.or_else r (VStr EmptyString)))).
Proof. unfold normalizeRecipient. now rewrite toStringMethod_guarded. Qed.

Lemma Exc_map_normalize rs :
  Exc_map (normalizeRecipient host) rs
  = Ok (map (fun r => Str.trim (ToString host (Js.or_else r (VStr EmptyString)))) rs).
Proof.
  induction rs as [|r rs IH]; cbn; [reflexivity|].
  rewrite normalizeRecipient_total. cbn. rewrite IH. reflexivity.
Qed.

(** C8.  Every candidate is stringified and trimmed; it is valid exactly
    when it has at most 320 characters and the shape
    [local@domain.tld] (runs without white space or [@]); the candidates
    are split into the valid and the invalid ones in input order.  The
    list [a@example.com; not-an-email; b@test.org] splits into the two
    addresses and the one invalid entry. *)
Theorem recipients_partitioned_by_shape (recipients : list JsVal) :
  let normalized :=
    map (fun r => Str.trim (ToString host (Js.or_else r (VStr EmptyString))))
        recipients in
  partitionRecipients host recipients
  = Ok (List.filter isValidEmail_ normalized,
        List.filter (fun e => negb (isValidEmail_ e)) normalized)
  /\ (forall e : string,
        isValidEmail_ e = true
        <-> (String.length e <= 320)%nat /\ Shapes.emailShape e)
  /\ partitionRecipients host
       [VStr "a@example.com"; VStr "not-an-email"; VStr "b@test.org"]
     = Ok (["a@example.com"; "b@test.org"], ["not-an-email"]).
Proof.
  cbv zeta. split; [|split].
  - unfold partitionRecipients. rewrite Exc_map_normalize. cbn [Exc_bind].
    now rewrite EmailFacts.validateLoop_filter.
  - apply EmailFacts.isValidEmail_iff.
  - reflexivity.
Qed.

(** *** The base date is always produced *)

Lemma parseBaseDate_total w v : exists d, parseBaseDate_ host w v = Ok d.
Proof.
  unfold parseBaseDate_.
  destruct (negb (Js.truthy v)); [eauto|].
  destruct v; rewrite ?toStringMethod_guarded; cbn [Exc_bind]; eauto;
    repeat match goal with
           | |- context [if ?c then _ else _] => destruct c
           | |- context [match ?x with Some _ => _ | None => _ end] => destruct x
           end; eauto.
Qed.

(** *** The window *)

Lemma inWindow_iff today maxDate k :
  inWindow host today maxDate k = true
  <-> exists t m r, today = Some t /\ maxDate = Some m
                    /\ Date_fromValue host (Js.index k 0) = Some r
                    /\ t <= r <= m.
Proof.
  unfold inWindow, Js.Date_ge, Js.Date_le.
  destruct (Date_fromValue host (Js.index k 0)) as [r|];
    destruct today as [t|]; destruct maxDate as [m|]; cbn; split; intros H;
    try discriminate;
    try (destruct H as (? & ? & ? & ? & ? & ? & ?); discriminate);
    try (rewrite andb_false_r in H; discriminate).
  - apply andb_true_iff in H as [H1 H2]. apply Z.leb_le in H1, H2.
    exists t, m, r. repeat split; auto.
  - destruct H as (t' & m' & r' & [= <-] & [= <-] & [= <-] & H1 & H2).
    apply andb_true_iff. split; apply Z.leb_le; assumption.
Qed.

(** Seven days later on the local calendar, at the same local time. *)
Lemma windowEnd_calendar t :
  windowEnd host (Some t)
  = Time.TimeClip (UTC host (LocalTime host t + 7 * Time.msPerDay)).
Proof.
  unfold windowEnd, setDate, getDate. cbn.
  rewrite TimeFacts.MakeDay_shift. do 2 f_equal.
  rewrite <- (TimeFacts.MakeDate_Day_TimeWithinDay (LocalTime host t)) at 3.
  unfold Time.MakeDate. lia.
Qed.

Lemma windowEnd_invalid : windowEnd host None = None.
Proof. reflexivity. Qed.

(** *** The scan *)

Lemma scanRows_find data today maxDate i fuel :
  (length data <= i + fuel)%nat ->
  scanRows host data today maxDate i fuel
  = List.find (inWindow host today maxDate) (drop i data).
Proof.
  unfold Table, Row in *.
  revert i. induction fuel as [|fuel IH]; intros i Hlen; cbn [scanRows].
  - rewrite drop_ge by lia. reflexivity.
  - match goal with
    | |- context [match ?x with Some _ => _ | None => _ end] =>
        destruct x as [k|] eqn:Hk
    end.
    + rewrite (drop_S _ _ _ Hk). cbn [List.find]. fold (inWindow host today maxDate k).
      destruct (inWindow host today maxDate k); [reflexivity|].
      apply IH. lia.
    + apply lookup_ge_None in Hk. rewrite drop_ge by lia. reflexivity.
Qed.

Lemma getNextUpcomingRow_find w data opt :
  exists today,
    parseBaseDate_ host w opt = Ok today
    /\ getNextUpcomingRow_ host w data opt
       = Ok (List.find (inWindow host today (windowEnd host today)) (drop 1 data)).
Proof.
  destruct (parseBaseDate_total w opt) as [today Ht].
  exists today. split; [exact Ht|].
  unfold getNextUpcomingRow_. rewrite Ht. cbn [Exc_bind].
  f_equal. apply scanRows_find. lia.
Qed.

(** The first element a search returns, by position. *)
Lemma find_first {A} (p : A -> bool) (l : list A) :
  match List.find p l with
  | Some k =>
      exists j, l !! j = Some k /\ p k = true
                /\ forall j' k', (j' < j)%nat -> l !! j' = Some k' -> p k' = false
  | None => forall j k, l !! j = Some k -> p k = false
  end.
Proof.
  induction l as [|x l IH]; cbn [List.find].
  - intros j k H. rewrite lookup_nil in H. discriminate.
  - destruct (p x) eqn:Hx.
    + exists 0%nat. repeat split; auto. intros j' k' Hj. lia.
    + destruct (List.find p l) as [k|].
      * destruct IH as (j & Hj & Hp & Hfirst). exists (S j).
        repeat split; auto.
        intros [|j'] k' Hlt Hk'; cbn in Hk'; [congruence|].
        eapply Hfirst; [|exact Hk']. lia.
      * intros [|j] k Hk; cbn in Hk; [congruence|]. eapply IH. exact Hk.
Qed.

Lemma find_skip {A} (p : A -> bool) (l1 l2 : list A) x :
  p x = false -> List.find p (l1 ++ x :: l2) = List.find p (l1 ++ l2).
Proof.
  intros Hx. induction l1 as [|y l1 IH]; cbn [List.find app].
  - now rewrite Hx.
  - destruct (p y); [reflexivity|exact IH].
Qed.

(** C1.  A row that [getNextUpcomingRow_] returns has a date that is not
    before the base date and not after the base date plus seven days: the
    end of the window is the base date moved seven days on the local
    calendar, and the window test accepts exactly the dates between the
    two, both ends included. *)
Theorem selected_row_inside_window (w : World) (data : Table) (opt : JsVal) :
  (forall k, getNextUpcomingRow_ host w data opt = Ok (Some k) ->
     exists today maxDate rowDate : Z,
       parseBaseDate_ host w opt = Ok (Some today)
       /\ windowEnd host (Some today) = Some maxDate
       /\ maxDate = UTC host (LocalTime host today + 7 * Time.msPerDay)
       /\ Date_fromValue host (Js.index k 0) = Some rowDate
       /\ today <= rowDate <= maxDate)
  /\ (forall (today maxDate : Z) (k : Row),
        inWindow host (Some today) (Some maxDate) k = true
        <-> exists rowDate,
              Date_fromValue host (Js.index k 0) = Some rowDate
              /\ today <= rowDate <= maxDate).
Proof.
  split.
  - intros k H.
    destruct (getNextUpcomingRow_find w data opt) as (today & Ht & Hf).
    rewrite Hf in H. injection H as H.
    apply List.find_some in H as [_ Hw].
    apply inWindow_iff in Hw as (t & m & r & -> & Hm & Hr & Hle).
    exists t, m, r. repeat split; try assumption; try lia.
    rewrite windowEnd_calendar in Hm. unfold Time.TimeClip in Hm.
    destruct (_ <=? _) in Hm; congruence.
  - intros today maxDate k. rewrite inWindow_iff. split.
    + intros (t & m & r & [= <-] & [= <-] & Hr & Hle). eauto.
    + intros (r & Hr & Hle). exists today, maxDate, r. auto.
Qed.

(** C2.  The scan starts at index 1 and keeps the order of the table: the
    row returned is the one at the first index from 1 on whose date
    passes the window test, whatever the dates of the rows after it;
    [null] is returned exactly when no row from index 1 on passes. *)
Theorem first_row_in_table_order (w : World) (data : Table) (opt : JsVal) :
  exists today,
    parseBaseDate_ host w opt = Ok today
    /\ match getNextUpcomingRow_ host w data opt with
       | Ok (Some k) =>
           exists i, (1 <= i)%nat /\ data !! i = Some k
             /\ inWindow host today (windowEnd host today) k = true
             /\ forall j k', (1 <= j < i)%nat -> data !! j = Some k' ->
                  inWindow host today (windowEnd host today) k' = false
       | Ok None =>
           forall j k', (1 <= j)%nat -> data !! j = Some k' ->
             inWindow host today (windowEnd host today) k' = false
       | Throw _ => False
       end.
Proof.
  destruct (getNextUpcomingRow_find w data opt) as (today & Ht & Hf).
  exists today. split; [exact Ht|]. rewrite Hf.
  pose proof (find_first (inWindow host today (windowEnd host today)) (drop 1 data)) as H.
  destruct (List.find _ _) as [k|].
  - destruct H as (j & Hj & Hp & Hfirst). rewrite lookup_drop in Hj.
    exists (1 + j)%nat. repeat split; [lia|exact Hj|exact Hp|].
    intros j' k' Hr Hk'. apply (Hfirst (j' - 1)%nat k'); [lia|].
    rewrite lookup_drop. replace (1 + (j' - 1))%nat with j' by lia. exact Hk'.
  - intros j k' Hj Hk'. apply (H (j - 1)%nat k').
    rewrite lookup_drop. replace (1 + (j - 1))%nat with j by lia. exact Hk'.
Qed.

(** C5.  A row whose date field cannot be converted to a date fails the
    window test, so the scan steps over it: the call returns (it does not
    throw), it never returns that row, its result is the one for the table
    without the row, and [null] comes back only when no row after the
    header passes the test. *)
Theorem malformed_row_is_skipped
    (w : World) (pre : Table) (bad : Row) (post : Table) (opt : JsVal) :
  Date_fromValue host (Js.index bad 0) = None ->
  pre <> [] ->
  (forall today maxDate, inWindow host today maxDate bad = false)
  /\ (exists r, getNextUpcomingRow_ host w (pre ++ bad :: post) opt = Ok r
                /\ r <> Some bad)
  /\ getNextUpcomingRow_ host w (pre ++ bad :: post) opt
     = getNextUpcomingRow_ host w (pre ++ post) opt
  /\ (getNextUpcomingRow_ host w (pre ++ bad :: post) opt = Ok None
      <-> exists today,
            parseBaseDate_ host w opt = Ok today
            /\ forall k, In k (drop 1 (pre ++ post)) ->
                 inWindow host today (windowEnd host today) k = false).
Proof.
  intros Hbad Hpre.
  assert (Hw : forall today maxDate, inWindow host today maxDate bad = false).
  { intros today maxDate. unfold inWindow. now rewrite Hbad. }
  destruct pre as [|header pre]; [congruence|]. cbn [app].
  destruct (getNextUpcomingRow_find w (header :: pre ++ bad :: post) opt)
    as (today & Ht & Hf).
  destruct (getNextUpcomingRow_find w (header :: pre ++ post) opt)
    as (today' & Ht' & Hf').
  assert (today' = today) by congruence. subst today'.
  cbn [drop] in Hf, Hf' |- *. rewrite !drop_0 in *.
  rewrite find_skip in Hf by apply Hw.
  split; [exact Hw|]. split; [|split].
  - eexists. split; [rewrite Hf; reflexivity|].
    intros Heq. apply List.find_some in Heq as [_ Heq].
    rewrite Hw in Heq. discriminate.
  - now rewrite Hf, Hf'.
  - rewrite Hf. split.
    + intros [= Hnone]. exists today. split; [exact Ht|].
      intros k Hk. destruct (inWindow host today (windowEnd host today) k) eqn:E; [|reflexivity].
      exfalso. eapply List.find_none in Hnone; [|exact Hk]. congruence.
    + intros (today2 & Ht2 & Hall). assert (today2 = today) by congruence.
      subst today2. f_equal.
      destruct (List.find _ _) as [k|] eqn:E; [|reflexivity].
      apply List.find_some in E as [Hin Hk]. rewrite (Hall k Hin) in Hk. discriminate.
Qed.

(** *** The row classifier and the message builders *)

Lemma isNoGroupRow_eq (r : Row) :
  isNoGroupRow_ host (Some r)
  = Ok (String.eqb
          (Str.toLowerCase
             (Str.trim (ToString host (Js.or_else (Js.index r 2) (VStr EmptyString)))))
          "no group").
Proof. unfold isNoGroupRow_. now rewrite toStringMethod_guarded. Qed.

Lemma index_short (r : Row) i : (length r <= i)%nat -> Js.index r i = VUndefined.
Proof.
  intros H. unfold Js.index. now rewrite (proj2 (lookup_ge_None r i)).
Qed.

(** C10.  [isNoGroupRow_] returns on every row, also on one with fewer
    than three fields or with a location that is [null], [undefined] or
    not a string: the guarded access never calls [toString] on a missing
    value; a missing or empty (falsy) location reads as the empty string
    and the row is classified as not no-group. *)
Theorem isNoGroupRow_total (r : Row) :
  (exists b, isNoGroupRow_ host (Some r) = Ok b)
  /\ (Js.truthy (Js.index r 2) = false ->
      toStringMethod host (Js.or_else (Js.index r 2) (VStr EmptyString))
      = Ok EmptyString
      /\ isNoGroupRow_ host (Some r) = Ok false)
  /\ ((length r < 3)%nat -> isNoGroupRow_ host (Some r) = Ok false)
  /\ (Js.index r 2 = VNull \/ Js.index r 2 = VUndefined
      \/ Js.index r 2 = VStr EmptyString ->
      isNoGroupRow_ host (Some r) = Ok false).
Proof.
  assert (Hfalsy : Js.truthy (Js.index r 2) = false ->
                   toStringMethod host (Js.or_else (Js.index r 2) (VStr EmptyString))
                   = Ok EmptyString
                   /\ isNoGroupRow_ host (Some r) = Ok false).
  { intros H. rewrite isNoGroupRow_eq, toStringMethod_guarded.
    unfold Js.or_else. rewrite H. split; reflexivity. }
  split; [|split; [|split]].
  - rewrite isNoGroupRow_eq. eauto.
  - exact Hfalsy.
  - intros H. apply Hfalsy. rewrite index_short by lia. reflexivity.
  - intros [H | [H | H]]; apply Hfalsy; rewrite H; reflexivity.
Qed.

(** C6.  On a row classified as no-group the subject, the email body and
    the chat message are the same: when the formatter returns the short
    date of the row, each of the three is the one-line text
    [NO GROUP for Mendez/Williams City Group on ] followed by that short
    date (and should the formatter throw, each of the three throws the
    same error). *)
Theorem no_group_messages_coincide (w : World) (r : Row) :
  isNoGroupRow_ host (Some r) = Ok true ->
  buildEmailBody_ host w (Some r) = buildEmailSubject_ host (Some r)
  /\ buildGroupMeMessage_ host w (Some r) = buildEmailSubject_ host (Some r)
  /\ forall shortDate,
       getShortDate_ host (Js.index r 0) = Ok shortDate ->
       buildEmailSubject_ host (Some r)
       = Ok ("NO GROUP for Mendez/Williams City Group on " +:+ shortDate).
Proof.
  intros H. unfold buildEmailSubject_, buildEmailBody_, buildGroupMeMessage_.
  rewrite H. cbn [Exc_bind].
  destruct (getShortDate_ host (Js.index r 0)) as [sd|e]; cbn [Exc_bind];
    rewrite ?H; cbn [Exc_bind]; repeat split; try reflexivity.
  - intros shortDate [= <-]. reflexivity.
  - intros shortDate [=].
Qed.

Lemma composeReminder__fields w r rem :
  composeReminder_ host w r = Ok rem ->
  buildEmailSubject_ host r = Ok (subject rem)
  /\ buildEmailBody_ host w r = Ok (emailBody rem)
  /\ buildGroupMeMessage_ host w r = Ok (message rem)
  /\ row rem = r.
Proof.
  unfold composeReminder_.
  destruct (buildEmailSubject_ host r) as [s|]; [|discriminate].
  destruct (buildEmailBody_ host w r) as [b|]; [|discriminate].
  destruct (buildGroupMeMessage_ host w r) as [m|]; [|discriminate].
  cbn. intros [= <-]. repeat split; reflexivity.
Qed.

(** Effects of a bind: those of the first part, then those of the rest. *)
Lemma Run_bind_effects {A B} (m : Run A) (f : A -> Run B) :
  fst (Run_bind m f)
  = fst m ++ match snd m with
             | Ok a => fst (f a)
             | Throw _ => []
             end.
Proof.
  destruct m as [l [a|e]]; cbn; [|now rewrite app_nil_r].
  destruct (f a); reflexivity.
Qed.

Lemma sendEmail_effects subj body rs e :
  In e (fst (sendEmailToRecipients_ host subj body rs)) ->
  match e with
  | MailApp_sendEmail _ s b => s = subj /\ b = body
  | UrlFetchApp_fetch _ _ _ => False
  | Logger_log _ => True
  end.
Proof.
  unfold sendEmailToRecipients_. destruct rs as [|r rs].
  - cbn. intros [<-|[]]. exact I.
  - rewrite Run_bind_effects. cbn [Run_lift fst snd app].
    destruct (partitionRecipients host (r :: rs)) as [[valid invalid]|]; [|intros []].
    rewrite Run_bind_effects.
    intros H. apply in_app_or in H as [H|H].
    + destruct invalid; cbn in H; [destruct H|].
      destruct H as [<-|[]]. exact I.
    + destruct invalid; cbn [Run_emit snd] in H;
        destruct valid; cbn in H; destruct H as [<-|[]]; auto.
Qed.

Lemma postGroupMe_effects botId text e :
  In e (fst (postGroupMeMessageWithBotId_ botId text)) ->
  match e with
  | MailApp_sendEmail _ _ _ => False
  | UrlFetchApp_fetch _ _ t => t = Str.trim text
  | Logger_log _ => True
  end.
Proof.
  unfold postGroupMeMessageWithBotId_.
  destruct (Str.isEmpty (Str.trim text)); [intros [<-|[]]; exact I|].
  destruct (Str.isEmpty (Str.trim botId)); intros [<-|[]]; auto.
Qed.

(** C7.  The reminder content is the selection followed by the three
    builders: its subject, email body and chat message are
    [buildEmailSubject_], [buildEmailBody_] and [buildGroupMeMessage_] of
    the row that [getNextUpcomingRow_] selects for the table and the base
    date, with the fixed texts when no row is selected; and every email
    and chat post that [performReminderSend_] hands to a transport carries
    that content. *)
Theorem reminder_is_selection_then_builders (w : World) :
  (forall table baseDate rem,
     composeReminder host w table baseDate = Ok rem ->
     exists selected,
       getNextUpcomingRow_ host w table baseDate = Ok selected
       /\ buildEmailSubject_ host selected = Ok (subject rem)
       /\ buildEmailBody_ host w selected = Ok (emailBody rem)
       /\ buildGroupMeMessage_ host w selected = Ok (message rem)
       /\ row rem = selected)
  /\ (forall table baseDate,
        getNextUpcomingRow_ host w table baseDate = Ok None ->
        composeReminder host w table baseDate
        = Ok {| subject := "Reminder for Mendez/Williams City Group";
                emailBody := "No upcoming events found.";
                message := "Reminder for Mendez/Williams City Group";
                row := None |})
  /\ (forall opts e,
        In e (fst (performReminderSend_ host w opts)) ->
        exists table rem,
          getSheetData_ w ScheduleSheetName = Ok table
          /\ composeReminder host w table (optBaseDate opts) = Ok rem
          /\ match e with
             | MailApp_sendEmail _ s b => s = subject rem /\ b = emailBody rem
             | UrlFetchApp_fetch _ _ t => t = Str.trim (message rem)
             | Logger_log _ => True
             end).
Proof.
  split; [|split].
  - intros table baseDate rem H. unfold composeReminder in H.
    destruct (getNextUpcomingRow_ host w table baseDate) as [selected|]; [|discriminate].
    exists selected. split; [reflexivity|].
    now apply composeReminder__fields.
  - intros table baseDate H. unfold composeReminder. rewrite H. reflexivity.
  - intros opts e. unfold performReminderSend_.
    rewrite !Run_bind_effects. cbn [Run_lift fst snd app].
    destruct (getSheetData_ w ScheduleSheetName) as [table|]; [|intros []].
    rewrite !Run_bind_effects. cbn [Run_lift fst snd app].
    destruct (getNextUpcomingRow_ host w table (optBaseDate opts))
      as [nextRow|] eqn:Hsel; [|intros []].
    rewrite !Run_bind_effects. cbn [Run_lift fst snd app].
    destruct (composeReminder_ host w nextRow) as [rem|] eqn:Hrem; [|intros []].
    rewrite !Run_bind_effects.
    intros H. exists table, rem. split; [reflexivity|].
    split; [unfold composeReminder; rewrite Hsel; exact Hrem|].
    apply in_app_or in H as [H|H].
    + destruct (sendEmail opts); [|destruct H].
      rewrite Run_bind_effects in H. cbn [Run_lift fst snd app] in H.
      destruct (getRecipientsForMode_ w _) as [rs|]; [|destruct H].
      apply sendEmail_effects in H. destruct e; auto; destruct H.
    + destruct (snd _); [|destruct H].
      destruct (sendGroupMe opts); [|destruct H].
      rewrite Run_bind_effects in H. cbn [Run_lift fst snd app] in H.
      destruct (getGroupMeBotIdForMode_ w _) as [botId|]; [|destruct H].
      apply postGroupMe_effects in H. destruct e; auto; destruct H.
Qed.

(** *** The base date *)

Lemma TimeClip_local lt :
  ZoneRegular host -> Z.abs lt <= 8000000000000000 ->
  Time.TimeClip (UTC host lt) = Some (UTC host lt).
Proof.
  intros R H. unfold Time.TimeClip, UTC.
  pose proof (offset_bounded host R lt false) as B.
  unfold Time.msPerDay, Time.maxTime in *.
  destruct (Z.leb_spec (Z.abs (lt - LocalTZA host lt false)) 8640000000000000);
    [reflexivity|lia].
Qed.

(** [new Date(year, month, day)] followed by [setHours(12, 0, 0, 0)] in a
    regular zone: local noon of the day the constructor normalises to. *)
Lemma noon_of_components year month day :
  ZoneRegular host ->
  100 <= year <= 9999 -> -1 <= month <= 98 -> 0 <= day <= 99 ->
  setHours host (Date_ymd host (Some year) (Some month) (Some day)) 12 0 0 0
  = Some (UTC host (Time.MakeDate (Time.MakeDay year month day)
                                  (Time.MakeTime 12 0 0 0))).
Proof.
  intros R Hy Hm Hd. unfold Date_ymd.
  replace ((0 <=? year) && (year <=? 99)) with false
    by (symmetry; apply andb_false_iff; right; apply Z.leb_gt; lia).
  pose proof (TimeFacts.MakeDay_bound year month day ltac:(lia) Hm Hd) as B.
  change (Time.MakeTime 0 0 0 0) with 0.
  rewrite TimeClip_local
    by (try exact R; unfold Time.MakeDate, Time.msPerDay; lia).
  unfold setHours. cbn [mbind option_bind].
  rewrite (midnight_same_day host R).
  apply TimeClip_local; [exact R|].
  unfold Time.MakeDate, Time.MakeTime, Time.msPerDay, Time.msPerHour,
    Time.msPerMinute, Time.msPerSecond. lia.
Qed.

Lemma pow10_small (l : list ascii) n :
  (length l <= n)%nat -> 10 ^ Z.of_nat (length l) <= 10 ^ Z.of_nat n.
Proof. intros H. apply Z.pow_le_mono_r; lia. Qed.

(** What [parseBaseDate_] computes on a string that matches the first
    pattern, in any zone. *)
Lemma parseBaseDate_slash w s a b c :
  Regex.matchGroups Regex.slashDate s
  = Some [Str.ofChars a; Str.ofChars b; Str.ofChars c] ->
  Str.trim s = s -> Str.isEmpty s = false ->
  Forall (fun x => Chars.isDigit x = true) a -> a <> [] ->
  Forall (fun x => Chars.isDigit x = true) b -> b <> [] ->
  Forall (fun x => Chars.isDigit x = true) c -> c <> [] ->
  let y := Shapes.decimal c in
  parseBaseDate_ host w (VStr s)
  = Ok (setHours host
          (Date_ymd host (Some (if y <? 100 then y + 2000 else y))
                    (Some (Shapes.decimal a - 1))
                    (Some (Shapes.decimal b)))
          12 0 0 0).
Proof.
  intros Hm Htrim Hne Ha Ha' Hb Hb' Hc Hc' y.
  unfold parseBaseDate_. cbn [Js.truthy]. rewrite Hne. cbn [negb].
  rewrite toStringMethod_guarded. unfold Js.or_else. cbn [Js.truthy].
  rewrite Hne. cbn [negb ToString Exc_bind].
  rewrite Htrim, Hne, Hm. cbn [nth].
  rewrite !ParseFacts.parseInt10_digits by assumption.
  reflexivity.
Qed.

(** C3 (amended).  On a string that matches the first pattern the result
    is local noon of the day that the Date constructor makes of the year
    (third group, plus 2000 when below 100), the month (first group, 1 for
    January) and the day (second group); when the month is one of 1..12
    and the day exists in that month, this is that very calendar day. *)
Theorem slash_date_resolves_to_calendar_day (w : World) (s : string) (m : list string) :
  ZoneRegular host ->
  Regex.matchGroups Regex.slashDate s = Some m ->
  exists mo d y : Z,
    Js.parseInt10 (nth 0 m "undefined") = Some mo
    /\ Js.parseInt10 (nth 1 m "undefined") = Some d
    /\ Js.parseInt10 (nth 2 m "undefined") = Some y
    /\ 0 <= mo <= 99 /\ 0 <= d <= 99 /\ 0 <= y <= 9999
    /\ let year := if y <? 100 then y + 2000 else y in
       let localNoon :=
         Time.MakeDate (Time.MakeDay year (mo - 1) d) (Time.MakeTime 12 0 0 0) in
       let result := Some (UTC host localNoon) in
       parseBaseDate_ host w (VStr s) = Ok result
       /\ LocalTime host (UTC host localNoon) = localNoon
       /\ getHours host result = Some 12
       /\ (1 <= mo <= 12 -> 1 <= d <= Time.DaysInMonth year (mo - 1) ->
           getFullYear host result = Some year
           /\ getMonth host result = Some (mo - 1)
           /\ getDate host result = Some d).
Proof.
  intros R Hm.
  destruct (ParseFacts.slashDate_groups s m Hm)
    as (a & b & c & -> & Ha & Hb & Hc & La & Lb & Lc & x & y0 & Hx & Hy & Hs).
  assert (Ha' : a <> []) by (destruct a; cbn in La; [lia|congruence]).
  assert (Hb' : b <> []) by (destruct b; cbn in Lb; [lia|congruence]).
  assert (Hc' : c <> []) by (destruct c; cbn in Lc; [lia|congruence]).
  pose proof (ParseFacts.decimal_range a Ha) as Ra.
  pose proof (ParseFacts.decimal_range b Hb) as Rb.
  pose proof (ParseFacts.decimal_range c Hc) as Rc.
  pose proof (pow10_small a 2 ltac:(lia)) as Pa.
  pose proof (pow10_small b 2 ltac:(lia)) as Pb.
  pose proof (pow10_small c 4 ltac:(lia)) as Pc.
  change (10 ^ Z.of_nat 2) with 100 in *. change (10 ^ Z.of_nat 4) with 10000 in *.
  exists (Shapes.decimal a), (Shapes.decimal b), (Shapes.decimal c).
  cbn [nth]. rewrite !ParseFacts.parseInt10_digits by assumption.
  do 3 (split; [reflexivity|]).
  do 3 (split; [lia|]).
  set (y := Shapes.decimal c) in *.
  set (year := if y <? 100 then y + 2000 else y).
  assert (Hyear : 100 <= year <= 9999).
  { unfold year. destruct (Z.ltb_spec y 100); lia. }
  cbv zeta.
  assert (Hne : Str.isEmpty s = false).
  { destruct s; [|reflexivity]. destruct a; [congruence|discriminate]. }
  assert (Htrim : Str.trim s = s).
  { destruct a as [|a0 a1]; [congruence|].
    destruct (ParseFacts.last_split c Hc') as (c1 & c0 & ->).
    inversion Ha; subst. apply Forall_app in Hc as [_ Hc0].
    inversion Hc0; subst.
    apply (ParseFacts.trim_id s a0 (a1 ++ x :: b ++ y0 :: c1) c0).
    - rewrite Hs. cbn. f_equal. rewrite <- !app_assoc. cbn.
      do 2 f_equal. rewrite <- app_assoc. reflexivity.
    - now apply ParseFacts.digit_not_space.
    - now apply ParseFacts.digit_not_space. }
  rewrite (parseBaseDate_slash w s a b c Hm Htrim Hne) by assumption.
  fold y. fold year.
  rewrite noon_of_components by (try exact R; lia).
  split; [reflexivity|].
  split; [apply (noon_round_trip host R)|].
  split.
  { unfold getHours. cbn [mbind option_bind]. rewrite (noon_round_trip host R).
    now rewrite TimeFacts.HourFromTime_noon. }
  intros Hmo Hd.
  unfold getFullYear, getMonth, getDate. cbn [mbind option_bind].
  rewrite (noon_round_trip host R).
  destruct (TimeFacts.civil_roundtrip year (Shapes.decimal a - 1)
              (Shapes.decimal b) (Time.MakeTime 12 0 0 0))
    as (HY & HM & HD); try lia.
  { cbv. split; [discriminate|reflexivity]. }
  cbv zeta in HY, HM, HD. rewrite HY, HM, HD. repeat split; reflexivity.
Qed.

(** [setHours(12, 0, 0, 0)] keeps a date valid when it is three days
    inside the range of time values. *)
Lemma setHours_valid t :
  ZoneRegular host -> Z.abs t <= Time.maxTime - 3 * Time.msPerDay ->
  exists u, setHours host (Some t) 12 0 0 0 = Some u.
Proof.
  intros R H. unfold setHours. cbn [mbind option_bind]. unfold Time.TimeClip.
  match goal with |- context [if ?c then _ else _] => destruct c eqn:E end;
    [eauto|exfalso].
  apply Z.leb_gt in E. revert E. unfold UTC, LocalTime.
  pose proof (offset_bounded host R t true) as B1.
  set (lt := t + LocalTZA host t true) in *.
  set (x := Time.MakeDate (Time.Day lt) (Time.MakeTime 12 0 0 0)).
  pose proof (offset_bounded host R x false) as B2.
  assert (Hx : lt - Time.msPerDay < x <= lt + Time.msPerDay).
  { unfold x, Time.MakeDate, Time.Day, Time.MakeTime, Time.msPerDay,
      Time.msPerHour, Time.msPerMinute, Time.msPerSecond.
    Z.to_euclidean_division_equations. lia. }
  unfold Time.maxTime, Time.msPerDay in *. lia.
Qed.

Lemma Date_ymd_noon_valid year month day :
  ZoneRegular host ->
  0 <= year <= 9999 -> -1 <= month <= 98 -> 0 <= day <= 99 ->
  exists u, setHours host (Date_ymd host (Some year) (Some month) (Some day))
              12 0 0 0 = Some u.
Proof.
  intros R Hy Hm Hd. unfold Date_ymd.
  set (yr := if (0 <=? year) && (year <=? 99) then 1900 + year else year).
  assert (Hyr : 0 <= yr <= 9999).
  { unfold yr. destruct ((0 <=? year) && (year <=? 99)) eqn:E; [|lia].
    apply andb_true_iff in E as [E1 E2]. apply Z.leb_le in E1, E2. lia. }
  pose proof (TimeFacts.MakeDay_bound yr month day Hyr Hm Hd) as B.
  change (Time.MakeTime 0 0 0 0) with 0.
  rewrite TimeClip_local
    by (try exact R; unfold Time.MakeDate, Time.msPerDay; lia).
  apply setHours_valid; [exact R|].
  pose proof (offset_bounded host R (Time.MakeDate (Time.MakeDay yr month day) 0)
                false) as B2.
  unfold UTC, Time.MakeDate, Time.maxTime, Time.msPerDay in *. lia.
Qed.

(** C4 (the input that breaks it).  The function never throws, but it
    does not always return a usable day: an Invalid Date handed in as the
    base date comes back as an Invalid Date, because the branch for [Date]
    values has no fallback to the current moment. *)
Theorem parseBaseDate_keeps_invalid_Date (w : World) :
  (forall v, exists d, parseBaseDate_ host w v = Ok d)
  /\ parseBaseDate_ host w (VDate None) = Ok None.
Proof. split; [apply parseBaseDate_total|reflexivity]. Qed.

(** The fallback chain of the string branch: a string that matches
    neither pattern and that the generic parse rejects resolves to noon of
    the current day. *)
Lemma parseBaseDate_unparseable w s :
  Str.isEmpty s = false ->
  Regex.matchGroups Regex.slashDate (Str.trim s) = None ->
  Regex.matchGroups Regex.isoDate (Str.trim s) = None ->
  Date_fromValue host (VStr (Str.trim s)) = None ->
  parseBaseDate_ host w (VStr s) = Ok (setHours host (Date_now w) 12 0 0 0).
Proof.
  intros Hne H1 H2 H3. unfold parseBaseDate_. cbn [Js.truthy]. rewrite Hne.
  cbn [negb]. rewrite toStringMethod_guarded. unfold Js.or_else.
  cbn [Js.truthy]. rewrite Hne. cbn [negb ToString Exc_bind].
  rewrite H1, H2, H3. destruct (Str.isEmpty (Str.trim s)); reflexivity.
Qed.

Lemma parseBaseDate_shape w v :
  Js.truthy v = true -> (forall tv, v <> VDate tv) ->
  parseBaseDate_ host w v
  = let s := Str.trim (ToString host v) in
    if Str.isEmpty s then Ok (setHours host (Date_now w) 12 0 0 0)
    else
      match Regex.matchGroups Regex.slashDate s with
      | Some m =>
          let month := (fun x => x - 1) <$> Js.parseInt10 (nth 0 m "undefined") in
          let day := Js.parseInt10 (nth 1 m "undefined") in
          let year := Js.parseInt10 (nth 2 m "undefined") in
          let year := (fun y => if y <? 100 then y + 2000 else y) <$> year in
          Ok (setHours host (Date_ymd host year month day) 12 0 0 0)
      | None =>
          match Regex.matchGroups Regex.isoDate s with
          | Some iso =>
              let y := Js.parseInt10 (nth 0 iso "undefined") in
              let mth := (fun x => x - 1) <$> Js.parseInt10 (nth 1 iso "undefined") in
              let dy := Js.parseInt10 (nth 2 iso "undefined") in
              Ok (setHours host (Date_ymd host y mth dy) 12 0 0 0)
          | None =>
              match Date_fromValue host (VStr s) with
              | Some t => Ok (setHours host (Some t) 12 0 0 0)
              | None => Ok (setHours host (Date_now w) 12 0 0 0)
              end
          end
      end.
Proof.
  intros Ht Hd. unfold parseBaseDate_. rewrite Ht. cbn [negb].
  rewrite toStringMethod_guarded. unfold Js.or_else. rewrite Ht.
  destruct v as [| |bv|n|s|tv]; try discriminate Ht;
    try (exfalso; eapply Hd; reflexivity);
    cbn [Exc_bind]; cbv zeta;
    match goal with
    | |- context [Date_fromValue host ?x] => destruct (Date_fromValue host x)
    end; reflexivity.
Qed.

(** In a regular zone, with the clock and whatever the generic parse
    returns three days inside the range of time values, every input other
    than an invalid or extreme [Date] resolves to a valid date. *)
Lemma parseBaseDate_usable w v :
  ZoneRegular host ->
  Z.abs (now w) <= Time.maxTime - 3 * Time.msPerDay ->
  (forall s t, Date_parse host s = Some t ->
               Z.abs t <= Time.maxTime - 3 * Time.msPerDay) ->
  (forall tv, v = VDate tv ->
              exists t, tv = Some t /\ Z.abs t <= Time.maxTime - 3 * Time.msPerDay) ->
  exists u, parseBaseDate_ host w v = Ok (Some u).
Proof.
  intros R Hnow Hparse Hdate.
  assert (Hclip : forall t, Z.abs t <= Time.maxTime - 3 * Time.msPerDay ->
                            Time.TimeClip t = Some t).
  { intros t Ht. unfold Time.TimeClip.
    destruct (Z.leb_spec (Z.abs t) Time.maxTime); [reflexivity|].
    unfold Time.msPerDay in *. lia. }
  assert (Hclock : exists u, setHours host (Date_now w) 12 0 0 0 = Some u).
  { unfold Date_now. rewrite Hclip by exact Hnow. now apply setHours_valid. }
  destruct (Js.truthy v) eqn:Ht.
  2:{ unfold parseBaseDate_. rewrite Ht. cbn [negb].
      destruct Hclock as [u ->]. eauto. }
  destruct v as [| |bv|n|s|tv];
    try (destruct (Hdate tv eq_refl) as (t & -> & Hb);
         unfold parseBaseDate_; cbn [Js.truthy negb Js.timeValue mbind option_bind];
         rewrite Hclip by exact Hb;
         destruct (setHours_valid t R Hb) as [u ->]; eauto);
    try discriminate Ht;
    (rewrite parseBaseDate_shape by (try exact Ht; intros tv; discriminate);
     cbv zeta;
     destruct (Str.isEmpty _); [destruct Hclock as [u ->]; eauto|];
     destruct (Regex.matchGroups Regex.slashDate _) as [m|] eqn:H1;
     [ destruct (ParseFacts.slashDate_groups _ _ H1)
         as (a & b & c & -> & Ha & Hb & Hc & La & Lb & Lc & _);
       cbn [nth];
       rewrite !ParseFacts.parseInt10_digits
         by (try assumption; intros ->; cbn in *; lia);
       cbn [fmap option_fmap option_map];
       pose proof (ParseFacts.decimal_range a Ha);
       pose proof (ParseFacts.decimal_range b Hb);
       pose proof (ParseFacts.decimal_range c Hc);
       pose proof (pow10_small a 2 ltac:(lia));
       pose proof (pow10_small b 2 ltac:(lia));
       pose proof (pow10_small c 4 ltac:(lia));
       change (10 ^ Z.of_nat 2) with 100 in *;
       change (10 ^ Z.of_nat 4) with 10000 in *;
       destruct (Date_ymd_noon_valid
                   (if Shapes.decimal c <? 100 then Shapes.decimal c + 2000
                    else Shapes.decimal c)
                   (Shapes.decimal a - 1) (Shapes.decimal b) R)
         as [u ->]; [destruct (Z.ltb_spec (Shapes.decimal c) 100); lia|lia|lia|];
       eauto
     | ];
     destruct (Regex.matchGroups Regex.isoDate _) as [iso|] eqn:H2;
     [ destruct (ParseFacts.isoDate_groups _ _ H2)
         as (a & b & c & -> & Ha & Hb & Hc & La & Lb & Lc & _);
       cbn [nth];
       rewrite !ParseFacts.parseInt10_digits
         by (try assumption; intros ->; cbn in *; lia);
       cbn [fmap option_fmap option_map];
       pose proof (ParseFacts.decimal_range a Ha);
       pose proof (ParseFacts.decimal_range b Hb);
       pose proof (ParseFacts.decimal_range c Hc);
       pose proof (pow10_small a 4 ltac:(lia));
       pose proof (pow10_small b 2 ltac:(lia));
       pose proof (pow10_small c 2 ltac:(lia));
       change (10 ^ Z.of_nat 2) with 100 in *;
       change (10 ^ Z.of_nat 4) with 10000 in *;
       destruct (Date_ymd_noon_valid (Shapes.decimal a) (Shapes.decimal b - 1)
                   (Shapes.decimal c) R)
         as [u ->]; [lia|lia|lia|];
       eauto
     | ];
     destruct (Date_fromValue host _) as [t|] eqn:H3;
     [ | destruct Hclock as [u ->]; eauto ];
     cbn [Date_fromValue] in H3;
     destruct (Date_parse host _) as [t'|] eqn:H4; [|discriminate];
     cbn [mbind option_bind] in H3;
     pose proof (Hparse _ _ H4) as Hb;
     rewrite Hclip in H3 by exact Hb; injection H3 as <-;
     destruct (setHours_valid t' R Hb) as [u ->]; eauto).
Qed.

Lemma resolves_intro v :
  Js.truthy v = true -> (forall tv, v <> VDate tv) ->
  let s := Str.trim (ToString host v) in
  Str.isEmpty s = false ->
  (Regex.matchGroups Regex.slashDate s <> None
   \/ Regex.matchGroups Regex.isoDate s <> None
   \/ Date_fromValue host (VStr s) <> None) ->
  resolvesFromInput host v.
Proof.
  intros Ht Hd s Hne Hcase. unfold resolvesFromInput.
  destruct v; try (split; [exact Ht|split; [exact Hne|exact Hcase]]).
  exact I.
Qed.

(** C9 (amended).  When the day is taken from the input, the current time
    plays no part: two worlds that differ in their clocks resolve the same
    base date and select the same row.  Every other input (absent, blank,
    or text that nothing parses) resolves to noon of the current day. *)
Theorem base_date_from_input_ignores_clock (v : JsVal) :
  (resolvesFromInput host v ->
   forall (w1 w2 : World) (data : Table),
     parseBaseDate_ host w1 v = parseBaseDate_ host w2 v
     /\ getNextUpcomingRow_ host w1 data v = getNextUpcomingRow_ host w2 data v)
  /\ (~ resolvesFromInput host v ->
      forall w : World,
        parseBaseDate_ host w v = Ok (setHours host (Date_now w) 12 0 0 0)).
Proof.
  split.
  - intros Hres w1 w2 data.
    assert (Heq : parseBaseDate_ host w1 v = parseBaseDate_ host w2 v).
    { destruct v as [| |bv|n|s|tv]; try reflexivity;
        destruct Hres as (Ht & Hne & Hcase);
        rewrite !parseBaseDate_shape by (try exact Ht; intros tv; discriminate);
        cbv zeta; cbv zeta in Hne, Hcase; rewrite Hne;
        destruct (Regex.matchGroups Regex.slashDate _); try reflexivity;
        destruct (Regex.matchGroups Regex.isoDate _); try reflexivity;
        destruct (Date_fromValue host _); try reflexivity;
        destruct Hcase as [H|[H|H]]; congruence. }
    split; [exact Heq|].
    unfold getNextUpcomingRow_. now rewrite Heq.
  - intros Hno w.
    destruct (Js.truthy v) eqn:Ht.
    2:{ unfold parseBaseDate_. now rewrite Ht. }
    assert (Hd : forall tv, v <> VDate tv).
    { intros tv ->. apply Hno. exact I. }
    rewrite parseBaseDate_shape by assumption. cbv zeta.
    destruct (Str.isEmpty _) eqn:Hne; [reflexivity|].
    destruct (Regex.matchGroups Regex.slashDate _) eqn:H1.
    { exfalso. apply Hno, resolves_intro; auto. cbv zeta. rewrite H1.
      left. discriminate. }
    destruct (Regex.matchGroups Regex.isoDate _) eqn:H2.
    { exfalso. apply Hno, resolves_intro; auto. cbv zeta. rewrite H2.
      right. left. discriminate. }
    destruct (Date_fromValue host _) eqn:H3; [|reflexivity].
    exfalso. apply Hno, resolves_intro; auto. cbv zeta. rewrite H3.
    right. right. discriminate.
Qed.

End ScriptFacts.

(** ** The theorems at work on the reference host *)

Lemma at_offset_regular (offset : Z) (zoneName : string) :
  Z.abs offset <= Time.msPerDay ->
  ZoneRegular (RefHost.at_offset offset zoneName).
Proof.
  intros H.
  constructor; unfold LocalTime, UTC;
    cbn [LocalTZA RefHost.at_offset]; unfold RefHost.fixedZone.
  - intros t b. exact H.
  - intros day. replace (Time.MakeDate day 0 - offset + offset)
      with (Time.MakeDate day 0) by lia.
    apply TimeFacts.Day_MakeDate. unfold Time.msPerDay. lia.
  - intros day. lia.
Qed.

(** In a zone with a fixed offset the window ends exactly seven days of
    86,400,000 ms after the base date. *)
Lemma windowEnd_fixed_zone offset zoneName t :
  windowEnd (RefHost.at_offset offset zoneName) (Some t)
  = Time.TimeClip (t + 7 * Time.msPerDay).
Proof.
  rewrite windowEnd_calendar. unfold LocalTime, UTC.
  cbn [LocalTZA RefHost.at_offset]. unfold RefHost.fixedZone. f_equal. lia.
Qed.

(** The table of the specification's scenario: the row two days ahead is
    selected, and its date lies in the window that starts at noon of the
    clock's day. *)
Lemma selected_row_inside_window_witness :
  getNextUpcomingRow_ RefHost.utc Scenario.world Scenario.schedule VUndefined
  = Ok (Some Scenario.soon)
  /\ exists today maxDate rowDate : Z,
       parseBaseDate_ RefHost.utc Scenario.world VUndefined = Ok (Some today)
       /\ windowEnd RefHost.utc (Some today) = Some maxDate
       /\ maxDate = UTC RefHost.utc (LocalTime RefHost.utc today + 7 * Time.msPerDay)
       /\ Date_fromValue RefHost.utc (Js.index Scenario.soon 0) = Some rowDate
       /\ today <= rowDate <= maxDate.
Proof.
  split; [reflexivity|].
  apply (proj1 (selected_row_inside_window RefHost.utc Scenario.world
                  Scenario.schedule VUndefined)).
  reflexivity.
Defined.

(** A row dated exactly at the end of the window is still selected. *)
Example window_end_is_inclusive :
  getNextUpcomingRow_ RefHost.utc Scenario.world
    [Scenario.header;
     [VDate (Some (RefHost.noon RefHost.utc 2025 11 22)); VStr "last day"]]
    VUndefined
  = Ok (Some [VDate (Some (RefHost.noon RefHost.utc 2025 11 22)); VStr "last day"])
  /\ windowEnd RefHost.utc (Some (RefHost.noon RefHost.utc 2025 11 15))
     = Some (RefHost.noon RefHost.utc 2025 11 22).
Proof. split; reflexivity. Qed.

(** A row dated at midnight of the base day is before the base date, which
    is pinned to noon, and is not selected. *)
Example base_day_midnight_is_before_noon :
  getNextUpcomingRow_ RefHost.utc Scenario.world
    [Scenario.header; [Scenario.daysFromNow 0; VStr "today"]] VUndefined
  = Ok None.
Proof. reflexivity. Qed.

(** The scenario of the specification: [soon] wins over the row that is
    dated earlier but stands later in the table. *)
Lemma first_row_in_table_order_witness :
  getNextUpcomingRow_ RefHost.utc Scenario.world Scenario.schedule VUndefined
  = Ok (Some Scenario.soon)
  /\ exists today i,
       parseBaseDate_ RefHost.utc Scenario.world VUndefined = Ok today
       /\ (1 <= i)%nat /\ Scenario.schedule !! i = Some Scenario.soon
       /\ inWindow RefHost.utc today (windowEnd RefHost.utc today) Scenario.soon = true
       /\ inWindow RefHost.utc today (windowEnd RefHost.utc today) Scenario.sooner = true
       /\ forall j k', (1 <= j < i)%nat -> Scenario.schedule !! j = Some k' ->
            inWindow RefHost.utc today (windowEnd RefHost.utc today) k' = false.
Proof.
  split; [reflexivity|].
  destruct (first_row_in_table_order RefHost.utc Scenario.world
              Scenario.schedule VUndefined) as (today & Ht & H).
  change (getNextUpcomingRow_ RefHost.utc Scenario.world Scenario.schedule VUndefined)
    with (@Ok (option Row) (Some Scenario.soon)) in H.
  destruct H as (i & Hi & Hk & Hw & Hfirst).
  exists today, i. repeat split; try assumption.
  injection Ht as <-. reflexivity.
Defined.

(** The header is never selected, even when its first cell is a date in
    the window. *)
Example header_is_skipped :
  getNextUpcomingRow_ RefHost.utc Scenario.world
    [[Scenario.daysFromNow 2; VStr "header"]] VUndefined = Ok None
  /\ getNextUpcomingRow_ RefHost.utc Scenario.world
       [[Scenario.daysFromNow 2; VStr "header"]; Scenario.sooner] VUndefined
     = Ok (Some Scenario.sooner).
Proof. split; reflexivity. Qed.

(** The rows of the last scenario of the specification: yesterday and
    eight days ahead. *)
Example nothing_in_window :
  getNextUpcomingRow_ RefHost.utc Scenario.world
    [Scenario.header; [Scenario.daysFromNow (-1); VStr "past"];
     [Scenario.daysFromNow 8; VStr "too late"]] VUndefined
  = Ok None.
Proof. reflexivity. Qed.

Lemma slash_date_witness :
  ZoneRegular RefHost.denver
  /\ Regex.matchGroups Regex.slashDate "12/15/25" = Some ["12"; "15"; "25"]
  /\ parseBaseDate_ RefHost.denver (RefHost.emptyWorld 0) (VStr "12/15/25")
     = Ok (Some (RefHost.noon RefHost.denver 2025 11 15))
  /\ getFullYear RefHost.denver (Some (RefHost.noon RefHost.denver 2025 11 15))
     = Some 2025
  /\ getMonth RefHost.denver (Some (RefHost.noon RefHost.denver 2025 11 15))
     = Some 11
  /\ getDate RefHost.denver (Some (RefHost.noon RefHost.denver 2025 11 15))
     = Some 15
  /\ getHours RefHost.denver (Some (RefHost.noon RefHost.denver 2025 11 15))
     = Some 12.
Proof.
  assert (R : ZoneRegular RefHost.denver).
  { apply at_offset_regular. vm_compute. discriminate. }
  split; [exact R|]. split; [reflexivity|].
  destruct (slash_date_resolves_to_calendar_day RefHost.denver
              (RefHost.emptyWorld 0) "12/15/25" ["12"; "15"; "25"] R eq_refl)
    as (mo & d & y & Hmo & Hd & Hy & _ & _ & _ & Hparse & _ & Hh & Hfields).
  vm_compute in Hmo, Hd, Hy.
  injection Hmo as <-. injection Hd as <-. injection Hy as <-.
  destruct Hfields as (HY & HM & HD); [lia | vm_compute; split; discriminate |].
  repeat split; assumption.
Defined.

(** C3, the counterexample.  [02/30/2025] matches the pattern; the result
    is 2 March 2025, not a day whose month is the first group and whose
    day is the second group. *)
Lemma slash_date_overflow :
  Regex.matchGroups Regex.slashDate "02/30/2025" = Some ["02"; "30"; "2025"]
  /\ parseBaseDate_ RefHost.utc (RefHost.emptyWorld 0) (VStr "02/30/2025")
     = Ok (Some (RefHost.noon RefHost.utc 2025 2 2))
  /\ getMonth RefHost.utc (Some (RefHost.noon RefHost.utc 2025 2 2)) = Some 2
  /\ getDate RefHost.utc (Some (RefHost.noon RefHost.utc 2025 2 2)) = Some 2
  /\ ~ (getMonth RefHost.utc (Some (RefHost.noon RefHost.utc 2025 2 2)) = Some (2 - 1)
        /\ getDate RefHost.utc (Some (RefHost.noon RefHost.utc 2025 2 2)) = Some 30).
Proof.
  repeat split; try reflexivity. intros [H _]. vm_compute in H. discriminate.
Qed.

(** A month group above 12 rolls into the next year. *)
Example slash_date_month_13 :
  parseBaseDate_ RefHost.utc (RefHost.emptyWorld 0) (VStr "13/01/2025")
  = Ok (Some (RefHost.noon RefHost.utc 2026 0 1)).
Proof. reflexivity. Qed.

Lemma malformed_row_is_skipped_witness :
  Date_fromValue RefHost.utc (Js.index Scenario.malformed 0) = None
  /\ [Scenario.header; Scenario.tooFar] <> []
  /\ getNextUpcomingRow_ RefHost.utc Scenario.world
       ([Scenario.header; Scenario.tooFar] ++ Scenario.malformed :: [Scenario.soon])
       VUndefined
     = getNextUpcomingRow_ RefHost.utc Scenario.world
         ([Scenario.header; Scenario.tooFar] ++ [Scenario.soon]) VUndefined
  /\ getNextUpcomingRow_ RefHost.utc Scenario.world
       ([Scenario.header; Scenario.tooFar] ++ Scenario.malformed :: [Scenario.soon])
       VUndefined
     = Ok (Some Scenario.soon).
Proof.
  split; [reflexivity|]. split; [discriminate|].
  destruct (malformed_row_is_skipped RefHost.utc Scenario.world
              [Scenario.header; Scenario.tooFar] Scenario.malformed
              [Scenario.soon] VUndefined eq_refl ltac:(discriminate))
    as (_ & _ & Heq & _).
  split; [exact Heq|]. rewrite Heq. reflexivity.
Defined.

(** A table whose only data row is malformed yields [null]. *)
Example only_malformed_rows :
  getNextUpcomingRow_ RefHost.utc Scenario.world
    [Scenario.header; Scenario.malformed; []] VUndefined = Ok None.
Proof. reflexivity. Qed.

(** The no-group scenario of the specification. *)
Lemma no_group_messages_coincide_witness :
  isNoGroupRow_ RefHost.utc (Some Scenario.noGroup) = Ok true
  /\ getShortDate_ RefHost.utc (Js.index Scenario.noGroup 0) = Ok "12-17"
  /\ buildEmailSubject_ RefHost.utc (Some Scenario.noGroup)
     = Ok "NO GROUP for Mendez/Williams City Group on 12-17"
  /\ buildEmailBody_ RefHost.utc Scenario.world (Some Scenario.noGroup)
     = Ok "NO GROUP for Mendez/Williams City Group on 12-17"
  /\ buildGroupMeMessage_ RefHost.utc Scenario.world (Some Scenario.noGroup)
     = Ok "NO GROUP for Mendez/Williams City Group on 12-17".
Proof.
  split; [reflexivity|]. split; [reflexivity|].
  destruct (no_group_messages_coincide RefHost.utc Scenario.world
              Scenario.noGroup eq_refl) as (Hbody & Hchat & Hsubject).
  rewrite Hbody, Hchat.
  repeat split; exact (Hsubject "12-17" eq_refl).
Defined.

(** A no-group row without a usable date: the formatter of the reference
    host throws, and so does each of the three builders. *)
Example no_group_without_date :
  buildEmailSubject_ RefHost.utc (Some [VStr "TBD"; VNull; VStr "no group"])
  = Throw (TypeError "formatDate")
  /\ buildEmailBody_ RefHost.utc Scenario.world
       (Some [VStr "TBD"; VNull; VStr "no group"])
     = Throw (TypeError "formatDate")
  /\ buildGroupMeMessage_ RefHost.utc Scenario.world
       (Some [VStr "TBD"; VNull; VStr "no group"])
     = Throw (TypeError "formatDate").
Proof. repeat split; reflexivity. Qed.

(** The classifier folds case and trims. *)
Example isNoGroupRow_examples :
  isNoGroupRow_ RefHost.utc (Some [VNull; VNull; VStr "No Group"]) = Ok true
  /\ isNoGroupRow_ RefHost.utc (Some [VNull; VNull; VStr " no group "]) = Ok true
  /\ isNoGroupRow_ RefHost.utc (Some [VNull; VNull; VStr "NO GROUP"]) = Ok true
  /\ isNoGroupRow_ RefHost.utc (Some [VNull; VNull; VStr "No Groupz"]) = Ok false
  /\ isNoGroupRow_ RefHost.utc None = Ok false.
Proof. repeat split; reflexivity. Qed.

Lemma reminder_is_selection_then_builders_witness :
  In (MailApp_sendEmail "a@example.com,b@test.org"
        "Reminder for Mendez/Williams City Group on 12-17"
        (nl +:+ "  <p><strong>Date:</strong> Wednesday, December 17, 2025</p>" +:+ nl
         +:+ "  <p><strong>Description:</strong> soon</p>" +:+ nl
         +:+ "  <p><strong>Location:</strong> loc</p>" +:+ nl
         +:+ "  <p><strong>Food Theme:</strong> food</p>" +:+ nl
         +:+ "  <p><strong>Childcare Duty:</strong> cc</p>" +:+ nl
         +:+ "  <p><a href=" +:+ dq
         +:+ "https://docs.google.com/spreadsheets/d/SHEET123/edit?usp=sharing"
         +:+ dq +:+ ">Click here to sign up</a></p>" +:+ nl))
     (fst (sendNotif RefHost.utc Scenario.world))
  /\ exists table rem,
       getSheetData_ Scenario.world ScheduleSheetName = Ok table
       /\ composeReminder RefHost.utc Scenario.world table VUndefined = Ok rem
       /\ buildEmailSubject_ RefHost.utc (Some Scenario.soon) = Ok (subject rem)
       /\ buildEmailBody_ RefHost.utc Scenario.world (Some Scenario.soon)
          = Ok (emailBody rem)
       /\ buildGroupMeMessage_ RefHost.utc Scenario.world (Some Scenario.soon)
          = Ok (message rem)
       /\ subject rem = "Reminder for Mendez/Williams City Group on 12-17".
Proof.
  assert (Hin : In (MailApp_sendEmail "a@example.com,b@test.org"
        "Reminder for Mendez/Williams City Group on 12-17"
        (nl +:+ "  <p><strong>Date:</strong> Wednesday, December 17, 2025</p>" +:+ nl
         +:+ "  <p><strong>Description:</strong> soon</p>" +:+ nl
         +:+ "  <p><strong>Location:</strong> loc</p>" +:+ nl
         +:+ "  <p><strong>Food Theme:</strong> food</p>" +:+ nl
         +:+ "  <p><strong>Childcare Duty:</strong> cc</p>" +:+ nl
         +:+ "  <p><a href=" +:+ dq
         +:+ "https://docs.google.com/spreadsheets/d/SHEET123/edit?usp=sharing"
         +:+ dq +:+ ">Click here to sign up</a></p>" +:+ nl))
     (fst (sendNotif RefHost.utc Scenario.world))).
  { vm_compute. right. left. reflexivity. }
  split; [exact Hin|].
  destruct (reminder_is_selection_then_builders RefHost.utc Scenario.world)
    as (Hfields & _ & Hsend).
  destruct (Hsend _ _ Hin) as (table & rem & Ht & Hrem & Hs & Hb).
  exists table, rem. split; [exact Ht|]. split; [exact Hrem|].
  destruct (Hfields _ _ _ Hrem) as (selected & Hsel & H1 & H2 & H3 & _).
  assert (Et : getSheetData_ Scenario.world ScheduleSheetName = Ok Scenario.schedule)
    by (vm_compute; reflexivity).
  assert (table = Scenario.schedule) by congruence. subst table.
  assert (Es : getNextUpcomingRow_ RefHost.utc Scenario.world Scenario.schedule
                 VUndefined = Ok (Some Scenario.soon))
    by (vm_compute; reflexivity).
  cbn [optBaseDate] in Hsel.
  assert (selected = Some Scenario.soon) by congruence. subst selected.
  repeat split; try assumption. symmetry. exact Hs.
Defined.

(** Without a selected row the reminder carries the fixed texts. *)
Example reminder_for_no_row :
  composeReminder_ RefHost.utc Scenario.world None
  = Ok {| subject := "Reminder for Mendez/Williams City Group";
          emailBody := "No upcoming events found.";
          message := "Reminder for Mendez/Williams City Group";
          row := None |}.
Proof. reflexivity. Qed.

Lemma recipients_partitioned_by_shape_witness :
  partitionRecipients RefHost.utc
    [VStr " a@example.com "; VNull; VStr "not-an-email"; VStr "b@test.org"]
  = Ok (["a@example.com"; "b@test.org"], [EmptyString; "not-an-email"])
  /\ (isValidEmail_ "a@example.com" = true
      -> (String.length "a@example.com" <= 320)%nat
         /\ Shapes.emailShape "a@example.com").
Proof.
  destruct (recipients_partitioned_by_shape RefHost.utc
              [VStr " a@example.com "; VNull; VStr "not-an-email"; VStr "b@test.org"])
    as (Hpart & Hiff & _).
  split; [exact Hpart|]. apply Hiff.
Defined.

(** The sending function on the list of the specification. *)
Example sendEmailToRecipients_example :
  sendEmailToRecipients_ RefHost.utc "Sub" "Body"
    [VStr "a@test.com"; VStr "not-an-email"; VStr "b@test.com"]
  = ([Logger_log "Invalid email recipients provided: not-an-email";
      MailApp_sendEmail "a@test.com,b@test.com" "Sub" "Body"], Ok tt).
Proof. reflexivity. Qed.

(** C9, the counterexample.  A base date given as text that nothing
    parses resolves to the day of the clock: two runs ten days apart
    disagree. *)
Lemma unparseable_text_reads_clock :
  parseBaseDate_ RefHost.utc (RefHost.emptyWorld 0) (VStr "not a date")
  = Ok (Some (RefHost.noon RefHost.utc 1970 0 1))
  /\ parseBaseDate_ RefHost.utc (RefHost.emptyWorld (10 * Time.msPerDay))
       (VStr "not a date")
     = Ok (Some (RefHost.noon RefHost.utc 1970 0 11))
  /\ parseBaseDate_ RefHost.utc (RefHost.emptyWorld 0) (VStr "not a date")
     <> parseBaseDate_ RefHost.utc (RefHost.emptyWorld (10 * Time.msPerDay))
          (VStr "not a date").
Proof. repeat split; try reflexivity. vm_compute. discriminate. Qed.

Lemma base_date_from_input_ignores_clock_witness :
  resolvesFromInput RefHost.utc (VStr "12/15/25")
  /\ parseBaseDate_ RefHost.utc (RefHost.emptyWorld 0) (VStr "12/15/25")
     = parseBaseDate_ RefHost.utc Scenario.world (VStr "12/15/25")
  /\ getNextUpcomingRow_ RefHost.utc (RefHost.emptyWorld 0) Scenario.schedule
       (VStr "12/15/25")
     = getNextUpcomingRow_ RefHost.utc Scenario.world Scenario.schedule
         (VStr "12/15/25")
  /\ ~ resolvesFromInput RefHost.utc (VStr "not a date")
  /\ parseBaseDate_ RefHost.utc Scenario.world (VStr "not a date")
     = Ok (setHours RefHost.utc (Date_now Scenario.world) 12 0 0 0).
Proof.
  assert (Hyes : resolvesFromInput RefHost.utc (VStr "12/15/25")).
  { split; [reflexivity|]. split; [reflexivity|]. left. vm_compute. discriminate. }
  assert (Hno : ~ resolvesFromInput RefHost.utc (VStr "not a date")).
  { intros (_ & _ & [H|[H|H]]); apply H; reflexivity. }
  destruct (base_date_from_input_ignores_clock RefHost.utc (VStr "12/15/25"))
    as (Hsame & _).
  destruct (base_date_from_input_ignores_clock RefHost.utc (VStr "not a date"))
    as (_ & Hnow).
  split; [exact Hyes|].
  split; [apply (Hsame Hyes (RefHost.emptyWorld 0) Scenario.world Scenario.schedule)|].
  split; [apply (Hsame Hyes (RefHost.emptyWorld 0) Scenario.world Scenario.schedule)|].
  split; [exact Hno|]. apply (Hnow Hno).
Defined.

Lemma isNoGroupRow_total_witness :
  Js.truthy (Js.index [VDate None; VStr "only two fields"] 2) = false
  /\ isNoGroupRow_ RefHost.utc (Some [VDate None; VStr "only two fields"]) = Ok false
  /\ isNoGroupRow_ RefHost.utc (Some [VNull; VNull; VNull]) = Ok false
  /\ exists b, isNoGroupRow_ RefHost.utc
                 (Some [VNull; VNull; VNum (Finite (inject_Z 42))]) = Ok b.
Proof.
  split; [reflexivity|].
  split.
  { destruct (isNoGroupRow_total RefHost.utc [VDate None; VStr "only two fields"])
      as (_ & _ & Hshort & _).
    apply Hshort. cbn. lia. }
  split.
  { destruct (isNoGroupRow_total RefHost.utc [VNull; VNull; VNull])
      as (_ & _ & _ & Hnull).
    apply Hnull. left. reflexivity. }
  exact (proj1 (isNoGroupRow_total RefHost.utc
                  [VNull; VNull; VNum (Finite (inject_Z 42))])).
Defined.

(** Absent input, blank text, text in the second pattern and a valid
    [Date] all resolve to noon of a day. *)
Example parseBaseDate_usable_examples :
  parseBaseDate_ RefHost.utc Scenario.world VUndefined
  = Ok (Some (RefHost.noon RefHost.utc 2025 11 15))
  /\ parseBaseDate_ RefHost.utc Scenario.world (VStr "   ")
     = Ok (Some (RefHost.noon RefHost.utc 2025 11 15))
  /\ parseBaseDate_ RefHost.utc Scenario.world (VStr "2025-12-17")
     = Ok (Some (RefHost.noon RefHost.utc 2025 11 17))
  /\ parseBaseDate_ RefHost.utc Scenario.world
       (VDate (Some (RefHost.midnight RefHost.utc 2025 11 17 + 5)))
     = Ok (Some (RefHost.noon RefHost.utc 2025 11 17)).
Proof. repeat split; reflexivity. Qed.

(** A valid [Date] at the end of the range of time values also comes back
    invalid: noon of its day is out of range. *)
Example parseBaseDate_end_of_range :
  parseBaseDate_ RefHost.utc Scenario.world (VDate (Some Time.maxTime)) = Ok None.
Proof. reflexivity. Qed.

(** ** Further facts about the script *)

Module StrFacts.

Lemma append_cons c a b : String c a +:+ b = String c (a +:+ b).
Proof. reflexivity. Qed.

Lemma append_empty b : EmptyString +:+ b = b.
Proof. reflexivity. Qed.

Lemma append_empty_r a : a +:+ EmptyString = a.
Proof. induction a as [|c a IH]; [reflexivity|]. now rewrite append_cons, IH. Qed.

Lemma append_assoc a b c : (a +:+ b) +:+ c = a +:+ (b +:+ c).
Proof.
  induction a as [|x a IH]; [reflexivity|]. now rewrite !append_cons, IH.
Qed.

Ltac scbn :=
  rewrite ?append_cons, ?append_empty;
  cbn [Str.trimStart Str.trimEnd Str.chars list_ascii_of_string
       Str.isEmpty Str.toLowerCase andb] in *.

Lemma toLower_space c : Chars.isWhiteSpace (Chars.toLower c) = Chars.isWhiteSpace c.
Proof. destruct c as [[] [] [] [] [] [] [] []]; reflexivity. Qed.

Lemma toLower_idem c : Chars.toLower (Chars.toLower c) = Chars.toLower c.
Proof. destruct c as [[] [] [] [] [] [] [] []]; reflexivity. Qed.

Lemma toLowerCase_idem s : Str.toLowerCase (Str.toLowerCase s) = Str.toLowerCase s.
Proof. induction s as [|c s IH]; scbn; [reflexivity|]. now rewrite toLower_idem, IH. Qed.

Lemma toLowerCase_isEmpty s : Str.isEmpty (Str.toLowerCase s) = Str.isEmpty s.
Proof. destruct s; reflexivity. Qed.

Lemma toLowerCase_trimStart s :
  Str.toLowerCase (Str.trimStart s) = Str.trimStart (Str.toLowerCase s).
Proof.
  induction s as [|c s IH]; scbn; [reflexivity|].
  rewrite toLower_space. destruct (Chars.isWhiteSpace c); [exact IH|reflexivity].
Qed.

Lemma toLowerCase_trimEnd s :
  Str.toLowerCase (Str.trimEnd s) = Str.trimEnd (Str.toLowerCase s).
Proof.
  induction s as [|c s IH]; scbn; [reflexivity|].
  rewrite toLower_space, <- IH, toLowerCase_isEmpty.
  destruct (Chars.isWhiteSpace c && Str.isEmpty (Str.trimEnd s)); reflexivity.
Qed.

Lemma toLowerCase_trim s :
  Str.toLowerCase (Str.trim s) = Str.trim (Str.toLowerCase s).
Proof. unfold Str.trim. now rewrite toLowerCase_trimEnd, toLowerCase_trimStart. Qed.

Lemma trimStart_blank_app b s : Text.blank b -> Str.trimStart (b +:+ s) = Str.trimStart s.
Proof.
  unfold Text.blank. induction b as [|c b IH]; scbn; intros H; [reflexivity|].
  inversion H as [|? ? Hc Hb]; subst. rewrite Hc. now apply IH.
Qed.

Lemma trimEnd_blank b : Text.blank b -> Str.trimEnd b = EmptyString.
Proof.
  unfold Text.blank. induction b as [|c b IH]; scbn; intros H; [reflexivity|].
  inversion H as [|? ? Hc Hb]; subst. rewrite Hc, (IH Hb). reflexivity.
Qed.

Lemma trimEnd_app_blank s b : Text.blank b -> Str.trimEnd (s +:+ b) = Str.trimEnd s.
Proof.
  intros Hb. induction s as [|c s IH]; scbn.
  - now apply trimEnd_blank.
  - now rewrite IH.
Qed.

Lemma trimStart_app_nonblank s t :
  Str.isEmpty (Str.trimStart s) = false ->
  Str.trimStart (s +:+ t) = Str.trimStart s +:+ t.
Proof.
  induction s as [|c s IH]; scbn; [discriminate|].
  destruct (Chars.isWhiteSpace c); [exact IH|reflexivity].
Qed.

Lemma trimStart_all_blank s :
  Str.isEmpty (Str.trimStart s) = true -> Text.blank s.
Proof.
  unfold Text.blank. induction s as [|c s IH]; scbn; [constructor|].
  destruct (Chars.isWhiteSpace c) eqn:E; [|discriminate].
  intros H. constructor; [exact E|now apply IH].
Qed.

Lemma blank_app a b : Text.blank a -> Text.blank b -> Text.blank (a +:+ b).
Proof.
  unfold Text.blank. induction a as [|c a IH]; scbn; intros Ha Hb; [exact Hb|].
  inversion Ha; subst. constructor; [assumption|now apply IH].
Qed.

(** Surrounding white space does not survive [trim]. *)
Lemma trim_surrounded b1 s b2 :
  Text.blank b1 -> Text.blank b2 -> Str.trim (b1 +:+ s +:+ b2) = Str.trim s.
Proof.
  intros H1 H2. unfold Str.trim. rewrite trimStart_blank_app by exact H1.
  destruct (Str.isEmpty (Str.trimStart s)) eqn:E.
  - pose proof (trimStart_all_blank s E) as Hs.
    assert (Hall : Text.blank (s +:+ b2)) by now apply blank_app.
    assert (Hz : forall x, Text.blank x -> Str.trimStart x = EmptyString).
    { unfold Text.blank. induction x as [|c x IH]; scbn; intros H; [reflexivity|].
      inversion H as [|? ? Hc Hx]; subst. rewrite Hc. now apply IH. }
    now rewrite (Hz _ Hall), (Hz _ Hs).
  - rewrite trimStart_app_nonblank by exact E. now apply trimEnd_app_blank.
Qed.

Lemma trimEnd_idem s : Str.trimEnd (Str.trimEnd s) = Str.trimEnd s.
Proof.
  induction s as [|c s IH]; scbn; [reflexivity|].
  destruct (Chars.isWhiteSpace c && Str.isEmpty (Str.trimEnd s)) eqn:E;
    [reflexivity|].
  scbn. now rewrite IH, E.
Qed.

Lemma trimStart_head s :
  match Str.trimStart s with
  | EmptyString => True
  | String c _ => Chars.isWhiteSpace c = false
  end.
Proof.
  induction s as [|c s IH]; scbn; [exact I|].
  destruct (Chars.isWhiteSpace c) eqn:E; [exact IH|exact E].
Qed.

Lemma trimStart_trimEnd_head c s :
  Chars.isWhiteSpace c = false ->
  Str.trimStart (Str.trimEnd (String c s)) = Str.trimEnd (String c s).
Proof. intros H. scbn. rewrite H. scbn. now rewrite H. Qed.

Lemma trim_idem s : Str.trim (Str.trim s) = Str.trim s.
Proof.
  unfold Str.trim. pose proof (trimStart_head s) as H.
  destruct (Str.trimStart s) as [|c r]; [reflexivity|].
  rewrite trimStart_trimEnd_head by exact H. apply trimEnd_idem.
Qed.

(** The trim of a string that starts with a character that is no white
    space starts with that character. *)
Lemma trim_head c s :
  Chars.isWhiteSpace c = false ->
  exists r, Str.trim (String c s) = String c r.
Proof.
  intros H. unfold Str.trim. cbn [Str.trimStart]. rewrite H.
  cbn [Str.trimEnd]. rewrite H. cbn [andb]. eauto.
Qed.

End StrFacts.

Module SplitFacts.
Import StrFacts.

Lemma split_lacks sep s : Text.lacks sep s -> Str.split sep s = [s].
Proof.
  unfold Text.lacks. induction s as [|c s IH]; cbn [Str.split Str.chars list_ascii_of_string];
    intros H; [reflexivity|].
  inversion H as [|? ? Hc Hs]; subst. rewrite Hc.
  fold (Str.chars s) in Hs. now rewrite (IH Hs).
Qed.

Lemma split_app sep x r :
  Text.lacks sep x ->
  Str.split sep (x +:+ String sep r) = x :: Str.split sep r.
Proof.
  unfold Text.lacks. induction x as [|c x IH];
    rewrite ?append_cons, ?append_empty;
    cbn [Str.split Str.chars list_ascii_of_string]; intros H.
  - unfold Chars.isChar at 1. now rewrite Nat.eqb_refl.
  - inversion H as [|? ? Hc Hx]; subst. rewrite Hc.
    fold (Str.chars x) in Hx. now rewrite (IH Hx).
Qed.

(** Splitting what [join] made gives the list back, when no element holds
    the separator. *)
Lemma split_join sep l :
  l <> [] -> Forall (Text.lacks sep) l ->
  Str.split sep (Str.join (String sep EmptyString) l) = l.
Proof.
  intros Hne Hall. induction Hall as [|x l Hx Hl IH]; [congruence|].
  destruct l as [|y l].
  - cbn [Str.join]. now apply split_lacks.
  - cbn [Str.join]. rewrite append_cons, append_empty.
    rewrite split_app by exact Hx. f_equal. apply IH. discriminate.
Qed.

End SplitFacts.

Section ExtraFacts.

Variable host : Host.

Lemma ToString_guarded_string x :
  ToString host (Js.or_else (VStr x) (VStr EmptyString)) = x.
Proof. destruct x; reflexivity. Qed.

(** *** The row classifier *)

(** X1.  The classification of a row ignores the case of the location
    and white space around it: two locations with the same lower-case
    form, one of them padded with white space, classify alike. *)
Theorem isNoGroupRow_ignores_case_and_padding
    (a b : JsVal) (rest : Row) (s1 s2 pad1 pad2 : string) :
  Text.blank pad1 -> Text.blank pad2 ->
  Str.toLowerCase s1 = Str.toLowerCase s2 ->
  isNoGroupRow_ host (Some (a :: b :: VStr (pad1 +:+ s1 +:+ pad2) :: rest))
  = isNoGroupRow_ host (Some (a :: b :: VStr s2 :: rest)).
Proof.
  intros H1 H2 Hlow. rewrite !isNoGroupRow_eq.
  change (Js.index (a :: b :: VStr (pad1 +:+ s1 +:+ pad2) :: rest) 2)
    with (VStr (pad1 +:+ s1 +:+ pad2)).
  change (Js.index (a :: b :: VStr s2 :: rest) 2) with (VStr s2).
  rewrite !ToString_guarded_string, StrFacts.trim_surrounded by assumption.
  now rewrite !StrFacts.toLowerCase_trim, Hlow.
Qed.

(** *** Recipients *)

Lemma notSpaceNorAt_inv c :
  Chars.notSpaceNorAt c = true ->
  Chars.isWhiteSpace c = false /\ Chars.isChar "@" c = false.
Proof.
  unfold Chars.notSpaceNorAt, Chars.isChar. intros H.
  apply andb_true_iff in H as [H1 H2].
  apply negb_true_iff in H1, H2. split; assumption.
Qed.

Lemma length_chars s : length (Str.chars s) = String.length s.
Proof. induction s as [|c s IH]; cbn; [reflexivity|]. now rewrite <- IH. Qed.

Lemma filter_none {A} (p : A -> bool) l :
  Forall (fun x => p x = false) l -> List.filter p l = [].
Proof. induction 1 as [|x l Hx _ IH]; cbn; [reflexivity|]. now rewrite Hx. Qed.

Lemma filter_all {A} (p : A -> bool) l :
  Forall (fun x => p x = true) l -> List.filter p l = l.
Proof. induction 1 as [|x l Hx _ IH]; cbn; [reflexivity|]. now rewrite Hx, IH. Qed.

(** X2.  An address that [isValidEmail_] accepts holds exactly one [@]
    and no white space, and has between 5 and 320 characters. *)
Theorem valid_email_has_one_at (e : string) :
  isValidEmail_ e = true ->
  length (List.filter (Chars.isChar "@") (Str.chars e)) = 1%nat
  /\ Forall (fun c => Chars.isWhiteSpace c = false) (Str.chars e)
  /\ (5 <= String.length e <= 320)%nat.
Proof.
  intros H. apply EmailFacts.isValidEmail_iff in H as [Hlen Hshape].
  destruct Hshape as (l & d & t & Hs & Hl & Hd & Ht & Fl & Fd & Ft).
  assert (Hat : forall x, Forall (fun c => Chars.notSpaceNorAt c = true) x ->
                          Forall (fun c => Chars.isChar "@" c = false) x).
  { intros x Hx. eapply List.Forall_impl; [|exact Hx]. intros c Hc.
    now apply notSpaceNorAt_inv. }
  assert (Hws : forall x, Forall (fun c => Chars.notSpaceNorAt c = true) x ->
                          Forall (fun c => Chars.isWhiteSpace c = false) x).
  { intros x Hx. eapply List.Forall_impl; [|exact Hx]. intros c Hc.
    now apply notSpaceNorAt_inv. }
  rewrite <- length_chars in *. rewrite Hs in *. split; [|split].
  - rewrite List.filter_app. cbn [List.filter].
    rewrite List.filter_app. cbn [List.filter].
    rewrite !filter_none by auto. reflexivity.
  - apply Forall_app. split; [auto|]. constructor; [reflexivity|].
    apply Forall_app. split; [auto|]. constructor; [reflexivity|auto].
  - split; [|exact Hlen].
    rewrite length_app. cbn [length]. rewrite length_app. cbn [length].
    destruct l; [congruence|]. destruct d; [congruence|]. destruct t; [congruence|].
    cbn [length]. lia.
Qed.


(** X4.  Every test recipient read from [TEST_EMAIL_RECIPIENTS] is a
    non-empty string without white space around it, so normalising it
    again before validation changes nothing; blank entries between the
    commas are dropped. *)
Theorem test_recipients_are_trimmed (w : World) (rs : list JsVal) :
  getTestEmailRecipients_ w = Ok rs ->
  Forall (fun r => exists s, r = VStr s /\ Str.isEmpty s = false
                             /\ Str.trim s = s
                             /\ normalizeRecipient host r = Ok s) rs.
Proof.
  unfold getTestEmailRecipients_.
  destruct (requireProperty w "TEST_EMAIL_RECIPIENTS") as [value|]; [|discriminate].
  cbn [Exc_bind]. intros [= <-].
  apply Forall_fmap, Forall_forall. intros s Hs.
  apply list_elem_of_filter in Hs as [Hne Hin].
  apply list_elem_of_fmap in Hin as (x & -> & _).
  exists (Str.trim x). repeat split; try assumption.
  - apply StrFacts.trim_idem.
  - rewrite normalizeRecipient_total, ToString_guarded_string.
    now rewrite StrFacts.trim_idem.
Qed.

Lemma valid_email_trim e : isValidEmail_ e = true -> Str.trim e = e.
Proof.
  intros H. apply EmailFacts.isValidEmail_iff in H as [_ Hshape].
  destruct Hshape as (l & d & t & Hs & Hl & Hd & Ht & Fl & Fd & Ft).
  destruct l as [|c l]; [congruence|].
  destruct (ParseFacts.last_split t Ht) as (t' & c' & ->).
  inversion Fl as [|? ? Hc _]; subst.
  apply Forall_app in Ft as [_ Ft]. inversion Ft as [|? ? Hc' _]; subst.
  apply (ParseFacts.trim_id e c (l ++ "@"%char :: d ++ "."%char :: t') c').
  - rewrite Hs. cbn. f_equal. rewrite <- !app_assoc. cbn. do 2 f_equal.
    rewrite <- app_assoc. reflexivity.
  - now apply notSpaceNorAt_inv.
  - now apply notSpaceNorAt_inv.
Qed.

Lemma valid_email_nonempty e : isValidEmail_ e = true -> Str.isEmpty e = false.
Proof. unfold isValidEmail_. destruct e; [discriminate|reflexivity]. Qed.

Lemma join_nonempty sep x l :
  Str.isEmpty x = false -> Str.isEmpty (Str.join sep (x :: l)) = false.
Proof.
  intros H. destruct x; [discriminate|]. destruct l; reflexivity.
Qed.

(** X5.  A list of valid addresses without commas survives the trip
    through the configuration: stored comma-joined in
    [TEST_EMAIL_RECIPIENTS], it is read back as the same list, and the
    email goes to the very string that was stored, with nothing logged. *)
Theorem test_recipients_round_trip
    (w : World) (l : list string) (subj body : string) :
  l <> [] ->
  Forall (fun e => isValidEmail_ e = true) l ->
  Forall (Text.lacks ",") l ->
  getProperty w "TEST_EMAIL_RECIPIENTS" = Some (Str.join "," l) ->
  getTestEmailRecipients_ w = Ok (VStr <$> l)
  /\ sendEmailToRecipients_ host subj body (VStr <$> l)
     = ([MailApp_sendEmail (Str.join "," l) subj body], Ok tt).
Proof.
  intros Hne Hvalid Hcomma Hprop.
  assert (Htrim : Str.trim <$> l = l).
  { clear -Hvalid. induction Hvalid as [|e l He _ IH]; cbn; [reflexivity|].
    now rewrite (valid_email_trim e He), IH. }
  assert (Hfull : Forall (fun e => Str.isEmpty e = false) l).
  { eapply List.Forall_impl; [|exact Hvalid]. intros e. apply valid_email_nonempty. }
  split.
  - unfold getTestEmailRecipients_, requireProperty. rewrite Hprop.
    destruct l as [|x l']; [congruence|].
    rewrite join_nonempty by (inversion Hfull; assumption).
    cbn [Exc_bind]. rewrite SplitFacts.split_join by assumption.
    rewrite Htrim. do 2 f_equal.
    clear -Hfull. induction Hfull as [|e l He _ IH]; [reflexivity|].
    rewrite filter_cons_True by exact He. now rewrite IH.
  - assert (Hnorm : map (fun r => Str.trim (ToString host (Js.or_else r (VStr EmptyString))))
                      (VStr <$> l) = l).
    { rewrite <- Htrim at 2. clear. induction l as [|e l IH]; cbn; [reflexivity|].
      now rewrite ToString_guarded_string, IH. }
    unfold sendEmailToRecipients_, partitionRecipients.
    rewrite Exc_map_normalize, Hnorm. cbn [Exc_bind].
    rewrite EmailFacts.validateLoop_filter. cbn [app].
    rewrite (filter_all isValidEmail_ l Hvalid).
    rewrite (filter_none (fun e => negb (isValidEmail_ e)) l)
      by (eapply List.Forall_impl; [|exact Hvalid]; intros e ->; reflexivity).
    destruct l; [congruence|]. reflexivity.
Qed.



(** *** Message content *)

(** X7.  The chat message always opens with the email subject: it is the
    subject alone when no row is selected or the row is a no-group row,
    and the subject followed by a line break and the detail lines
    otherwise. *)
Theorem chat_message_opens_with_subject (w : World) (k : option Row) (msg : string) :
  buildGroupMeMessage_ host w k = Ok msg ->
  exists subj,
    buildEmailSubject_ host k = Ok subj
    /\ (msg = subj \/ exists rest, msg = subj +:+ nl +:+ rest).
Proof.
  unfold buildGroupMeMessage_, buildEmailSubject_.
  destruct k as [r|]; [|intros [= <-]; eauto].
  destruct (getShortDate_ host (Js.index r 0)) as [sd|]; [|discriminate].
  cbn [Exc_bind]. rewrite isNoGroupRow_eq. cbn [Exc_bind].
  destruct (String.eqb _ _); [intros [= <-]; eauto|].
  destruct (getSignupUrl_ w) as [url|]; [|discriminate].
  cbn [Exc_bind Str.join]. intros [= <-]. eauto.
Qed.

Lemma message_head (w : World) (k : option Row) (msg : string) :
  buildGroupMeMessage_ host w k = Ok msg ->
  exists c r, msg = String c r /\ Chars.isWhiteSpace c = false.
Proof.
  unfold buildGroupMeMessage_.
  destruct k as [r|]; [|intros [= <-]; eexists _, _; split; reflexivity].
  destruct (getShortDate_ host (Js.index r 0)) as [sd|]; [|discriminate].
  cbn [Exc_bind]. rewrite isNoGroupRow_eq. cbn [Exc_bind].
  destruct (String.eqb _ _);
    [intros [= <-]; eexists _, _; split; reflexivity|].
  destruct (getSignupUrl_ w) as [url|]; [|discriminate].
  cbn [Exc_bind Str.join]. intros [= <-]. eexists _, _. split; reflexivity.
Qed.

(** X8.  A composed reminder is never blank, so the empty-text guard of
    the GroupMe post never fires on it: the post is made, with the id and
    the text trimmed, unless the bot id is blank, in which case that is
    logged and nothing is posted. *)
Theorem composed_message_is_posted
    (w : World) (k : option Row) (rem : Reminder) (botId : string) :
  composeReminder_ host w k = Ok rem ->
  Str.isEmpty (Str.trim (message rem)) = false
  /\ postGroupMeMessageWithBotId_ botId (message rem)
     = if Str.isEmpty (Str.trim botId)
       then ([Logger_log "No GroupMe bot id provided."], Ok tt)
       else ([UrlFetchApp_fetch "https://api.groupme.com/v3/bots/post"
                (Str.trim botId) (Str.trim (message rem))], Ok tt).
Proof.
  intros H. apply composeReminder__fields in H as (_ & _ & Hm & _).
  destruct (message_head w k (message rem) Hm) as (c & r & Hr & Hc).
  assert (Hne : Str.isEmpty (Str.trim (message rem)) = false).
  { rewrite Hr. destruct (StrFacts.trim_head c r Hc) as [r' ->]. reflexivity. }
  split; [exact Hne|].
  unfold postGroupMeMessageWithBotId_. rewrite Hne.
  destruct (Str.isEmpty (Str.trim botId)); reflexivity.
Qed.

(** X9.  Only the sign-up link needs the sheet id.  With no row selected,
    or a no-group row, the email body and the chat message are the same in
    every configuration.  For any other row whose dates the formatter
    prints, both throw the error of [getSheetId_] when the id is missing,
    and both carry the link built from the id when it is set. *)
Theorem signup_link_needs_sheet_id (w : World) :
  (forall (w' : World) (k : option Row),
     k = None \/ isNoGroupRow_ host k = Ok true ->
     buildEmailBody_ host w k = buildEmailBody_ host w' k
     /\ buildGroupMeMessage_ host w k = buildGroupMeMessage_ host w' k)
  /\ (forall (r : Row) (long short : string),
        isNoGroupRow_ host (Some r) = Ok false ->
        formatRowDate_ host (Js.index r 0) "EEEE, MMMM d, yyyy" = Ok long ->
        getShortDate_ host (Js.index r 0) = Ok short ->
        match getSheetId_ w with
        | Throw e =>
            buildEmailBody_ host w (Some r) = Throw e
            /\ buildGroupMeMessage_ host w (Some r) = Throw e
        | Ok id =>
            let url := "https://docs.google.com/spreadsheets/d/" +:+ id
                       +:+ "/edit?usp=sharing" in
            (exists pre post,
               buildEmailBody_ host w (Some r) = Ok (pre +:+ url +:+ post))
            /\ (exists pre,
                  buildGroupMeMessage_ host w (Some r)
                  = Ok (pre +:+ "Sign up: " +:+ url))
        end).
Proof.
  split.
  - intros w' k [-> | Hk]; [split; reflexivity|].
    destruct k as [r|]; [|discriminate].
    unfold buildEmailBody_, buildGroupMeMessage_. rewrite Hk. cbn [Exc_bind].
    destruct (getShortDate_ host (Js.index r 0)); cbn [Exc_bind];
      rewrite ?Hk; split; reflexivity.
  - intros r long short Hk Hlong Hshort.
    unfold buildEmailBody_, buildGroupMeMessage_, getSignupUrl_.
    rewrite Hk, Hlong, Hshort. cbn [Exc_bind]. rewrite ?Hk. cbn [Exc_bind].
    destruct (getSheetId_ w) as [id|e]; cbn [Exc_bind]; [|split; reflexivity].
    set (url := "https://docs.google.com/spreadsheets/d/" +:+ id
                +:+ "/edit?usp=sharing").
    split.
    + exists (nl
         +:+ "  <p><strong>Date:</strong> " +:+ long +:+ "</p>" +:+ nl
         +:+ "  <p><strong>Description:</strong> " +:+ ToString host (Js.index r 1) +:+ "</p>" +:+ nl
         +:+ "  <p><strong>Location:</strong> " +:+ ToString host (Js.index r 2) +:+ "</p>" +:+ nl
         +:+ "  <p><strong>Food Theme:</strong> " +:+ ToString host (Js.index r 3) +:+ "</p>" +:+ nl
         +:+ "  <p><strong>Childcare Duty:</strong> " +:+ ToString host (Js.index r 4) +:+ "</p>" +:+ nl
         +:+ "  <p><a href=" +:+ dq),
        (dq +:+ ">Click here to sign up</a></p>" +:+ nl).
      rewrite !StrFacts.append_assoc. reflexivity.
    + exists (("Reminder for Mendez/Williams City Group on " +:+ short) +:+ nl
         +:+ ("Description: " +:+ ToString host (Js.index r 1)) +:+ nl
         +:+ ("Location: " +:+ ToString host (Js.index r 2)) +:+ nl
         +:+ ("Food Theme: " +:+ ToString host (Js.index r 3)) +:+ nl
         +:+ ("Childcare Duty: " +:+ ToString host (Js.index r 4)) +:+ nl).
      cbn [Str.join]. rewrite !StrFacts.append_assoc. reflexivity.
Qed.

(** *** The base date, once more *)

(** Both revisions of the parser end every branch with [setHours] on the
    same date: the current one with 12, the earlier one with 0. *)
Lemma parseBaseDate_pin (w : World) (v : JsVal) :
  exists X : JsDate, parseBaseDate_ host w v = Ok (setHours host X 12 0 0 0).
Proof.
  unfold parseBaseDate_.
  destruct (negb (Js.truthy v)); [eauto|].
  destruct v; rewrite ?toStringMethod_guarded; cbn [Exc_bind]; eauto;
    repeat match goal with
           | |- context [if ?c then _ else _] => destruct c
           | |- context [match ?x with Some _ => _ | None => _ end] =>
               destruct x eqn:?
           end; eauto.
Qed.

Lemma setHours_some (X : JsDate) (h u : Z) :
  setHours host X h 0 0 0 = Some u ->
  exists t, X = Some t
            /\ u = UTC host (Time.MakeDate (Time.Day (LocalTime host t))
                                           (Time.MakeTime h 0 0 0)).
Proof.
  unfold setHours. destruct X as [t|]; [|discriminate].
  cbn [mbind option_bind]. unfold Time.TimeClip.
  destruct (_ <=? _); [|discriminate]. intros [= <-]. eauto.
Qed.

Lemma TimeClip_some t u : Time.TimeClip t = Some u -> u = t /\ Time.TimeClip u = Some u.
Proof.
  unfold Time.TimeClip. destruct (Z.abs t <=? Time.maxTime) eqn:E; [|discriminate].
  intros [= <-]. now rewrite E.
Qed.

Lemma setHours_clipped (X : JsDate) (h u : Z) :
  setHours host X h 0 0 0 = Some u -> Time.TimeClip u = Some u.
Proof.
  unfold setHours. destruct X as [t|]; [|discriminate].
  cbn [mbind option_bind]. intros H. now apply TimeClip_some in H.
Qed.

Lemma Day_noon day : Time.Day (Time.MakeDate day (Time.MakeTime 12 0 0 0)) = day.
Proof. apply TimeFacts.Day_MakeDate. cbv. split; [discriminate|reflexivity]. Qed.

(** A valid base date is the UTC instant of a local noon. *)
Lemma base_date_noon_form (w : World) (v : JsVal) (u : Z) :
  parseBaseDate_ host w v = Ok (Some u) ->
  exists day, u = UTC host (Time.MakeDate day (Time.MakeTime 12 0 0 0))
              /\ Time.TimeClip u = Some u.
Proof.
  intros Hp. destruct (parseBaseDate_pin w v) as (X & HX).
  rewrite HX in Hp. injection Hp as Hd.
  pose proof (setHours_clipped _ _ _ Hd) as Hc.
  apply setHours_some in Hd as (t & _ & Hu). eauto.
Qed.

Lemma parseBaseDate_again (w w' : World) (v : JsVal) (d : JsDate) :
  ZoneRegular host ->
  parseBaseDate_ host w v = Ok d ->
  parseBaseDate_ host w' (VDate d) = Ok d.
Proof.
  intros R Hp. unfold parseBaseDate_ at 1. cbn [Js.truthy negb]. f_equal.
  destruct d as [u|]; [|reflexivity].
  destruct (base_date_noon_form w v u Hp) as (day & Hu & Hc).
  unfold Js.timeValue. cbn [mbind option_bind]. rewrite Hc.
  unfold setHours. cbn [mbind option_bind].
  replace (LocalTime host u) with (Time.MakeDate day (Time.MakeTime 12 0 0 0))
    by (rewrite Hu; symmetry; apply (noon_round_trip host R)).
  rewrite Day_noon, <- Hu. exact Hc.
Qed.

(** X10.  In a regular zone every valid base date is local noon of some
    day, and resolving it again gives it back: the normalisation is
    idempotent, so a base date that has been through [parseBaseDate_]
    selects the same row as the value it was made from. *)
Theorem base_date_is_noon_and_stable (w : World) (v : JsVal) (d : JsDate) :
  ZoneRegular host ->
  parseBaseDate_ host w v = Ok d ->
  (forall u, d = Some u ->
     exists day,
       LocalTime host u = Time.MakeDate day (Time.MakeTime 12 0 0 0)
       /\ getHours host d = Some 12)
  /\ (forall w', parseBaseDate_ host w' (VDate d) = Ok d)
  /\ (forall w' data,
        getNextUpcomingRow_ host w' data (VDate d)
        = getNextUpcomingRow_ host w data v).
Proof.
  intros R Hp. split; [|split].
  - intros u ->. destruct (base_date_noon_form w v u Hp) as (day & Hu & _).
    assert (Hl : LocalTime host u = Time.MakeDate day (Time.MakeTime 12 0 0 0))
      by (rewrite Hu; apply (noon_round_trip host R)).
    exists day. split; [exact Hl|]. unfold getHours. cbn [mbind option_bind].
    now rewrite Hl, TimeFacts.HourFromTime_noon.
  - intros w'. now apply (parseBaseDate_again w w' v).
  - intros w' data. unfold getNextUpcomingRow_.
    rewrite (parseBaseDate_again w w' v d R Hp), Hp. reflexivity.
Qed.

Lemma Run_bind_lift_Ok {A B} (a : A) (f : A -> Run B) :
  Run_bind (Run_lift (Ok a)) f = f a.
Proof. unfold Run_bind, Run_lift. destruct (f a). reflexivity. Qed.

(** The base date reaches [performReminderSend_] only through the row it
    selects. *)
Lemma performReminderSend_base (w : World) (m : string) (e g : bool) (b1 b2 : JsVal) :
  (forall data, getNextUpcomingRow_ host w data b1
                = getNextUpcomingRow_ host w data b2) ->
  performReminderSend_ host w
    {| mode := m; sendEmail := e; sendGroupMe := g; optBaseDate := b1 |}
  = performReminderSend_ host w
      {| mode := m; sendEmail := e; sendGroupMe := g; optBaseDate := b2 |}.
Proof.
  intros H. unfold performReminderSend_. cbn [mode sendEmail sendGroupMe optBaseDate].
  destruct (getSheetData_ w ScheduleSheetName) as [data|]; [|reflexivity].
  rewrite !Run_bind_lift_Ok. now rewrite H.
Qed.

(** X11.  [testSendNotif] resolves [TEST_BASE_DATE] before it hands it on,
    and the value is resolved a second time inside the row lookup; in a
    regular zone the second pass changes nothing: the test send is the
    test-mode send with the text of the property as base date (and with
    no base date when the property is not set). *)
Theorem testSendNotif_base_date (w : World) :
  ZoneRegular host ->
  testSendNotif host w
  = performReminderSend_ host w
      {| mode := "test"; sendEmail := true; sendGroupMe := true;
         optBaseDate := match getProperty w "TEST_BASE_DATE" with
                        | Some p => VStr p
                        | None => VUndefined
                        end |}.
Proof.
  intros R. unfold testSendNotif.
  destruct (getProperty w "TEST_BASE_DATE") as [p|];
    [|now rewrite Run_bind_lift_Ok].
  destruct (Str.isEmpty p) eqn:E.
  - rewrite Run_bind_lift_Ok. destruct p; [|discriminate].
    apply performReminderSend_base. reflexivity.
  - destruct (parseBaseDate_total host w (VStr p)) as [d Hd]. rewrite Hd.
    cbn [Exc_bind]. rewrite Run_bind_lift_Ok.
    apply performReminderSend_base. intros data. unfold getNextUpcomingRow_.
    rewrite (parseBaseDate_again w w (VStr p) d R Hd), Hd. reflexivity.
Qed.

Lemma fields_of_day a b :
  Time.Day a = Time.Day b ->
  Time.YearFromTime a = Time.YearFromTime b
  /\ Time.MonthFromTime a = Time.MonthFromTime b
  /\ Time.DateFromTime a = Time.DateFromTime b.
Proof.
  intros H.
  assert (HY : Time.YearFromTime a = Time.YearFromTime b)
    by (unfold Time.YearFromTime; now rewrite H).
  assert (HW : Time.DayWithinYear a = Time.DayWithinYear b)
    by (unfold Time.DayWithinYear; now rewrite H, HY).
  assert (HL : Time.InLeapYear a = Time.InLeapYear b)
    by (unfold Time.InLeapYear; now rewrite HY).
  assert (HM : Time.MonthFromTime a = Time.MonthFromTime b)
    by (unfold Time.MonthFromTime; now rewrite HW, HL).
  repeat split; try assumption.
  unfold Time.DateFromTime. now rewrite HW, HM, HL.
Qed.

(** X12.  Day truncation keeps the local calendar day.  In a regular
    zone a [Date] handed in as base date (three days inside the range of
    time values) resolves to 12:00 of its own local year, month and day;
    with no base date the result is 12:00 of the local day of the clock. *)
Theorem base_date_keeps_the_calendar_day (w : World) (t : Z) :
  ZoneRegular host ->
  Z.abs t <= Time.maxTime - 3 * Time.msPerDay ->
  (exists u,
     parseBaseDate_ host w (VDate (Some t)) = Ok (Some u)
     /\ getFullYear host (Some u) = getFullYear host (Some t)
     /\ getMonth host (Some u) = getMonth host (Some t)
     /\ getDate host (Some u) = getDate host (Some t)
     /\ getHours host (Some u) = Some 12)
  /\ (now w = t ->
      parseBaseDate_ host w VUndefined = parseBaseDate_ host w (VDate (Some t))).
Proof.
  intros R Ht.
  assert (Hclip : Time.TimeClip t = Some t).
  { unfold Time.TimeClip. destruct (Z.leb_spec (Z.abs t) Time.maxTime); [reflexivity|].
    unfold Time.msPerDay in *. lia. }
  split.
  - destruct (setHours_valid host t R Ht) as [u Hu].
    exists u. split.
    { unfold parseBaseDate_. cbn [Js.truthy negb]. unfold Js.timeValue.
      cbn [mbind option_bind]. now rewrite Hclip, Hu. }
    apply setHours_some in Hu as (t' & [= <-] & ->).
    unfold getFullYear, getMonth, getDate, getHours. cbn [mbind option_bind].
    rewrite (noon_round_trip host R).
    destruct (fields_of_day
                (Time.MakeDate (Time.Day (LocalTime host t)) (Time.MakeTime 12 0 0 0))
                (LocalTime host t) (Day_noon _)) as (-> & -> & ->).
    now rewrite TimeFacts.HourFromTime_noon.
  - intros <-. unfold parseBaseDate_. cbn [Js.truthy negb]. unfold Date_now, Js.timeValue.
    cbn [mbind option_bind]. reflexivity.
Qed.


(** *** The second pattern *)

Lemma digit_not_separator x : Chars.isDigit x = true -> Chars.isSlashOrDash x = false.
Proof.
  rewrite ParseFacts.isDigit_code. unfold Chars.isSlashOrDash. intros H.
  apply orb_false_iff. split; apply Nat.eqb_neq; lia.
Qed.

(** A string in the second pattern is not in the first: its first four
    characters are digits. *)
Lemma iso_is_not_slash s m :
  Regex.matchGroups Regex.isoDate s = Some m ->
  Regex.matchGroups Regex.slashDate s = None.
Proof.
  intros Hiso. destruct (Regex.matchGroups Regex.slashDate s) as [m'|] eqn:Hs;
    [exfalso|reflexivity].
  destruct (ParseFacts.isoDate_groups s m Hiso)
    as (a & b & c & _ & Ha & _ & _ & La & _ & _ & Hc).
  destruct (ParseFacts.slashDate_groups s m' Hs)
    as (a' & b' & c' & _ & _ & _ & _ & La' & _ & _ & x & y & Hx & _ & Hc').
  assert (Hlook : Str.chars s !! length a' = Some x).
  { rewrite Hc'. rewrite lookup_app_r by lia.
    replace (length a' - length a')%nat with 0%nat by lia. reflexivity. }
  rewrite Hc in Hlook. rewrite lookup_app_l in Hlook by lia.
  apply list_elem_of_lookup_2, list_elem_of_In in Hlook.
  rewrite List.Forall_forall in Ha. specialize (Ha x Hlook).
  rewrite (digit_not_separator x Ha) in Hx. discriminate.
Qed.

Lemma noon_of_components_any year month day :
  ZoneRegular host ->
  0 <= year <= 9999 -> -1 <= month <= 98 -> 0 <= day <= 99 ->
  setHours host (Date_ymd host (Some year) (Some month) (Some day)) 12 0 0 0
  = Some (UTC host
            (Time.MakeDate
               (Time.MakeDay (if year <=? 99 then 1900 + year else year) month day)
               (Time.MakeTime 12 0 0 0))).
Proof.
  intros R Hy Hm Hd. unfold Date_ymd.
  replace ((0 <=? year) && (year <=? 99)) with (year <=? 99)
    by (replace (0 <=? year) with true by (symmetry; apply Z.leb_le; lia);
        reflexivity).
  set (yr := if year <=? 99 then 1900 + year else year).
  assert (Hyr : 0 <= yr <= 9999).
  { unfold yr. destruct (Z.leb_spec year 99); lia. }
  pose proof (TimeFacts.MakeDay_bound yr month day Hyr Hm Hd) as B.
  change (Time.MakeTime 0 0 0 0) with 0.
  rewrite TimeClip_local
    by (try exact R; unfold Time.MakeDate, Time.msPerDay; lia).
  unfold setHours. cbn [mbind option_bind].
  rewrite (midnight_same_day host R).
  apply TimeClip_local; [exact R|].
  unfold Time.MakeDate, Time.MakeTime, Time.msPerDay, Time.msPerHour,
    Time.msPerMinute, Time.msPerSecond. lia.
Qed.

(** X13.  On a string in the pattern [yyyy-mm-dd] the result is local
    noon of the day that the Date constructor makes of the three groups,
    and that is the named calendar day when the month is one of 1..12 and
    the day exists in it.  The year is taken as written except below 100,
    where the constructor reads it as 19xx, while the first pattern reads
    a two-digit year as 20xx. *)
Theorem iso_date_resolves_to_calendar_day (w : World) (s : string) (m : list string) :
  ZoneRegular host ->
  Regex.matchGroups Regex.isoDate s = Some m ->
  exists y mo d : Z,
    Js.parseInt10 (nth 0 m "undefined") = Some y
    /\ Js.parseInt10 (nth 1 m "undefined") = Some mo
    /\ Js.parseInt10 (nth 2 m "undefined") = Some d
    /\ 0 <= y <= 9999 /\ 0 <= mo <= 99 /\ 0 <= d <= 99
    /\ let year := if y <=? 99 then 1900 + y else y in
       let localNoon :=
         Time.MakeDate (Time.MakeDay year (mo - 1) d) (Time.MakeTime 12 0 0 0) in
       let result := Some (UTC host localNoon) in
       parseBaseDate_ host w (VStr s) = Ok result
       /\ getHours host result = Some 12
       /\ (1 <= mo <= 12 -> 1 <= d <= Time.DaysInMonth year (mo - 1) ->
           getFullYear host result = Some year
           /\ getMonth host result = Some (mo - 1)
           /\ getDate host result = Some d).
Proof.
  intros R Hm. pose proof (iso_is_not_slash s m Hm) as Hslash.
  destruct (ParseFacts.isoDate_groups s m Hm)
    as (a & b & c & -> & Ha & Hb & Hc & La & Lb & Lc & Hs).
  assert (Ha' : a <> []) by (destruct a; cbn in La; [lia|congruence]).
  assert (Hb' : b <> []) by (destruct b; cbn in Lb; [lia|congruence]).
  assert (Hc' : c <> []) by (destruct c; cbn in Lc; [lia|congruence]).
  pose proof (ParseFacts.decimal_range a Ha) as Ra.
  pose proof (ParseFacts.decimal_range b Hb) as Rb.
  pose proof (ParseFacts.decimal_range c Hc) as Rc.
  rewrite La in Ra. rewrite Lb in Rb. rewrite Lc in Rc.
  change (10 ^ Z.of_nat 2) with 100 in *. change (10 ^ Z.of_nat 4) with 10000 in *.
  exists (Shapes.decimal a), (Shapes.decimal b), (Shapes.decimal c).
  cbn [nth]. rewrite !ParseFacts.parseInt10_digits by assumption.
  do 3 (split; [reflexivity|]). do 3 (split; [lia|]).
  set (y := Shapes.decimal a) in *.
  set (year := if y <=? 99 then 1900 + y else y).
  assert (Hyear : 0 <= year <= 9999).
  { unfold year. destruct (Z.leb_spec y 99); lia. }
  cbv zeta.
  assert (Hne : Str.isEmpty s = false).
  { destruct s; [|reflexivity]. destruct a; [congruence|discriminate]. }
  assert (Htrim : Str.trim s = s).
  { destruct a as [|a0 a1]; [congruence|].
    destruct (ParseFacts.last_split c Hc') as (c1 & c0 & ->).
    inversion Ha; subst. apply Forall_app in Hc as [_ Hc0].
    inversion Hc0; subst.
    apply (ParseFacts.trim_id s a0 (a1 ++ "-"%char :: b ++ "-"%char :: c1) c0).
    - rewrite Hs. cbn. f_equal. rewrite <- !app_assoc. cbn.
      do 2 f_equal. rewrite <- app_assoc. reflexivity.
    - now apply ParseFacts.digit_not_space.
    - now apply ParseFacts.digit_not_space. }
  assert (Hparse : parseBaseDate_ host w (VStr s)
                   = Ok (Some (UTC host (Time.MakeDate
                                           (Time.MakeDay year (Shapes.decimal b - 1)
                                                         (Shapes.decimal c))
                                           (Time.MakeTime 12 0 0 0))))).
  { rewrite parseBaseDate_shape
      by (try (cbn [Js.truthy]; now rewrite Hne); intros tv; discriminate).
    cbv zeta. cbn [ToString]. rewrite Htrim, Hne, Hslash, Hm. cbn [nth].
    rewrite !ParseFacts.parseInt10_digits by assumption.
    cbn [fmap option_fmap option_map]. fold y.
    rewrite noon_of_components_any by (try exact R; lia). reflexivity. }
  split; [exact Hparse|].
  split.
  { unfold getHours. cbn [mbind option_bind]. rewrite (noon_round_trip host R).
    now rewrite TimeFacts.HourFromTime_noon. }
  intros Hmo Hd.
  unfold getFullYear, getMonth, getDate. cbn [mbind option_bind].
  rewrite (noon_round_trip host R).
  destruct (TimeFacts.civil_roundtrip year (Shapes.decimal b - 1)
              (Shapes.decimal c) (Time.MakeTime 12 0 0 0))
    as (HY & HM & HD); try lia.
  { cbv. split; [discriminate|reflexivity]. }
  cbv zeta in HY, HM, HD. rewrite HY, HM, HD. repeat split; reflexivity.
Qed.

(** *** The scan, once more *)

(** X14.  The first match wins for good: rows appended to the table never
    change a selection that has been made.  The first row of the table,
    the header, is never examined, whatever it holds; and a table that is
    empty or holds the header alone selects nothing. *)
Theorem selection_is_stable_under_appending
    (w : World) (data more : Table) (opt : JsVal) :
  (forall k, getNextUpcomingRow_ host w data opt = Ok (Some k) ->
             getNextUpcomingRow_ host w (data ++ more) opt = Ok (Some k))
  /\ (forall h h', getNextUpcomingRow_ host w (h :: data) opt
                   = getNextUpcomingRow_ host w (h' :: data) opt)
  /\ ((length data <= 1)%nat -> getNextUpcomingRow_ host w data opt = Ok None).
Proof.
  destruct (getNextUpcomingRow_find host w data opt) as (today & Ht & Hf).
  destruct (getNextUpcomingRow_find host w (data ++ more) opt) as (today' & Ht' & Hf').
  assert (today' = today) by congruence. subst today'.
  split; [|split].
  - intros k Hk. rewrite Hf in Hk. injection Hk as Hk. rewrite Hf'. do 2 f_equal.
    destruct data as [|h data]; [discriminate|].
    cbn [app drop] in *. rewrite drop_0 in *.
    clear -Hk. induction data as [|r data IH]; [discriminate|].
    cbn [app List.find] in *.
    destruct (inWindow host today (windowEnd host today) r); [exact Hk|auto].
  - intros h h'.
    destruct (getNextUpcomingRow_find host w (h :: data) opt) as (t1 & Ht1 & ->).
    destruct (getNextUpcomingRow_find host w (h' :: data) opt) as (t2 & Ht2 & ->).
    assert (t1 = t2) by congruence. now subst t2.
  - intros Hlen. rewrite Hf. rewrite (drop_ge data 1 Hlen). reflexivity.
Qed.


(** *** The two revisions *)

(** Both revisions pin the same date, at another hour. *)
Lemma parseBaseDate_pins (w : World) (v : JsVal) :
  exists X : JsDate,
    parseBaseDate_ host w v = Ok (setHours host X 12 0 0 0)
    /\ Variant003.parseBaseDate_ host w v = Ok (setHours host X 0 0 0 0).
Proof.
  unfold parseBaseDate_, Variant003.parseBaseDate_.
  destruct (negb (Js.truthy v)); [eauto|].
  destruct v; rewrite ?toStringMethod_guarded; cbn [Exc_bind]; eauto;
    repeat match goal with
           | |- context [if ?c then _ else _] => destruct c
           | |- context [match ?x with Some _ => _ | None => _ end] =>
               destruct x eqn:?
           end; eauto.
Qed.

Lemma variant_find w data opt :
  exists today,
    Variant003.parseBaseDate_ host w opt = Ok today
    /\ Variant003.getNextUpcomingRow_ host w data opt
       = Ok (List.find (inWindow host today (windowEnd host today)) (drop 1 data)).
Proof.
  destruct (parseBaseDate_pins w opt) as (X & _ & HX).
  exists (setHours host X 0 0 0 0). split; [exact HX|].
  unfold Variant003.getNextUpcomingRow_. rewrite HX. cbn [Exc_bind].
  f_equal. apply scanRows_find. lia.
Qed.

(** X15.  Where the offset from UTC is constant, the earlier revision
    resolves every base date twelve hours before [script.js] does, so
    its window of seven days is the same window moved twelve hours back:
    a row dated at local midnight of the base day is selected by the
    earlier revision and passed over by [script.js]. *)
Theorem earlier_revision_starts_at_midnight
    (w : World) (v : JsVal) (off c : Z) (data : Table) :
  (forall t b, LocalTZA host t b = off) ->
  parseBaseDate_ host w v = Ok (Some c) ->
  Z.abs c <= Time.maxTime - 8 * Time.msPerDay ->
  let c0 := c - 12 * Time.msPerHour in
  let week := 7 * Time.msPerDay in
  Variant003.parseBaseDate_ host w v = Ok (Some c0)
  /\ Variant003.getNextUpcomingRow_ host w data v
     = Ok (List.find (inWindow host (Some c0) (Some (c0 + week))) (drop 1 data))
  /\ getNextUpcomingRow_ host w data v
     = Ok (List.find (inWindow host (Some c) (Some (c + week))) (drop 1 data))
  /\ forall h rest,
       let k := VDate (Some c0) :: rest in
       Variant003.getNextUpcomingRow_ host w [h; k] v = Ok (Some k)
       /\ getNextUpcomingRow_ host w [h; k] v = Ok None.
Proof.
  intros Hz Hc Hb c0 week.
  assert (Hend : forall u, Z.abs u <= Time.maxTime - 7 * Time.msPerDay ->
                           windowEnd host (Some u) = Some (u + week)).
  { intros u Hu. rewrite windowEnd_calendar. unfold LocalTime, UTC.
    rewrite !Hz. unfold Time.TimeClip.
    replace (u + off + 7 * Time.msPerDay - off) with (u + week)
      by (unfold week; lia).
    replace (Z.abs (u + week) <=? Time.maxTime) with true; [reflexivity|].
    symmetry. apply Z.leb_le. unfold week, Time.msPerDay, Time.maxTime in *. lia. }
  assert (Hv : Variant003.parseBaseDate_ host w v = Ok (Some c0)).
  { destruct (parseBaseDate_pins w v) as (X & HX & HX0).
    rewrite HX in Hc. injection Hc as Hc.
    destruct (setHours_some X 12 c Hc) as (t & -> & Hform).
    rewrite HX0. f_equal. unfold setHours. cbn [mbind option_bind].
    unfold UTC in *. rewrite Hz in *. unfold Time.TimeClip.
    assert (E : Time.MakeDate (Time.Day (LocalTime host t)) (Time.MakeTime 0 0 0 0) - off
                = c0).
    { unfold c0. rewrite Hform. unfold Time.MakeDate, Time.MakeTime,
        Time.msPerHour, Time.msPerMinute, Time.msPerSecond. lia. }
    rewrite E.
    replace (Z.abs c0 <=? Time.maxTime) with true; [reflexivity|].
    symmetry. apply Z.leb_le.
    unfold c0, Time.msPerDay, Time.msPerHour, Time.msPerMinute,
      Time.msPerSecond, Time.maxTime in *. lia. }
  assert (Hw0 : windowEnd host (Some c0) = Some (c0 + week)).
  { apply Hend. unfold c0, Time.msPerDay, Time.msPerHour, Time.msPerMinute,
      Time.msPerSecond, Time.maxTime in *. lia. }
  assert (Hw : windowEnd host (Some c) = Some (c + week)).
  { apply Hend. unfold Time.msPerDay, Time.maxTime in *. lia. }
  assert (G0 : forall d, Variant003.getNextUpcomingRow_ host w d v
               = Ok (List.find (inWindow host (Some c0) (Some (c0 + week))) (drop 1 d))).
  { intros d. destruct (variant_find w d v) as (today & Ht & Hf).
    rewrite Hv in Ht. injection Ht as <-. now rewrite Hf, Hw0. }
  assert (G : forall d, getNextUpcomingRow_ host w d v
               = Ok (List.find (inWindow host (Some c) (Some (c + week))) (drop 1 d))).
  { intros d. destruct (getNextUpcomingRow_find host w d v) as (today & Ht & Hf).
    rewrite Hc in Ht. injection Ht as <-. now rewrite Hf, Hw. }
  split; [exact Hv|]. split; [apply G0|]. split; [apply G|].
  intros h rest k. rewrite G0, G. cbn [drop List.find].
  assert (Hk : Date_fromValue host (Js.index k 0) = Some c0).
  { unfold k. cbn. unfold Time.TimeClip.
    replace (Z.abs c0 <=? Time.maxTime) with true; [reflexivity|].
    symmetry. apply Z.leb_le.
    unfold c0, Time.msPerDay, Time.msPerHour, Time.msPerMinute,
      Time.msPerSecond, Time.maxTime in *. lia. }
  unfold inWindow. rewrite Hk. unfold Js.Date_ge, Js.Date_le.
  replace (c0 <=? c0) with true by (symmetry; apply Z.leb_le; lia).
  replace (c0 <=? c0 + week) with true
    by (symmetry; apply Z.leb_le; unfold week, Time.msPerDay; lia).
  replace (c <=? c0) with false
    by (symmetry; apply Z.leb_gt; unfold c0, Time.msPerHour, Time.msPerMinute,
          Time.msPerSecond; lia).
  split; reflexivity.
Qed.

(** *** What a send reads *)

Lemma parseBaseDate_reads_clock (w w' : World) (v : JsVal) :
  now w = now w' -> parseBaseDate_ host w v = parseBaseDate_ host w' v.
Proof. intros H. unfold parseBaseDate_, Date_now. now rewrite H. Qed.

Lemma composeReminder__reads_sheet_id (w w' : World) (k : option Row) :
  getProperty w "SHEET_ID" = getProperty w' "SHEET_ID" ->
  composeReminder_ host w k = composeReminder_ host w' k.
Proof.
  intros H. unfold composeReminder_, buildEmailBody_, buildGroupMeMessage_,
    getSignupUrl_, getSheetId_, requireProperty. now rewrite H.
Qed.

Lemma getSheetData_reads (w w' : World) (name : string) :
  getProperty w "SHEET_ID" = getProperty w' "SHEET_ID" ->
  sheets w !! name = sheets w' !! name ->
  getSheetData_ w name = getSheetData_ w' name.
Proof.
  intros H1 H2. unfold getSheetData_, getSheetId_, requireProperty.
  rewrite H1. destruct (getProperty w' "SHEET_ID") as [v|]; [|reflexivity].
  destruct (Str.isEmpty v); [reflexivity|]. cbn [Exc_bind].
  unfold Table, Row in *. now rewrite H2.
Qed.

Lemma performReminderSend_reads (w w' : World) (opts : Opts) :
  now w = now w' ->
  getProperty w "SHEET_ID" = getProperty w' "SHEET_ID" ->
  sheets w !! ScheduleSheetName = sheets w' !! ScheduleSheetName ->
  (let m := if Str.isEmpty (mode opts) then "prod" else mode opts in
   getRecipientsForMode_ w m = getRecipientsForMode_ w' m
   /\ getGroupMeBotIdForMode_ w m = getGroupMeBotIdForMode_ w' m) ->
  performReminderSend_ host w opts = performReminderSend_ host w' opts.
Proof.
  intros Hn Hid Hs [Hr Hb]. unfold performReminderSend_.
  rewrite (getSheetData_reads w w' _ Hid Hs).
  destruct (getSheetData_ w' ScheduleSheetName) as [data|]; [|reflexivity].
  rewrite !Run_bind_lift_Ok. unfold getNextUpcomingRow_.
  rewrite (parseBaseDate_reads_clock w w' _ Hn).
  destruct (Exc_bind _ _) as [k|]; [|reflexivity].
  rewrite !Run_bind_lift_Ok.
  rewrite (composeReminder__reads_sheet_id w w' k Hid).
  destruct (composeReminder_ host w' k) as [r|]; [|reflexivity].
  rewrite !Run_bind_lift_Ok. now rewrite Hr, Hb.
Qed.

Lemma prod_mode (w : World) :
  getRecipientsForMode_ w "prod" = getEmailRecipients_ w
  /\ getGroupMeBotIdForMode_ w "prod" = getGroupMeBotId_ w.
Proof. split; reflexivity. Qed.

Lemma test_mode (w : World) :
  getRecipientsForMode_ w "test" = getTestEmailRecipients_ w
  /\ getGroupMeBotIdForMode_ w "test" = getTestGroupMeBotId_ w.
Proof. split; reflexivity. Qed.

(** X16.  A test send reads the clock, the properties [SHEET_ID],
    [TEST_BASE_DATE], [TEST_EMAIL_RECIPIENTS] and [TEST_GROUPME_BOT_ID]
    and the sheet [Schedule], and nothing else: the production bot id
    and the sheet [Emails] have no part in it. *)
Theorem test_send_reads_only_test_settings (w w' : World) :
  now w = now w' ->
  (forall key,
      In key ["SHEET_ID"; "TEST_BASE_DATE"; "TEST_EMAIL_RECIPIENTS";
              "TEST_GROUPME_BOT_ID"] ->
      getProperty w key = getProperty w' key) ->
  sheets w !! "Schedule" = sheets w' !! "Schedule" ->
  testSendNotif host w = testSendNotif host w'.
Proof.
  intros Hn Hp Hs.
  assert (H1 := Hp "SHEET_ID" ltac:(cbn; tauto)).
  assert (H2 := Hp "TEST_BASE_DATE" ltac:(cbn; tauto)).
  assert (H3 := Hp "TEST_EMAIL_RECIPIENTS" ltac:(cbn; tauto)).
  assert (H4 := Hp "TEST_GROUPME_BOT_ID" ltac:(cbn; tauto)).
  unfold testSendNotif. rewrite H2.
  destruct (getProperty w' "TEST_BASE_DATE") as [p|].
  - rewrite (parseBaseDate_reads_clock w w' _ Hn).
    destruct (if Str.isEmpty p then _ else _) as [b|]; [|reflexivity].
    rewrite !Run_bind_lift_Ok.
    apply performReminderSend_reads; auto.
    cbv zeta. cbn [mode Str.isEmpty].
    destruct (test_mode w) as [-> ->]. destruct (test_mode w') as [-> ->].
    unfold getTestEmailRecipients_, getTestGroupMeBotId_, requireProperty.
    now rewrite H3, H4.
  - rewrite !Run_bind_lift_Ok.
    apply performReminderSend_reads; auto.
    cbv zeta. cbn [mode Str.isEmpty].
    destruct (test_mode w) as [-> ->]. destruct (test_mode w') as [-> ->].
    unfold getTestEmailRecipients_, getTestGroupMeBotId_, requireProperty.
    now rewrite H3, H4.
Qed.

(** X17.  A production send reads the clock, the properties [SHEET_ID]
    and [GROUPME_BOT_ID] and the sheets [Schedule] and [Emails], and
    nothing else: no test setting has a part in it. *)
Theorem production_send_reads_no_test_setting (w w' : World) :
  now w = now w' ->
  (forall key, In key ["SHEET_ID"; "GROUPME_BOT_ID"] ->
               getProperty w key = getProperty w' key) ->
  (forall name, In name ["Schedule"; "Emails"] ->
                sheets w !! name = sheets w' !! name) ->
  sendNotif host w = sendNotif host w'.
Proof.
  intros Hn Hp Hs.
  assert (H1 := Hp "SHEET_ID" ltac:(cbn; tauto)).
  assert (H2 := Hp "GROUPME_BOT_ID" ltac:(cbn; tauto)).
  assert (H3 := Hs "Schedule" ltac:(cbn; tauto)).
  assert (H4 := Hs "Emails" ltac:(cbn; tauto)).
  unfold sendNotif. apply performReminderSend_reads; auto.
  cbv zeta. cbn [mode Str.isEmpty].
  destruct (prod_mode w) as [-> ->]. destruct (prod_mode w') as [-> ->].
  unfold getEmailRecipients_, getGroupMeBotId_, requireProperty.
  now rewrite (getSheetData_reads w w' EmailSheetName H1 H4), H2.
Qed.


(** *** Modes and failures of a send *)

Lemma sendEmail_returns subj body rs :
  snd (sendEmailToRecipients_ host subj body rs) = Ok tt.
Proof.
  unfold sendEmailToRecipients_. destruct rs as [|r rs]; [reflexivity|].
  unfold partitionRecipients. rewrite Exc_map_normalize. cbn [Exc_bind].
  rewrite Run_bind_lift_Ok.
  destruct (validateLoop _ _ _) as [[|? ?] [|? ?]]; reflexivity.
Qed.

Lemma sendEmail_run subj body rs :
  sendEmailToRecipients_ host subj body rs
  = (fst (sendEmailToRecipients_ host subj body rs), Ok tt).
Proof.
  rewrite <- (sendEmail_returns subj body rs).
  now destruct (sendEmailToRecipients_ host subj body rs).
Qed.

(** X18.  A send without a mode is a production send, and every mode
    other than the exact text [prod] is handled as a test send: it takes
    the test recipients and the test bot id. *)
Theorem mode_other_than_prod_is_test (w : World) (opts : Opts) :
  performReminderSend_ host w opts
  = performReminderSend_ host w
      {| mode := if Str.isEmpty (mode opts) || String.eqb (mode opts) "prod"
                 then "prod" else "test";
         sendEmail := sendEmail opts;
         sendGroupMe := sendGroupMe opts;
         optBaseDate := optBaseDate opts |}.
Proof.
  unfold performReminderSend_. cbn [mode sendEmail sendGroupMe optBaseDate].
  assert (E : forall m,
             (getRecipientsForMode_ w (if Str.isEmpty m then "prod" else m)
              = getRecipientsForMode_ w
                  (if Str.isEmpty (if Str.isEmpty m || String.eqb m "prod"
                                   then "prod" else "test")
                   then "prod"
                   else if Str.isEmpty m || String.eqb m "prod"
                        then "prod" else "test"))
             /\ (getGroupMeBotIdForMode_ w (if Str.isEmpty m then "prod" else m)
                 = getGroupMeBotIdForMode_ w
                     (if Str.isEmpty (if Str.isEmpty m || String.eqb m "prod"
                                      then "prod" else "test")
                      then "prod"
                      else if Str.isEmpty m || String.eqb m "prod"
                           then "prod" else "test"))).
  { intros m. unfold getRecipientsForMode_, getGroupMeBotIdForMode_.
    destruct (Str.isEmpty m) eqn:Em; [split; reflexivity|].
    cbn [orb]. destruct (String.eqb m "prod") eqn:Ep.
    - cbn [Str.isEmpty]. change (String.eqb "prod" "prod") with true.
      split; reflexivity.
    - cbn [Str.isEmpty]. change (String.eqb "test" "prod") with false.
      split; reflexivity. }
  destruct (E (mode opts)) as [<- <-]. reflexivity.
Qed.

(** X19.  A send stops at its first failure.  Nothing has been sent when
    the schedule cannot be read or the reminder cannot be composed for
    the selected row; the bot id is looked up only after the email step,
    so a failing lookup ends the run with the email already sent. *)
Theorem send_stops_at_first_failure (w : World) (opts : Opts) :
  let md := if Str.isEmpty (mode opts) then "prod" else mode opts in
  (forall e, getSheetData_ w ScheduleSheetName = Throw e ->
             performReminderSend_ host w opts = ([], Throw e)
             /\ (e = MissingProperty "SHEET_ID" \/ e = TypeError "getDataRange"))
  /\ (forall data e,
         getSheetData_ w ScheduleSheetName = Ok data ->
         composeReminder host w data (optBaseDate opts) = Throw e ->
         performReminderSend_ host w opts = ([], Throw e))
  /\ (forall data rem,
         getSheetData_ w ScheduleSheetName = Ok data ->
         composeReminder host w data (optBaseDate opts) = Ok rem ->
         sendEmail opts = true ->
         (forall e, getRecipientsForMode_ w md = Throw e ->
                    performReminderSend_ host w opts = ([], Throw e))
         /\ (forall rs e,
                getRecipientsForMode_ w md = Ok rs ->
                sendGroupMe opts = true ->
                getGroupMeBotIdForMode_ w md = Throw e ->
                performReminderSend_ host w opts
                = (fst (sendEmailToRecipients_ host (subject rem) (emailBody rem) rs),
                   Throw e))).
Proof.
  cbv zeta. unfold performReminderSend_, composeReminder.
  split; [|split].
  - intros e He. split; [now rewrite He|].
    revert He. unfold getSheetData_, getSheetId_, requireProperty.
    destruct (getProperty w "SHEET_ID") as [v|]; [|intros [= <-]; auto].
    destruct (Str.isEmpty v); [intros [= <-]; auto|]. cbn [Exc_bind].
    destruct (_ !! _); [discriminate|intros [= <-]; auto].
  - intros data e Hd Hc. rewrite Hd, Run_bind_lift_Ok.
    destruct (getNextUpcomingRow_ host w data (optBaseDate opts)) as [k|];
      [|cbn in Hc; now injection Hc as <-].
    cbn [Exc_bind] in Hc. now rewrite Run_bind_lift_Ok, Hc.
  - intros data rem Hd Hc Hmail.
    destruct (getNextUpcomingRow_ host w data (optBaseDate opts)) as [k|] eqn:Hk;
      [|discriminate].
    cbn [Exc_bind] in Hc. split.
    + intros e Hr.
      rewrite Hd, Run_bind_lift_Ok, Hk, Run_bind_lift_Ok, Hc, Run_bind_lift_Ok,
        Hmail, Hr.
      reflexivity.
    + intros rs e Hr Hg Hb.
      rewrite Hd, Run_bind_lift_Ok, Hk, Run_bind_lift_Ok, Hc, Run_bind_lift_Ok,
        Hmail, Hr, Run_bind_lift_Ok, Hg, Hb.
      rewrite sendEmail_run. cbn. now rewrite app_nil_r.
Qed.

(** *** The entry points of the earlier revision *)

Lemma message_follows (w : World) (k : option Row) (s b : string) :
  buildEmailSubject_ host k = Ok s ->
  buildEmailBody_ host w k = Ok b ->
  exists m, buildGroupMeMessage_ host w k = Ok m.
Proof.
  destruct k as [r|]; [|cbn; eauto].
  unfold buildEmailSubject_, buildEmailBody_, buildGroupMeMessage_.
  destruct (getShortDate_ host (Js.index r 0)) as [sd|]; [|discriminate].
  cbn [Exc_bind].
  destruct (isNoGroupRow_ host (Some r)) as [[|]|]; cbn [Exc_bind];
    [eauto| |discriminate].
  intros _. destruct (formatRowDate_ host _ _); [|discriminate]. cbn [Exc_bind].
  destruct (getSignupUrl_ w); [|discriminate]. cbn [Exc_bind]. eauto.
Qed.

(** The steps after the row lookup, in the order of the earlier revision
    and in the order of [performReminderSend_]. *)
Lemma tails_agree (w : World) (k : option Row)
      (rec : Exc (list JsVal)) (bot : Exc string) :
  let old :=
    run! emailBody := Run_lift (buildEmailBody_ host w k) in
    run! subject := Run_lift (buildEmailSubject_ host k) in
    run! recipients := Run_lift rec in
    run! _ := sendEmailToRecipients_ host subject emailBody recipients in
    run! message := Run_lift (buildGroupMeMessage_ host w k) in
    run! botId := Run_lift bot in
    postGroupMeMessageWithBotId_ botId message in
  let new :=
    run! reminder := Run_lift (composeReminder_ host w k) in
    run! _ := (run! recipients := Run_lift rec in
               sendEmailToRecipients_ host (subject reminder) (emailBody reminder)
                                      recipients) in
    run! botId := Run_lift bot in
    postGroupMeMessageWithBotId_ botId (message reminder) in
  fst old = fst new /\ (snd old = Ok tt <-> snd new = Ok tt).
Proof.
  cbv zeta. unfold composeReminder_.
  destruct (buildEmailSubject_ host k) as [s|es] eqn:Es;
    destruct (buildEmailBody_ host w k) as [b|eb] eqn:Eb; cbn [Exc_bind];
    rewrite ?Run_bind_lift_Ok;
    try (cbn; split; [reflexivity|split; discriminate]).
  destruct (message_follows w k s b Es Eb) as [m ->]. cbn [Exc_bind].
  rewrite !Run_bind_lift_Ok. cbn [subject emailBody message].
  destruct rec as [rs|]; [|cbn; split; [reflexivity|tauto]].
  rewrite !Run_bind_lift_Ok. split; [reflexivity|tauto].
Qed.

(** X20.  The entry points of [script.js] send what the combined entry
    points of the earlier revision sent: when both revisions select the
    same row of the schedule, the two runs have the same effects in the
    same order, and one succeeds exactly when the other does (the builders
    run in another order, so a failing run may raise another error). *)
Theorem refactored_send_keeps_effects (w : World) (opt : JsVal) :
  (forall data,
      getSheetData_ w ScheduleSheetName = Ok data ->
      Variant003.getNextUpcomingRow_ host w data opt
      = getNextUpcomingRow_ host w data opt) ->
  let same (a b : Run unit) :=
    fst a = fst b /\ (snd a = Ok tt <-> snd b = Ok tt) in
  same (Variant003.testSendScheduledEmailAndGroupMeFromSheet host w opt)
       (performReminderSend_ host w
          {| mode := "test"; sendEmail := true; sendGroupMe := true;
             optBaseDate := opt |})
  /\ (opt = VUndefined ->
      same (Variant003.sendScheduledEmailAndGroupMeFromSheet host w)
           (sendNotif host w)).
Proof.
  intros Hsel. cbv zeta.
  unfold Variant003.testSendScheduledEmailAndGroupMeFromSheet,
    Variant003.sendScheduledEmailAndGroupMeFromSheet, sendNotif,
    performReminderSend_.
  cbn [mode sendEmail sendGroupMe optBaseDate Str.isEmpty].
  destruct (test_mode w) as [-> ->]. destruct (prod_mode w) as [-> ->].
  destruct (getSheetData_ w ScheduleSheetName) as [data|e] eqn:Hd.
  2:{ cbn. repeat split; intros; discriminate. }
  rewrite !Run_bind_lift_Ok. specialize (Hsel data eq_refl).
  split.
  - rewrite Hsel.
    destruct (getNextUpcomingRow_ host w data opt) as [k|];
      [|cbn; repeat split; discriminate].
    rewrite !Run_bind_lift_Ok.
    apply (tails_agree w k (getTestEmailRecipients_ w) (getTestGroupMeBotId_ w)).
  - intros ->. rewrite Hsel.
    destruct (getNextUpcomingRow_ host w data VUndefined) as [k|];
      [|cbn; repeat split; discriminate].
    rewrite !Run_bind_lift_Ok.
    apply (tails_agree w k (getEmailRecipients_ w) (getGroupMeBotId_ w)).
Qed.

(** X21.  In the earlier revision the combined entry point is, for one
    reading of the clock, the email entry point followed by the chat
    entry point: it has the effects of
    the first, then those of the second, and fails where the first of
    them fails. *)
Theorem combined_entry_is_email_then_chat (w : World) :
  Variant003.sendScheduledEmailAndGroupMeFromSheet host w
  = (run! _ := Variant003.sendScheduledEmailFromSheet host w in
     Variant003.postGroupMeReminderFromSheet host w)
  /\ Variant003.testSendScheduledEmailAndGroupMeFromSheet host w VUndefined
     = (run! _ := Variant003.testSendScheduledEmailFromSheet host w in
        Variant003.testPostGroupMeReminderFromSheet host w).
Proof.
  unfold Variant003.sendScheduledEmailAndGroupMeFromSheet,
    Variant003.sendScheduledEmailFromSheet,
    Variant003.postGroupMeReminderFromSheet,
    Variant003.testSendScheduledEmailAndGroupMeFromSheet,
    Variant003.testSendScheduledEmailFromSheet,
    Variant003.testPostGroupMeReminderFromSheet.
  destruct (getSheetData_ w ScheduleSheetName) as [data|]; [|split; reflexivity].
  rewrite !Run_bind_lift_Ok.
  destruct (Variant003.getNextUpcomingRow_ host w data VUndefined) as [k|];
    [|split; reflexivity].
  rewrite !Run_bind_lift_Ok.
  destruct (buildEmailBody_ host w k) as [b|]; [|split; reflexivity].
  rewrite !Run_bind_lift_Ok.
  destruct (buildEmailSubject_ host k) as [s|]; [|split; reflexivity].
  rewrite !Run_bind_lift_Ok.
  split.
  - destruct (getEmailRecipients_ w) as [rs|]; [|reflexivity].
    rewrite !Run_bind_lift_Ok. reflexivity.
  - destruct (getTestEmailRecipients_ w) as [rs|]; [|reflexivity].
    rewrite !Run_bind_lift_Ok. reflexivity.
Qed.


(** *** Text around a base date, time of day of a row *)

Lemma parseBaseDate_text (w : World) (x : string) :
  parseBaseDate_ host w (VStr x) = parseBaseDate_ host w (VStr (Str.trim x)).
Proof.
  destruct (Str.isEmpty x) eqn:Ex; [destruct x; [reflexivity|discriminate]|].
  rewrite (parseBaseDate_shape host w (VStr x))
    by (try (cbn [Js.truthy]; now rewrite Ex); intros tv; discriminate).
  cbv zeta. cbn [ToString].
  destruct (Str.isEmpty (Str.trim x)) eqn:Et.
  - destruct (Str.trim x); [reflexivity|discriminate].
  - rewrite (parseBaseDate_shape host w (VStr (Str.trim x)))
      by (try (cbn [Js.truthy]; now rewrite Et); intros tv; discriminate).
    cbv zeta. cbn [ToString]. rewrite StrFacts.trim_idem, Et. reflexivity.
Qed.

(** X22.  A base date given as text is read without the white space
    around it: two texts that are equal after trimming resolve to the
    same base date and select the same row. *)
Theorem base_date_text_is_trimmed (w : World) (x y : string) :
  Str.trim x = Str.trim y ->
  parseBaseDate_ host w (VStr x) = parseBaseDate_ host w (VStr y)
  /\ forall data, getNextUpcomingRow_ host w data (VStr x)
                  = getNextUpcomingRow_ host w data (VStr y).
Proof.
  intros H.
  assert (E : parseBaseDate_ host w (VStr x) = parseBaseDate_ host w (VStr y))
    by (rewrite (parseBaseDate_text w x), (parseBaseDate_text w y); now rewrite H).
  split; [exact E|]. intros data. unfold getNextUpcomingRow_. now rewrite E.
Qed.

(** X23.  The messages show the day of a row and not its time of day:
    two rows that differ only in the time of day of their date cell, on
    the same local day, format to the same text and give the same
    subject, email body and chat message. *)
Theorem messages_show_the_day_only
    (w : World) (t t' : Z) (rest : Row) :
  Z.abs t <= Time.maxTime -> Z.abs t' <= Time.maxTime ->
  Time.Day (LocalTime host t) = Time.Day (LocalTime host t') ->
  let k := Some (VDate (Some t) :: rest) in
  let k' := Some (VDate (Some t') :: rest) in
  (forall pattern,
      formatRowDate_ host (VDate (Some t)) pattern
      = formatRowDate_ host (VDate (Some t')) pattern)
  /\ buildEmailSubject_ host k = buildEmailSubject_ host k'
  /\ buildEmailBody_ host w k = buildEmailBody_ host w k'
  /\ buildGroupMeMessage_ host w k = buildGroupMeMessage_ host w k'.
Proof.
  intros Ht Ht' Hday k k'.
  assert (Hf : forall pattern,
             formatRowDate_ host (VDate (Some t)) pattern
             = formatRowDate_ host (VDate (Some t')) pattern).
  { intros pattern.
    assert (C : forall u, Z.abs u <= Time.maxTime ->
                          Date_fromValue host (VDate (Some u)) = Some u).
    { intros u Hu. unfold Date_fromValue, Js.timeValue. cbn [mbind option_bind].
      unfold Time.TimeClip. apply Z.leb_le in Hu. now rewrite Hu. }
    unfold formatRowDate_. rewrite (C t Ht), (C t' Ht').
    unfold setHours. cbn [mbind option_bind]. now rewrite Hday. }
  assert (Hn : isNoGroupRow_ host k = isNoGroupRow_ host k') by reflexivity.
  split; [exact Hf|].
  unfold buildEmailSubject_, buildEmailBody_, buildGroupMeMessage_, getShortDate_, k, k'.
  fold k k'. rewrite Hn.
  change (Js.index (VDate (Some t) :: rest) 0) with (VDate (Some t)).
  change (Js.index (VDate (Some t') :: rest) 0) with (VDate (Some t')).
  rewrite !Hf.
  repeat split; reflexivity.
Qed.

End ExtraFacts.

(** ** The further properties on concrete inputs *)

Lemma isNoGroupRow_ignores_case_and_padding_witness :
  isNoGroupRow_ RefHost.utc
    (Some [Scenario.daysFromNow 2; VStr "Desc"; VStr " No Group  "; VStr "Food"])
  = isNoGroupRow_ RefHost.utc
      (Some [Scenario.daysFromNow 2; VStr "Desc"; VStr "no group"; VStr "Food"]).
Proof.
  apply (isNoGroupRow_ignores_case_and_padding RefHost.utc
           (Scenario.daysFromNow 2) (VStr "Desc") [VStr "Food"]
           "No Group" "no group" " " "  ").
  - repeat constructor.
  - repeat constructor.
  - reflexivity.
Defined.

Lemma valid_email_has_one_at_witness :
  isValidEmail_ "a@example.com" = true
  /\ length (List.filter (Chars.isChar "@") (Str.chars "a@example.com")) = 1%nat
  /\ Forall (fun c => Chars.isWhiteSpace c = false) (Str.chars "a@example.com")
  /\ (5 <= String.length "a@example.com" <= 320)%nat.
Proof.
  split; [reflexivity|].
  apply (valid_email_has_one_at "a@example.com"). reflexivity.
Defined.

Lemma test_recipients_are_trimmed_witness :
  getTestEmailRecipients_ TestScenario.padded
  = Ok [VStr "a@example.com"; VStr "b@test.org"]
  /\ Forall (fun r => exists s, r = VStr s /\ Str.isEmpty s = false
                                /\ Str.trim s = s
                                /\ normalizeRecipient RefHost.utc r = Ok s)
            [VStr "a@example.com"; VStr "b@test.org"].
Proof.
  split; [reflexivity|].
  apply (test_recipients_are_trimmed RefHost.utc TestScenario.padded).
  reflexivity.
Defined.

Lemma test_recipients_round_trip_witness :
  getTestEmailRecipients_ TestScenario.testOnly
  = Ok [VStr "a@example.com"; VStr "b@test.org"]
  /\ sendEmailToRecipients_ RefHost.utc "subject" "body"
       [VStr "a@example.com"; VStr "b@test.org"]
     = ([MailApp_sendEmail TestScenario.recipients "subject" "body"], Ok tt).
Proof.
  apply (test_recipients_round_trip RefHost.utc TestScenario.testOnly
           ["a@example.com"; "b@test.org"] "subject" "body").
  - discriminate.
  - repeat constructor.
  - repeat constructor.
  - reflexivity.
Defined.


Lemma chat_message_opens_with_subject_witness :
  exists subj,
    buildEmailSubject_ RefHost.utc (Some Scenario.soon) = Ok subj
    /\ (Str.join nl
          [ "Reminder for Mendez/Williams City Group on 12-17";
            "Description: soon"; "Location: loc"; "Food Theme: food";
            "Childcare Duty: cc";
            "Sign up: https://docs.google.com/spreadsheets/d/SHEET123/edit?usp=sharing" ]
        = subj
        \/ exists rest,
            Str.join nl
              [ "Reminder for Mendez/Williams City Group on 12-17";
                "Description: soon"; "Location: loc"; "Food Theme: food";
                "Childcare Duty: cc";
                "Sign up: https://docs.google.com/spreadsheets/d/SHEET123/edit?usp=sharing" ]
            = subj +:+ nl +:+ rest).
Proof.
  apply (chat_message_opens_with_subject RefHost.utc Scenario.world
           (Some Scenario.soon)).
  reflexivity.
Defined.

Lemma composed_message_is_posted_witness :
  Str.isEmpty (Str.trim TestScenario.noGroupText) = false
  /\ postGroupMeMessageWithBotId_ " BOT123 " TestScenario.noGroupText
     = ([UrlFetchApp_fetch "https://api.groupme.com/v3/bots/post" "BOT123"
           TestScenario.noGroupText], Ok tt).
Proof.
  apply (composed_message_is_posted RefHost.utc Scenario.world
           (Some Scenario.noGroup)
           {| subject := TestScenario.noGroupText;
              emailBody := TestScenario.noGroupText;
              message := TestScenario.noGroupText;
              row := Some Scenario.noGroup |}
           " BOT123 ").
  reflexivity.
Defined.

Lemma signup_link_needs_sheet_id_witness :
  (buildEmailBody_ RefHost.utc Scenario.world (Some Scenario.noGroup)
   = buildEmailBody_ RefHost.utc (RefHost.emptyWorld 0) (Some Scenario.noGroup))
  /\ (buildEmailBody_ RefHost.utc (RefHost.emptyWorld 0) (Some Scenario.soon)
      = Throw (MissingProperty "SHEET_ID"))
  /\ exists pre,
      buildGroupMeMessage_ RefHost.utc Scenario.world (Some Scenario.soon)
      = Ok (pre +:+ "Sign up: "
                +:+ "https://docs.google.com/spreadsheets/d/SHEET123/edit?usp=sharing").
Proof.
  split; [|split].
  - apply (proj1 (signup_link_needs_sheet_id RefHost.utc Scenario.world)).
    right. reflexivity.
  - exact (proj1 (proj2 (signup_link_needs_sheet_id RefHost.utc (RefHost.emptyWorld 0))
                    Scenario.soon "Wednesday, December 17, 2025" "12-17"
                    eq_refl eq_refl eq_refl)).
  - exact (proj2 (proj2 (signup_link_needs_sheet_id RefHost.utc Scenario.world)
                    Scenario.soon "Wednesday, December 17, 2025" "12-17"
                    eq_refl eq_refl eq_refl)).
Defined.

Lemma base_date_is_noon_and_stable_witness :
  ZoneRegular RefHost.denver
  /\ parseBaseDate_ RefHost.denver Scenario.world (VStr "12/15/25")
     = Ok (Some (RefHost.noon RefHost.denver 2025 11 15))
  /\ (forall w',
        parseBaseDate_ RefHost.denver w'
          (VDate (Some (RefHost.noon RefHost.denver 2025 11 15)))
        = Ok (Some (RefHost.noon RefHost.denver 2025 11 15)))
  /\ (forall w' data,
        getNextUpcomingRow_ RefHost.denver w' data
          (VDate (Some (RefHost.noon RefHost.denver 2025 11 15)))
        = getNextUpcomingRow_ RefHost.denver Scenario.world data (VStr "12/15/25")).
Proof.
  assert (R : ZoneRegular RefHost.denver).
  { apply at_offset_regular. vm_compute. discriminate. }
  split; [exact R|]. split; [reflexivity|].
  exact (proj2 (base_date_is_noon_and_stable RefHost.denver Scenario.world
                  (VStr "12/15/25")
                  (Some (RefHost.noon RefHost.denver 2025 11 15)) R eq_refl)).
Defined.

Lemma testSendNotif_base_date_witness :
  ZoneRegular RefHost.utc
  /\ testSendNotif RefHost.utc TestScenario.testOnly
     = performReminderSend_ RefHost.utc TestScenario.testOnly
         {| mode := "test"; sendEmail := true; sendGroupMe := true;
            optBaseDate := VStr "12/14/2025" |}.
Proof.
  assert (R : ZoneRegular RefHost.utc).
  { apply at_offset_regular. vm_compute. discriminate. }
  split; [exact R|].
  exact (testSendNotif_base_date RefHost.utc TestScenario.testOnly R).
Defined.

Lemma base_date_keeps_the_calendar_day_witness :
  Z.abs Scenario.clock <= Time.maxTime - 3 * Time.msPerDay
  /\ (exists u,
        parseBaseDate_ RefHost.denver Scenario.world (VDate (Some Scenario.clock))
        = Ok (Some u)
        /\ getFullYear RefHost.denver (Some u) = Some 2025
        /\ getMonth RefHost.denver (Some u) = Some 11
        /\ getDate RefHost.denver (Some u) = Some 15
        /\ getHours RefHost.denver (Some u) = Some 12)
  /\ parseBaseDate_ RefHost.denver Scenario.world VUndefined
     = parseBaseDate_ RefHost.denver Scenario.world (VDate (Some Scenario.clock)).
Proof.
  assert (R : ZoneRegular RefHost.denver).
  { apply at_offset_regular. vm_compute. discriminate. }
  assert (B : Z.abs Scenario.clock <= Time.maxTime - 3 * Time.msPerDay).
  { vm_compute. discriminate. }
  split; [exact B|].
  destruct (base_date_keeps_the_calendar_day RefHost.denver Scenario.world
              Scenario.clock R B) as [H1 H2].
  split; [exact H1 | exact (H2 eq_refl)].
Defined.

Lemma iso_date_witness :
  ZoneRegular RefHost.denver
  /\ Regex.matchGroups Regex.isoDate "0025-03-09" = Some ["0025"; "03"; "09"]
  /\ parseBaseDate_ RefHost.denver (RefHost.emptyWorld 0) (VStr "0025-03-09")
     = Ok (Some (RefHost.noon RefHost.denver 1925 2 9))
  /\ getFullYear RefHost.denver (Some (RefHost.noon RefHost.denver 1925 2 9))
     = Some 1925
  /\ getMonth RefHost.denver (Some (RefHost.noon RefHost.denver 1925 2 9))
     = Some 2
  /\ getDate RefHost.denver (Some (RefHost.noon RefHost.denver 1925 2 9))
     = Some 9.
Proof.
  assert (R : ZoneRegular RefHost.denver).
  { apply at_offset_regular. vm_compute. discriminate. }
  split; [exact R|]. split; [reflexivity|].
  destruct (iso_date_resolves_to_calendar_day RefHost.denver
              (RefHost.emptyWorld 0) "0025-03-09" ["0025"; "03"; "09"] R eq_refl)
    as (y & mo & d & Hy & Hmo & Hd & _ & _ & _ & Hparse & _ & Hfields).
  vm_compute in Hy, Hmo, Hd.
  injection Hy as <-. injection Hmo as <-. injection Hd as <-.
  destruct Hfields as (HY & HM & HD); [lia | vm_compute; split; discriminate |].
  repeat split; assumption.
Defined.

Lemma selection_is_stable_under_appending_witness :
  getNextUpcomingRow_ RefHost.utc Scenario.world Scenario.schedule VUndefined
  = Ok (Some Scenario.soon)
  /\ getNextUpcomingRow_ RefHost.utc Scenario.world
       (Scenario.schedule ++ [Scenario.sooner; Scenario.noGroup]) VUndefined
     = Ok (Some Scenario.soon)
  /\ getNextUpcomingRow_ RefHost.utc Scenario.world [Scenario.soon] VUndefined
     = Ok None.
Proof.
  split; [reflexivity|]. split.
  - apply (proj1 (selection_is_stable_under_appending RefHost.utc Scenario.world
                    Scenario.schedule [Scenario.sooner; Scenario.noGroup]
                    VUndefined)).
    reflexivity.
  - apply (proj2 (proj2 (selection_is_stable_under_appending RefHost.utc
                           Scenario.world [Scenario.soon] [] VUndefined))).
    cbn. lia.
Defined.

Lemma earlier_revision_starts_at_midnight_witness :
  parseBaseDate_ RefHost.denver Scenario.world VUndefined
  = Ok (Some (RefHost.noon RefHost.denver 2025 11 15))
  /\ Variant003.parseBaseDate_ RefHost.denver Scenario.world VUndefined
     = Ok (Some (RefHost.midnight RefHost.denver 2025 11 15))
  /\ forall h rest,
       let k := VDate (Some (RefHost.midnight RefHost.denver 2025 11 15)) :: rest in
       Variant003.getNextUpcomingRow_ RefHost.denver Scenario.world [h; k] VUndefined
       = Ok (Some k)
       /\ getNextUpcomingRow_ RefHost.denver Scenario.world [h; k] VUndefined
          = Ok None.
Proof.
  split; [reflexivity|].
  assert (B : Z.abs (RefHost.noon RefHost.denver 2025 11 15)
              <= Time.maxTime - 8 * Time.msPerDay).
  { vm_compute. discriminate. }
  destruct (earlier_revision_starts_at_midnight RefHost.denver Scenario.world
              VUndefined (-7 * Time.msPerHour)
              (RefHost.noon RefHost.denver 2025 11 15) []
              (fun _ _ => eq_refl) eq_refl B) as (Hv & _ & _ & Hrow).
  split; [exact Hv | exact Hrow].
Defined.

Lemma test_send_reads_only_test_settings_witness :
  testSendNotif RefHost.utc TestScenario.full
  = testSendNotif RefHost.utc TestScenario.testOnly.
Proof.
  apply (test_send_reads_only_test_settings RefHost.utc
           TestScenario.full TestScenario.testOnly).
  - reflexivity.
  - intros key [<-|[<-|[<-|[<-|[]]]]]; reflexivity.
  - reflexivity.
Defined.

Lemma production_send_reads_no_test_setting_witness :
  sendNotif RefHost.utc TestScenario.full = sendNotif RefHost.utc Scenario.world.
Proof.
  apply (production_send_reads_no_test_setting RefHost.utc
           TestScenario.full Scenario.world).
  - reflexivity.
  - intros key [<-|[<-|[]]]; reflexivity.
  - intros name [<-|[<-|[]]]; reflexivity.
Defined.

Lemma send_stops_at_first_failure_witness :
  performReminderSend_ RefHost.utc (RefHost.emptyWorld 0)
    {| mode := "test"; sendEmail := true; sendGroupMe := true;
       optBaseDate := VUndefined |}
  = ([], Throw (MissingProperty "SHEET_ID"))
  /\ performReminderSend_ RefHost.utc TestScenario.botless
       {| mode := "test"; sendEmail := true; sendGroupMe := true;
          optBaseDate := VUndefined |}
     = ([MailApp_sendEmail TestScenario.recipients TestScenario.noGroupText
           TestScenario.noGroupText],
        Throw (MissingProperty "TEST_GROUPME_BOT_ID")).
Proof.
  split.
  - apply (proj1 (send_stops_at_first_failure RefHost.utc (RefHost.emptyWorld 0)
                    {| mode := "test"; sendEmail := true; sendGroupMe := true;
                       optBaseDate := VUndefined |})).
    reflexivity.
  - destruct (send_stops_at_first_failure RefHost.utc TestScenario.botless
                {| mode := "test"; sendEmail := true; sendGroupMe := true;
                   optBaseDate := VUndefined |}) as (_ & _ & H).
    destruct (H [Scenario.header; Scenario.noGroup]
                {| subject := TestScenario.noGroupText;
                   emailBody := TestScenario.noGroupText;
                   message := TestScenario.noGroupText;
                   row := Some Scenario.noGroup |}
                eq_refl eq_refl eq_refl) as [_ H2].
    exact (H2 [VStr "a@example.com"; VStr "b@test.org"]
              (MissingProperty "TEST_GROUPME_BOT_ID") eq_refl eq_refl eq_refl).
Defined.

Lemma refactored_send_keeps_effects_witness :
  fst (Variant003.sendScheduledEmailAndGroupMeFromSheet RefHost.utc Scenario.world)
  = fst (sendNotif RefHost.utc Scenario.world)
  /\ (snd (Variant003.sendScheduledEmailAndGroupMeFromSheet RefHost.utc Scenario.world)
      = Ok tt
      <-> snd (sendNotif RefHost.utc Scenario.world) = Ok tt).
Proof.
  assert (Hsel : forall data,
             getSheetData_ Scenario.world ScheduleSheetName = Ok data ->
             Variant003.getNextUpcomingRow_ RefHost.utc Scenario.world data VUndefined
             = getNextUpcomingRow_ RefHost.utc Scenario.world data VUndefined).
  { intros data H.
    change (getSheetData_ Scenario.world ScheduleSheetName)
      with (@Ok Table Scenario.schedule) in H.
    injection H as <-. reflexivity. }
  apply (proj2 (refactored_send_keeps_effects RefHost.utc Scenario.world
                  VUndefined Hsel)).
  reflexivity.
Defined.

Lemma base_date_text_is_trimmed_witness :
  parseBaseDate_ RefHost.utc Scenario.world (VStr "  12/17/2025 ")
  = parseBaseDate_ RefHost.utc Scenario.world (VStr "12/17/2025")
  /\ forall data,
       getNextUpcomingRow_ RefHost.utc Scenario.world data (VStr "  12/17/2025 ")
       = getNextUpcomingRow_ RefHost.utc Scenario.world data (VStr "12/17/2025").
Proof.
  apply (base_date_text_is_trimmed RefHost.utc Scenario.world
           "  12/17/2025 " "12/17/2025").
  reflexivity.
Defined.

Lemma messages_show_the_day_only_witness :
  buildEmailSubject_ RefHost.utc
    (Some [VDate (Some (RefHost.midnight RefHost.utc 2025 11 17)); VStr "soon"])
  = buildEmailSubject_ RefHost.utc
      (Some [VDate (Some (RefHost.midnight RefHost.utc 2025 11 17
                          + 19 * Time.msPerHour)); VStr "soon"])
  /\ buildGroupMeMessage_ RefHost.utc Scenario.world
       (Some [VDate (Some (RefHost.midnight RefHost.utc 2025 11 17)); VStr "soon"])
     = buildGroupMeMessage_ RefHost.utc Scenario.world
         (Some [VDate (Some (RefHost.midnight RefHost.utc 2025 11 17
                             + 19 * Time.msPerHour)); VStr "soon"]).
Proof.
  assert (B1 : Z.abs (RefHost.midnight RefHost.utc 2025 11 17) <= Time.maxTime).
  { vm_compute. discriminate. }
  assert (B2 : Z.abs (RefHost.midnight RefHost.utc 2025 11 17 + 19 * Time.msPerHour)
               <= Time.maxTime).
  { vm_compute. discriminate. }
  destruct (messages_show_the_day_only RefHost.utc Scenario.world
              (RefHost.midnight RefHost.utc 2025 11 17)
              (RefHost.midnight RefHost.utc 2025 11 17 + 19 * Time.msPerHour)
              [VStr "soon"] B1 B2 eq_refl) as (_ & Hs & _ & Hm).
  split; [exact Hs | exact Hm].
Defined.
